(** * Verification of the PostgreSQL master-user rotation handler

    Shallow embedding of [user-rotation/lambda/rotate_secret.py].

    - A Python [str] is a [string]: a sequence of code points below 256,
      [len] is [String.length].
    - A secret dictionary (the result of [json.loads] on a SecretString) is a
      [gmap string pyval]; the values are the JSON scalars (null, booleans,
      integers, strings).  Arrays, objects and floating point numbers do not
      occur in credential payloads and are not part of [pyval].
    - Calls to Secrets Manager, to the RDS control plane and to the database
      driver are the constructors of [call]; a function of the handler is a
      tree of such calls ([prog]), run against an arbitrary environment by
      [run], which also records the calls that were issued.
    - The logger is not modelled: it never changes control flow. *)

From Stdlib Require Import ZArith Ascii String DecimalString List Lia Bool.
From stdpp Require Import base decidable option list strings gmap fin_maps.

Local Open Scope Z_scope.
Local Open Scope stdpp_scope.

(** ** Python values and strings *)

Inductive pyval :=
| VNone
| VBool (b : bool)
| VInt (z : Z)
| VStr (s : string).

Global Instance pyval_eq_dec : EqDecision pyval.
Proof. solve_decision. Defined.

(** Python's [==] on scalars: [bool] is a subclass of [int], so [True == 1]. *)
Definition py_eq (a b : pyval) : bool :=
  match a, b with
  | VNone, VNone => true
  | VBool x, VBool y => bool_decide (x = y)
  | VInt x, VInt y => bool_decide (x = y)
  | VBool x, VInt y | VInt y, VBool x => bool_decide (Z.b2z x = y)
  | VStr x, VStr y => bool_decide (x = y)
  | _, _ => false
  end.

Definition py_len (s : string) : nat := String.length s.

(** [s.endswith(suffix)]: some tail of [s] is [suffix]. *)
Fixpoint endswith (s suffix : string) : bool :=
  bool_decide (s = suffix) ||
  match s with
  | EmptyString => false
  | String _ s' => endswith s' suffix
  end.

(** [s[:n]] for [0 <= n]. *)
Fixpoint py_take (n : nat) (s : string) : string :=
  match n, s with
  | S n', String c s' => String c (py_take n' s')
  | _, _ => EmptyString
  end.

(** [s[:-k]] for [0 < k]: everything but the last [k] characters. *)
Definition slice_to_neg (s : string) (k : nat) : string :=
  py_take (String.length s - k)%nat s.

(** [str.lower] on code points below 256: A-Z and the Latin-1 capitals. *)
Definition lower_char (c : ascii) : ascii :=
  let n := nat_of_ascii c in
  if ((65 <=? n)%nat && (n <=? 90)%nat)
     || ((192 <=? n)%nat && (n <=? 222)%nat && negb (n =? 215)%nat)
  then ascii_of_nat (n + 32) else c.

Fixpoint lower (s : string) : string :=
  match s with
  | EmptyString => EmptyString
  | String c s' => String (lower_char c) (lower s')
  end.

(** [s.split(sep)] for a one-character separator; never the empty list. *)
Fixpoint split_go (sep : ascii) (cur : string) (s : string) : list string :=
  match s with
  | EmptyString => [String.rev cur]
  | String c s' =>
      if bool_decide (c = sep) then String.rev cur :: split_go sep EmptyString s'
      else split_go sep (String c cur) s'
  end.

Definition split (s : string) (sep : ascii) : list string :=
  split_go sep EmptyString s.

(** [sub in s] on strings. *)
Fixpoint is_prefix (p s : string) : bool :=
  match p, s with
  | EmptyString, _ => true
  | String a p', String b s' => bool_decide (a = b) && is_prefix p' s'
  | String _ _, EmptyString => false
  end.

Fixpoint contains (s sub : string) : bool :=
  is_prefix sub s ||
  match s with
  | EmptyString => false
  | String _ s' => contains s' sub
  end.

(** ** Exceptions

    An exception is its class, the format string of its message and the
    arguments of the [%] operator, left unformatted. *)

Inductive exn_class :=
| ValueError
| KeyError
| TypeError
| AttributeError
| IndexError
| PyException              (* the base class [Exception] *)
| ResourceNotFoundException (* [service_client.exceptions] *)
| ServiceError             (* any other error of a collaborator *).

Global Instance exn_class_eq_dec : EqDecision exn_class.
Proof. solve_decision. Defined.

Inductive exn := Exn (c : exn_class) (fmt : string) (args : list pyval).

Global Instance exn_eq_dec : EqDecision exn.
Proof. solve_decision. Defined.

Definition exn_cls (e : exn) : exn_class := let 'Exn c _ _ := e in c.
Definition exn_fmt (e : exn) : string := let 'Exn _ f _ := e in f.

(** [inl e]: the exception [e] was raised; [inr a]: normal return of [a]. *)
Definition result (A : Type) : Type := exn + A.

(** ** 4.2 The alternate username *)

Definition clone_suffix : string := "_clone".

Definition UsernameTooLong : exn :=
  Exn ValueError
    "Unable to clone user, username length with _clone appended would exceed 63 characters" [].

Definition get_alt_username (current_username : string) : result string :=
  if endswith current_username clone_suffix then
    inr (slice_to_neg current_username (py_len clone_suffix))
  else
    let new_username := current_username +:+ clone_suffix in
    if (63 <? py_len new_username)%nat then inl UsernameTooLong
    else inr new_username.

(** [get_alt_username] on an arbitrary value: the [str] methods exist on
    strings only. *)
Definition no_attribute (v : pyval) (attr : string) : exn :=
  Exn AttributeError "object has no attribute %s" [v; VStr attr].

Definition get_alt_username_val (v : pyval) : result string :=
  match v with
  | VStr s => get_alt_username s
  | _ => inl (no_attribute v "endswith")
  end.

(** ** 4.4 SSL policy *)

Definition get_ssl_config (secret_dict : gmap string pyval) : bool * bool :=
  match secret_dict !! "ssl" with
  | None => (true, true)
  | Some (VBool b) => (b, false)
  | Some (VStr s) =>
      let ssl := lower s in
      if bool_decide (ssl = "true") then (true, false)
      else if bool_decide (ssl = "false") then (false, false)
      else (true, true)
  | Some _ => (true, true)
  end.

(** Every spelling of a lower-case word with some letters capitalised; the
    words used below consist of the letters a-z only. *)
Definition upper_letter (c : ascii) : ascii :=
  ascii_of_nat (nat_of_ascii c - 32).

Fixpoint case_variants (w : string) : list string :=
  match w with
  | EmptyString => [EmptyString]
  | String c w' =>
      let rest := case_variants w' in
      (String c <$> rest) ++ (String (upper_letter c) <$> rest)
  end.

Definition equals_ignoring_case (s w : string) : Prop := s ∈ case_variants w.

(** ** External interfaces (section 6)

    Responses of the collaborators.  A key that a response may lack is an
    [option] field; reading it with [x[key]] raises [KeyError] when absent. *)

Record tag := { Key : string; Value : string }.

Record metadata := {
  RotationEnabled : option bool;
  VersionIdsToStages : option (list (string * list string));
  Tags : option (list tag)
}.

Record secret_value := { SecretString : option string }.

Record random_password_request := {
  ExcludeCharacters : string;
  PasswordLength : Z;
  ExcludeNumbers : bool;
  ExcludePunctuation : bool;
  ExcludeUppercase : bool;
  ExcludeLowercase : bool;
  RequireEachIncludedType : bool
}.

Record random_password_response := { RandomPassword : option string }.

Record endpoint := { Address : option string; Port : option Z }.

Record db_instance := {
  DBInstanceIdentifier : option string;
  Engine : option string;
  Endpoint : option endpoint;
  ReadReplicaSourceDBInstanceIdentifier : option string;
  DBClusterIdentifier : option string
}.

Record cluster_member := {
  member_DBInstanceIdentifier : option string;
  IsClusterWriter : option bool
}.

Record db_cluster := {
  cluster_Endpoint : option string;
  cluster_Port : option Z;
  cluster_Engine : option string;
  ReaderEndpoint : option string;
  DBClusterMembers : option (list cluster_member);
  cluster_other_keys : bool   (* the response has keys besides these five *)
}.

(** The keyword arguments of [psycopg2.connect]. *)
Record conn_args := {
  arg_host : pyval;
  arg_port : Z;
  arg_dbname : pyval;
  arg_user : pyval;
  arg_password : pyval;
  arg_sslmode : string
}.

Definition conn := nat.
Definition cursor := nat.

(** One constructor per method of a client object that the handler invokes,
    carrying the arguments the code passes; the index is the type of the
    response. *)
Inductive call : Type -> Type :=
(* Secrets Manager *)
| DescribeSecret (SecretId : pyval) : call metadata
| GetSecretValue (SecretId : pyval) (VersionId : option string)
    (VersionStage : string) : call secret_value
| PutSecretValue (SecretId : pyval) (ClientRequestToken : string)
    (Secret_String : string) (VersionStages : list string) : call unit
| UpdateSecretVersionStage (SecretId : pyval) (VersionStage : string)
    (MoveToVersionId : string) (RemoveFromVersionId : option string) : call unit
| GetRandomPassword (req : random_password_request) : call random_password_response
(* RDS control plane *)
| DescribeDBInstances (DBInstance_Identifier : string) : call (list db_instance)
| DescribeDBClusters (DBCluster_Identifier : string) : call (list db_cluster)
(* psycopg2 *)
| PgConnect (args : conn_args) : call conn
| PgCursor (c : conn) : call cursor
| PgExecute (cur : cursor) (query : string) (vars : list pyval) : call unit
| PgFetchone (cur : cursor) : call (option (list pyval))
| PgFetchall (cur : cursor) : call (list (list pyval))
| PgCursorClose (cur : cursor) : call unit
| PgCommit (c : conn) : call unit
| PgClose (c : conn) : call unit.

(** ** Programs over the collaborators *)

Inductive prog (A : Type) : Type :=
| Ret (a : A)
| Raise (e : exn)
| Vis (X : Type) (c : call X) (k : result X -> prog A).

Arguments Ret {A} a.
Arguments Raise {A} e.
Arguments Vis {A X} c k.

Fixpoint bind {A B : Type} (p : prog A) (f : A -> prog B) : prog B :=
  match p with
  | Ret a => f a
  | Raise e => Raise e
  | Vis c k => Vis c (fun r => bind (k r) f)
  end.

Notation "x <- p ;; q" := (bind p (fun x => q))
  (at level 100, p at next level, right associativity).
Notation "p ;;; q" := (bind p (fun _ => q))
  (at level 100, right associativity).

(** A method call that propagates the collaborator's exception. *)
Definition invoke {X : Type} (c : call X) : prog X :=
  Vis c (fun r => match r with inl e => Raise e | inr x => Ret x end).

Definition lift {A : Type} (r : result A) : prog A :=
  match r with inl e => Raise e | inr a => Ret a end.

(** [try: p  except Exception as e: h e]; a handler for one class re-raises
    the others. *)
Fixpoint try_except {A : Type} (p : prog A) (h : exn -> prog A) : prog A :=
  match p with
  | Ret a => Ret a
  | Raise e => h e
  | Vis c k => Vis c (fun r => try_except (k r) h)
  end.

(** [try: p  finally: fin]. *)
Fixpoint try_finally {A : Type} (p : prog A) (fin : prog unit) : prog A :=
  match p with
  | Ret a => fin ;;; Ret a
  | Raise e => fin ;;; Raise e
  | Vis c k => Vis c (fun r => try_finally (k r) fin)
  end.

(** [d[key]]. *)
Definition getitem (d : gmap string pyval) (key : string) : prog pyval :=
  match d !! key with
  | Some v => Ret v
  | None => Raise (Exn KeyError key [])
  end.

(** [x[key]] on a response. *)
Definition member {A : Type} (field : option A) (key : string) : prog A :=
  match field with
  | Some v => Ret v
  | None => Raise (Exn KeyError key [])
  end.

(** *** Running a program against an environment *)

Record environment (W : Type) := {
  respond : forall X : Type, call X -> W -> result X * W
}.
Arguments respond {W} _ {X} _ _.

Inductive event :=
| Event : forall X : Type, call X -> event.
Arguments Event {X} c.

Fixpoint run {W A : Type} (env : environment W) (p : prog A) (w : W)
  : result A * W * list event :=
  match p with
  | Ret a => (inr a, w, [])
  | Raise e => (inl e, w, [])
  | Vis c k =>
      let '(r, w1) := respond env c w in
      let '(res, w2, t) := run env (k r) w1 in
      (res, w2, Event c :: t)
  end.

(** Classification of the recorded calls. *)
Definition is_put_secret_value (ev : event) : bool :=
  match ev with Event (PutSecretValue _ _ _ _) => true | _ => false end.

Definition is_update_stage (ev : event) : bool :=
  match ev with Event (UpdateSecretVersionStage _ _ _ _) => true | _ => false end.

Definition is_store_mutation (ev : event) : bool :=
  is_put_secret_value ev || is_update_stage ev.

Definition is_connect (ev : event) : bool :=
  match ev with Event (PgConnect _) => true | _ => false end.

Definition is_db_statement (ev : event) : bool :=
  match ev with
  | Event (PgExecute _ _ _) | Event (PgCommit _) => true
  | _ => false
  end.

Definition connect_sslmode (ev : event) : option string :=
  match ev with Event (PgConnect a) => Some (arg_sslmode a) | _ => None end.

(** ** Library functions taken as parameters

    [json.loads] on a top-level object ([None]: the text is not valid JSON and
    [json.loads] raises [ValueError]), [json.dumps], [int] on a string and the
    process environment [os.environ].  The secret texts considered are JSON
    objects or not JSON at all: a text that is JSON of another kind (a number,
    a list) has no image here. *)

Class PyLib := {
  json_loads : string -> option (gmap string pyval);
  json_dumps : gmap string pyval -> string;
  int_of_str : string -> option Z;
  environ : gmap string string
}.

(** [str(v)], as the [%s] conversion does. *)
Definition py_str (v : pyval) : string :=
  match v with
  | VNone => "None"
  | VBool true => "True"
  | VBool false => "False"
  | VInt z => NilZero.string_of_int (Z.to_int z)
  | VStr s => s
  end.

Section Handler.
Context `{PyLib}.

(** [int(v)]. *)
Definition py_int (v : pyval) : result Z :=
  match v with
  | VInt z => inr z
  | VBool b => inr (Z.b2z b)
  | VStr s =>
      match int_of_str s with
      | Some z => inr z
      | None => inl (Exn ValueError "invalid literal for int() with base 10: %s" [VStr s])
      end
  | VNone => inl (Exn TypeError "int() argument must be a string or a real number, not %s" [VNone])
  end.

(** ** 4.4 ConnectionStrategy *)

Definition connect_and_authenticate (secret_dict : gmap string pyval)
    (port : Z) (dbname : pyval) (use_ssl : bool) : prog (option conn) :=
  try_except
    (host <- getitem secret_dict "host";;
     user <- getitem secret_dict "username";;
     password <- getitem secret_dict "password";;
     let conn_args :=
       {| arg_host := host; arg_port := port; arg_dbname := dbname;
          arg_user := user; arg_password := password;
          arg_sslmode := if use_ssl then "require" else "prefer" |} in
     c <- invoke (PgConnect conn_args);;
     Ret (Some c))
    (fun e => Ret None).

Definition get_connection (secret_dict : gmap string pyval) : prog (option conn) :=
  port <- match secret_dict !! "port" with
          | Some v => lift (py_int v)
          | None => Ret 5432
          end;;
  let dbname :=
    match secret_dict !! "dbname" with
    | Some VNone | None => VStr "postgres"
    | Some v => v
    end in
  let '(use_ssl, fall_back) := get_ssl_config secret_dict in
  c <- connect_and_authenticate secret_dict port dbname use_ssl;;
  if bool_decide (is_Some c) || negb fall_back then Ret c
  else connect_and_authenticate secret_dict port dbname false.

(** ** Control-plane lookups *)

Definition get_instance_info_from_rds_api (instance_id : string) : prog db_instance :=
  instances <-
    try_except (invoke (DescribeDBInstances instance_id))
      (fun err => Raise (Exn PyException
         "Encountered API error while fetching connection parameters from DescribeDBInstances RDS API: %s"
         [VStr (exn_fmt err)]));;
  match instances with
  | [] => Raise (Exn ValueError
      "%s is not a valid DB Instance ARN. No Instances found when using DescribeDBInstances RDS API to get connection params."
      [VStr instance_id])
  | i :: _ => Ret i
  end.

Definition get_cluster_info_from_rds_api (cluster_id : string) : prog db_cluster :=
  clusters <-
    try_except (invoke (DescribeDBClusters cluster_id))
      (fun err => Raise (Exn PyException
         "Encountered API error while fetching connection parameters from DescribeDBClusters RDS API: %s"
         [VStr (exn_fmt err)]));;
  match clusters with
  | [] => Raise (Exn ValueError
      "%s is not a valid DB Cluster ARN. No Clusters found when using DescribeDBClusters RDS API to get connection params."
      [VStr cluster_id])
  | c :: _ => Ret c
  end.

(** [not d] for a response dictionary: it has no key at all.  After this
    test the code looks at an instance through [.get] and [in] only, so that
    a response with none of the keys below gives the same result as the empty
    one; for a cluster the other keys of the response count. *)
Definition instance_is_empty (i : db_instance) : bool :=
  match i with
  | {| DBInstanceIdentifier := None; Engine := None; Endpoint := None;
       ReadReplicaSourceDBInstanceIdentifier := None;
       DBClusterIdentifier := None |} => true
  | _ => false
  end.

Definition cluster_is_empty (c : db_cluster) : bool :=
  match c with
  | {| cluster_Endpoint := None; cluster_Port := None; cluster_Engine := None;
       ReaderEndpoint := None; DBClusterMembers := None;
       cluster_other_keys := false |} => true
  | _ => false
  end.

Definition MAX_RDS_DB_INSTANCE_ARN_LENGTH : nat := 256.

(** The dictionary [db_instance_info]: empty ([None]) or with both keys. *)
Record instance_info := { ARN_SYSTEM_TAG : string; ARN : string }.

Definition InvalidArn (arn : string) : exn :=
  Exn ValueError
    "%s is not a valid DB Instance ARN. It exceeds the maximum length of %d."
    [VStr arn; VInt (Z.of_nat MAX_RDS_DB_INSTANCE_ARN_LENGTH)].

Definition is_arn_tag (t : tag) : bool :=
  bool_decide (lower (Key t) = "aws:rds:primarydbinstancearn")
  || bool_decide (lower (Key t) = "aws:rds:primarydbclusterarn").

(** The loop over [tags]: a later matching tag overwrites an earlier one. *)
Fixpoint scan_tags (tags : list tag) (db_instance_info : option instance_info)
  : option instance_info :=
  match tags with
  | [] => db_instance_info
  | t :: rest =>
      if is_arn_tag t
      then scan_tags rest (Some {| ARN_SYSTEM_TAG := lower (Key t); ARN := Value t |})
      else scan_tags rest db_instance_info
  end.

Definition fetch_instance_arn_from_system_tags (secret_arn : pyval)
  : prog (option instance_info) :=
  md <- invoke (DescribeSecret secret_arn);;
  match Tags md with
  | None => Ret None
  | Some tags =>
      match scan_tags tags None with
      | None => Ret None
      | Some info =>
          if (MAX_RDS_DB_INSTANCE_ARN_LENGTH <? py_len (ARN info))%nat
          then Raise (InvalidArn (ARN info))
          else Ret (Some info)
      end
  end.

Definition get_connection_params_from_rds_api (master_dict : gmap string pyval)
    (master_instance_info : instance_info) : prog (gmap string pyval) :=
  if bool_decide (ARN_SYSTEM_TAG master_instance_info = "aws:rds:primarydbinstancearn") then
    primary_instance <- get_instance_info_from_rds_api (ARN master_instance_info);;
    ep <- member (Endpoint primary_instance) "Endpoint";;
    address <- member (Address ep) "Address";;
    let master_dict := <["host" := VStr address]> master_dict in
    ep <- member (Endpoint primary_instance) "Endpoint";;
    port <- member (Port ep) "Port";;
    let master_dict := <["port" := VInt port]> master_dict in
    engine <- member (Engine primary_instance) "Engine";;
    Ret (<["engine" := VStr engine]> master_dict)
  else if bool_decide (ARN_SYSTEM_TAG master_instance_info = "aws:rds:primarydbclusterarn") then
    primary_instance <- get_cluster_info_from_rds_api (ARN master_instance_info);;
    address <- member (cluster_Endpoint primary_instance) "Endpoint";;
    let master_dict := <["host" := VStr address]> master_dict in
    port <- member (cluster_Port primary_instance) "Port";;
    let master_dict := <["port" := VInt port]> master_dict in
    engine <- member (cluster_Engine primary_instance) "Engine";;
    Ret (<["engine" := VStr engine]> master_dict)
  else Ret master_dict.

(** ** 4.3 SecretAccessor *)

Definition required_fields : list string := ["host"; "username"; "password"; "engine"].
Definition supported_engines : list string := ["postgres"; "aurora-postgresql"].

Definition MissingField (field : string) : exn :=
  Exn KeyError "%s key is missing from secret JSON" [VStr field].

Definition MalformedSecret : exn :=
  Exn ValueError "JSONDecodeError" [].

Definition UnsupportedEngine : exn :=
  Exn KeyError
    "Database engine must be set to 'postgres' in order to use this rotation lambda" [].

Fixpoint check_required (fields : list string) (secret_dict : gmap string pyval)
  : prog unit :=
  match fields with
  | [] => Ret tt
  | field :: rest =>
      match secret_dict !! field with
      | None => Raise (MissingField field)
      | Some _ => check_required rest secret_dict
      end
  end.

(** [if token:] holds for a non-empty string only. *)
Definition truthy_token (token : option string) : option string :=
  match token with
  | Some EmptyString | None => None
  | Some t => Some t
  end.

Definition get_secret_dict (arn : pyval) (stage : string) (token : option string)
    (master_secret : bool) : prog (gmap string pyval) :=
  secret <- invoke (GetSecretValue arn (truthy_token token) stage);;
  plaintext <- member (SecretString secret) "SecretString";;
  secret_dict <- match json_loads plaintext with
                 | Some d => Ret d
                 | None => Raise MalformedSecret
                 end;;
  secret_dict <-
    (if master_secret
        && bool_decide (dom secret_dict = ({["username"; "password"]} : gset string))
     then
       db_instance_info <- fetch_instance_arn_from_system_tags arn;;
       match db_instance_info with
       | Some info => get_connection_params_from_rds_api secret_dict info
       | None => Ret secret_dict
       end
     else Ret secret_dict);;
  check_required required_fields secret_dict;;;
  engine <- getitem secret_dict "engine";;
  if existsb (fun e => py_eq engine (VStr e)) supported_engines
  then Ret secret_dict
  else Raise UnsupportedEngine.

(** ** 4.5 ReplicaTopologyResolver *)

(** [v.split(sep)[i]]. *)
Definition split_index (v : pyval) (sep : ascii) (i : nat) : prog string :=
  match v with
  | VStr s =>
      match split s sep !! i with
      | Some part => Ret part
      | None => Raise (Exn IndexError "list index out of range" [])
      end
  | _ => Raise (no_attribute v "split")
  end.

(** The dictionary [replica_info]; the empty dictionary is [None]. *)
Record replica_info := {
  reader_endpoint : string;
  instance_ids : list (string * bool)   (* instance_id, is_writer *)
}.

Fixpoint member_ids (members : list cluster_member) : prog (list (string * bool)) :=
  match members with
  | [] => Ret []
  | m :: rest =>
      instance_id <- member (member_DBInstanceIdentifier m) "DBInstanceIdentifier";;
      is_writer <- member (IsClusterWriter m) "IsClusterWriter";;
      ids <- member_ids rest;;
      Ret ((instance_id, is_writer) :: ids)
  end.

Definition get_cluster_info_from_master_host (master_dict : gmap string pyval)
  : prog (option replica_info) :=
  host <- getitem master_dict "host";;
  master_instance_id <- split_index host "." 0;;
  host <- getitem master_dict "host";;
  label <- split_index host "." 1;;
  cluster_info <-
    (if contains label "cluster" then
       (* the master host is a writer endpoint *)
       ci <- get_cluster_info_from_rds_api master_instance_id;; Ret (Some ci)
     else
       (* the master host is an instance endpoint *)
       current_instance <- get_instance_info_from_rds_api master_instance_id;;
       if instance_is_empty current_instance then Ret None
       else match DBClusterIdentifier current_instance with
            | None => Ret None
            | Some cluster_id =>
                ci <- get_cluster_info_from_rds_api cluster_id;; Ret (Some ci)
            end);;
  match cluster_info with
  | None => Ret None
  | Some ci =>
      if cluster_is_empty ci then Ret None
      else
        ids <- member_ids (default [] (DBClusterMembers ci));;
        Ret (Some {| reader_endpoint := default EmptyString (ReaderEndpoint ci);
                     instance_ids := ids |})
  end.

Definition is_rds_replica_database (replica_dict master_dict : gmap string pyval)
  : prog bool :=
  (* Get instance identifiers from endpoints *)
  rhost <- getitem replica_dict "host";;
  replica_instance_id <- split_index rhost "." 0;;
  mhost <- getitem master_dict "host";;
  master_instance_id <- split_index mhost "." 0;;
  engine <- getitem master_dict "engine";;
  if py_eq engine (VStr "postgres") then
    current_instance <- get_instance_info_from_rds_api replica_instance_id;;
    if instance_is_empty current_instance then Ret false
    else Ret (bool_decide (Some master_instance_id
                           = ReadReplicaSourceDBInstanceIdentifier current_instance))
  else
    engine <- getitem master_dict "engine";;
    if py_eq engine (VStr "aurora-postgresql") then
      info <- get_cluster_info_from_master_host master_dict;;
      match info with
      | None => Ret false
      | Some replica_info =>
          rhost <- getitem replica_dict "host";;
          let is_reader_endpoint := py_eq rhost (VStr (reader_endpoint replica_info)) in
          let is_reader_instance :=
            existsb (fun replica_instance =>
                       bool_decide (replica_instance_id = replica_instance.1)
                       && negb replica_instance.2)
                    (instance_ids replica_info) in
          Ret (is_reader_endpoint || is_reader_instance)
      end
    else Ret false.

(** ** Password generation *)

Definition get_environment_bool (variable_name : string) (default_value : bool) : bool :=
  let variable := default (py_str (VBool default_value)) (environ !! variable_name) in
  bool_decide (lower variable ∈ ["true"; "1"; "y"; "yes"]).

(** The default of EXCLUDE_CHARACTERS: colon, slash, at sign, double quote,
    single quote, backslash. *)
Definition default_exclude_characters : string :=
  ":/@" +:+ String "034"%char (String "'"%char (String "\"%char EmptyString)).

Definition get_random_password : prog string :=
  let exclude_characters :=
    default default_exclude_characters (environ !! "EXCLUDE_CHARACTERS") in
  password_length <-
    match environ !! "PASSWORD_LENGTH" with
    | Some s => lift (py_int (VStr s))
    | None => Ret 32
    end;;
  passwd <- invoke (GetRandomPassword
    {| ExcludeCharacters := exclude_characters;
       PasswordLength := password_length;
       ExcludeNumbers := get_environment_bool "EXCLUDE_NUMBERS" false;
       ExcludePunctuation := get_environment_bool "EXCLUDE_PUNCTUATION" false;
       ExcludeUppercase := get_environment_bool "EXCLUDE_UPPERCASE" false;
       ExcludeLowercase := get_environment_bool "EXCLUDE_LOWERCASE" false;
       RequireEachIncludedType := get_environment_bool "REQUIRE_EACH_INCLUDED_TYPE" true |});;
  member (RandomPassword passwd) "RandomPassword".

(** ** 4.6 RotationSteps

    The [ValueError]s of the steps and of the coordinator, under the names of
    the error taxonomy (section 7). *)

Definition NotEligible (arn : string) : exn :=
  Exn ValueError "Secret %s is not enabled for rotation" [VStr arn].
Definition UnknownVersion (token arn : string) : exn :=
  Exn ValueError "Secret version %s has no stage for rotation of secret %s."
    [VStr token; VStr arn].
Definition InvalidStage (token arn : string) : exn :=
  Exn ValueError "Secret version %s not set as AWSPENDING for rotation of secret %s."
    [VStr token; VStr arn].
Definition InvalidStep (step arn : string) : exn :=
  Exn ValueError "Invalid step parameter %s for secret %s" [VStr step; VStr arn].
Definition ConnectionFailed (arn : string) : exn :=
  Exn ValueError "Unable to log into database using current credentials for secret %s"
    [VStr arn].
Definition StateMismatch_user (pending_username current_username : pyval) : exn :=
  Exn ValueError "Attempting to modify user %s other than current user or clone %s"
    [pending_username; current_username].
Definition StateMismatch_host (pending_host current_host : pyval) : exn :=
  Exn ValueError "Attempting to modify user for host %s other than current host %s"
    [pending_host; current_host].
Definition TopologyMismatch (current_host master_host : pyval) : exn :=
  Exn ValueError "Current database host %s is not the same host as/rds replica of master %s"
    [current_host; master_host].
Definition MasterConnectionFailed (master_arn : pyval) : exn :=
  Exn ValueError "Unable to log into database using credentials in master secret %s"
    [master_arn].
Definition CredentialNotUsable (arn : string) : exn :=
  Exn ValueError "Unable to log into database with pending secret of secret ARN %s"
    [VStr arn].

Definition is_StateMismatch (e : exn) : bool :=
  bool_decide (exn_cls e = ValueError)
  && (bool_decide (exn_fmt e = "Attempting to modify user %s other than current user or clone %s")
      || bool_decide (exn_fmt e = "Attempting to modify user for host %s other than current host %s")).

Definition is_TopologyMismatch (e : exn) : bool :=
  bool_decide (exn_cls e = ValueError)
  && bool_decide (exn_fmt e = "Current database host %s is not the same host as/rds replica of master %s").

Definition create_secret (arn token : string) : prog unit :=
  (* Make sure the current secret exists *)
  current_dict <- get_secret_dict (VStr arn) "AWSCURRENT" None false;;
  (* Now try to get the secret version, if that fails, put a new secret *)
  try_except
    (get_secret_dict (VStr arn) "AWSPENDING" (Some token) false;;; Ret tt)
    (fun e =>
       if bool_decide (exn_cls e = ResourceNotFoundException) then
         username <- getitem current_dict "username";;
         alt <- lift (get_alt_username_val username);;
         let current_dict := <["username" := VStr alt]> current_dict in
         password <- get_random_password;;
         let current_dict := <["password" := VStr password]> current_dict in
         invoke (PutSecretValue (VStr arn) token (json_dumps current_dict) ["AWSPENDING"])
       else Raise e).

(** [row[0]] on the result of [fetchone]. *)
Definition first_column (row : option (list pyval)) : prog pyval :=
  match row with
  | None => Raise (Exn TypeError "'NoneType' object is not subscriptable" [])
  | Some [] => Raise (Exn IndexError "tuple index out of range" [])
  | Some (v :: _) => Ret v
  end.

(** Lines 196-225 of [set_secret]: log in as master and set the password of
    the pending user. *)
Definition set_secret_as_master (current_dict pending_dict master_dict : gmap string pyval)
    (master_arn : pyval) : prog unit :=
  c <- get_connection master_dict;;
  match c with
  | None => Raise (MasterConnectionFailed master_arn)
  | Some c =>
      try_finally
        (cur <- invoke (PgCursor c);;
         try_finally
           (pu <- getitem pending_dict "username";;
            invoke (PgExecute cur "SELECT quote_ident(%s)" [pu]);;;
            row <- invoke (PgFetchone cur);;
            pending_username <- first_column row;;
            cu <- getitem current_dict "username";;
            invoke (PgExecute cur "SELECT quote_ident(%s)" [cu]);;;
            row <- invoke (PgFetchone cur);;
            current_username <- first_column row;;
            pu <- getitem pending_dict "username";;
            invoke (PgExecute cur "SELECT 1 FROM pg_roles where rolname = %s" [pu]);;;
            rows <- invoke (PgFetchall cur);;
            (if bool_decide (length rows = 0%nat) then
               let create_role := "CREATE ROLE " +:+ py_str pending_username in
               pw <- getitem pending_dict "password";;
               invoke (PgExecute cur (create_role +:+ " WITH LOGIN PASSWORD %s") [pw]);;;
               invoke (PgExecute cur
                 ("GRANT " +:+ py_str current_username +:+ " TO " +:+ py_str pending_username) [])
             else
               let alter_role := "ALTER USER " +:+ py_str pending_username in
               pw <- getitem pending_dict "password";;
               invoke (PgExecute cur (alter_role +:+ " WITH PASSWORD %s") [pw]));;;
            invoke (PgCommit c))
           (invoke (PgCursorClose cur)))
        (invoke (PgClose c))
  end.

Definition set_secret (arn token : string) : prog unit :=
  (* First try to login with the current secret to verify it works *)
  current_dict <- get_secret_dict (VStr arn) "AWSCURRENT" None false;;
  pending_dict <- get_secret_dict (VStr arn) "AWSPENDING" (Some token) false;;
  c <- get_connection current_dict;;
  match c with
  | None => Raise (ConnectionFailed arn)
  | Some c =>
  invoke (PgClose c);;;
  (* Make sure the user from current and pending match *)
  cu <- getitem current_dict "username";;
  alt <- lift (get_alt_username_val cu);;
  pu <- getitem pending_dict "username";;
  if negb (py_eq (VStr alt) pu) then Raise (StateMismatch_user pu cu) else
  (* Make sure the host from current and pending match *)
  current_host <- getitem current_dict "host";;
  pending_host <- getitem pending_dict "host";;
  if negb (py_eq current_host pending_host)
  then Raise (StateMismatch_host pending_host current_host) else
  (* make sure the AWSCURRENT secret is valid by logging in to the db *)
  c <- get_connection current_dict;;
  match c with
  | None => Raise (ConnectionFailed arn)
  | Some c =>
  invoke (PgClose c);;;
  (* Use the master arn from the current secret to fetch master secret contents *)
  master_arn <- getitem current_dict "masterarn";;
  master_dict <- get_secret_dict master_arn "AWSCURRENT" None true;;
  (* Fetch dbname from the Child User *)
  let master_dict := <["dbname" := default VNone (current_dict !! "dbname")]> master_dict in
  current_host <- getitem current_dict "host";;
  master_host <- getitem master_dict "host";;
  not_replica <-
    (if negb (py_eq current_host master_host)
     then r <- is_rds_replica_database current_dict master_dict;; Ret (negb r)
     else Ret false);;
  if not_replica then Raise (TopologyMismatch current_host master_host)
  else set_secret_as_master current_dict pending_dict master_dict master_arn
  end end.

Definition test_secret (arn token : string) : prog unit :=
  pending_dict <- get_secret_dict (VStr arn) "AWSPENDING" (Some token) false;;
  c <- get_connection pending_dict;;
  match c with
  | Some c =>
      try_finally
        (cur <- invoke (PgCursor c);;
         try_finally
           (invoke (PgExecute cur "SELECT NOW()" []);;; invoke (PgCommit c))
           (invoke (PgCursorClose cur)))
        (invoke (PgClose c))
  | None => Raise (CredentialNotUsable arn)
  end.

(** The loop of [finish_secret] over the keys of the stage map, in order:
    [None] when the function returns from inside the loop, [Some
    current_version] when control reaches the statement after the loop. *)
Fixpoint find_current_version (versions : list (string * list string)) (token : string)
  : option (option string) :=
  match versions with
  | [] => Some None
  | (version, stages) :: rest =>
      if bool_decide ("AWSCURRENT" ∈ stages) then
        if bool_decide (version = token) then None else Some (Some version)
      else find_current_version rest token
  end.

Definition finish_secret (arn token : string) : prog unit :=
  (* First describe the secret to get the current version *)
  md <- invoke (DescribeSecret (VStr arn));;
  versions <- member (VersionIdsToStages md) "VersionIdsToStages";;
  match find_current_version versions token with
  | None => Ret tt
  | Some current_version =>
      (* Finalize by staging the secret version current *)
      invoke (UpdateSecretVersionStage (VStr arn) "AWSCURRENT" token current_version)
  end.

(** ** 4.1 RotationCoordinator *)

(** The rotation request: the three keys of [event]. *)
Record rotation_event := {
  SecretId : string;
  ClientRequestToken : string;
  Step : string
}.

(** [versions[token]] on the stage map. *)
Fixpoint stages_of (versions : list (string * list string)) (token : string)
  : option (list string) :=
  match versions with
  | [] => None
  | (version, stages) :: rest =>
      if bool_decide (version = token) then Some stages else stages_of rest token
  end.

Definition lambda_handler (event : rotation_event) : prog unit :=
  let arn := SecretId event in
  let token := ClientRequestToken event in
  let step := Step event in
  (* Make sure the version is staged correctly *)
  md <- invoke (DescribeSecret (VStr arn));;
  if bool_decide (RotationEnabled md = Some false) then Raise (NotEligible arn) else
  versions <- member (VersionIdsToStages md) "VersionIdsToStages";;
  match stages_of versions token with
  | None => Raise (UnknownVersion token arn)
  | Some stages =>
      if bool_decide ("AWSCURRENT" ∈ stages) then Ret tt
      else if negb (bool_decide ("AWSPENDING" ∈ stages)) then Raise (InvalidStage token arn)
      else
        (* Call the appropriate step *)
        if bool_decide (step = "createSecret") then create_secret arn token
        else if bool_decide (step = "setSecret") then set_secret arn token
        else if bool_decide (step = "testSecret") then test_secret arn token
        else if bool_decide (step = "finishSecret") then finish_secret arn token
        else Raise (InvalidStep step arn)
  end.

End Handler.

(** ** Auxiliary notions for the statements *)

(** [only P p]: every call that [p] can issue satisfies [P]. *)
Inductive only {A : Type} (P : event -> Prop) : prog A -> Prop :=
| only_Ret (a : A) : only P (Ret a)
| only_Raise (e : exn) : only P (Raise e)
| only_Vis {X : Type} (c : call X) (k : result X -> prog A) :
    P (Event c) -> (forall r, only P (k r)) -> only P (Vis c k).

Definition is_control_plane (ev : event) : bool :=
  match ev with
  | Event (DescribeDBInstances _) | Event (DescribeDBClusters _) => true
  | _ => false
  end.

(** The calls of [set_secret] up to the point where the master secret has
    been read: both reads of the secret, the two logins with the current
    credential, and the read of the master secret. *)
Definition checked_prefix (t1 t2 t3 t5 t7 : list event) (c1 c2 : conn) : list event :=
  t1 ++ t2 ++ t3 ++ [Event (PgClose c1)] ++ t5 ++ [Event (PgClose c2)] ++ t7.

(** The linkage of a secret: what the scan of its tags finds. *)
Definition linkage (md : metadata) : option instance_info :=
  match Tags md with
  | None => None
  | Some tags => scan_tags tags None
  end.

(** A master payload with the connection parameters of the control plane. *)
Definition resolved (d : gmap string pyval) (address : string) (port : Z) (engine : string)
  : gmap string pyval :=
  <["engine" := VStr engine]> (<["port" := VInt port]> (<["host" := VStr address]> d)).

(** ** The secret store (sections 3 and 6)

    The store is an external collaborator.  Its state and the effect of its
    four operations are needed to say what a step leaves behind. *)

Module Store.

Record version := {
  version_id : string;
  stages : list string;
  payload : string
}.

Record secret := {
  rotation_enabled : option bool;
  versions : list version;      (* in the order of the stage map *)
  tags : option (list tag)
}.

Definition has_stage (stage : string) (v : version) : bool :=
  bool_decide (stage ∈ stages v).

(** The identifiers of the versions that hold [stage]. *)
Definition holders (stage : string) (vs : list version) : list string :=
  version_id <$> filter (fun v => has_stage stage v = true) vs.

(** Section 3: at most one version holds a given stage label, and version
    identifiers are unique. *)
Definition stage_unique (stage : string) (vs : list version) : Prop :=
  (length (holders stage vs) <= 1)%nat.

Definition well_formed (s : secret) : Prop :=
  NoDup (version_id <$> versions s) /\ stage_unique "AWSCURRENT" (versions s).

Definition stage_map (vs : list version) : list (string * list string) :=
  (fun v => (version_id v, stages v)) <$> vs.

Definition not_found : exn := Exn ResourceNotFoundException "ResourceNotFoundException" [].
Definition bad_parameter : exn := Exn ServiceError "ParamValidationError" [].
Definition already_exists : exn := Exn ServiceError "ResourceExistsException" [].

(** Modelled from the spec: [describeSecret(id) -> {rotationEnabled,
    versionStages, tags}] of the external store. *)
Definition describe_secret (st : gmap string secret) (id : pyval) : result metadata :=
  match id with
  | VStr arn =>
      match st !! arn with
      | Some s => inr {| RotationEnabled := rotation_enabled s;
                         VersionIdsToStages := Some (stage_map (versions s));
                         Tags := tags s |}
      | None => inl not_found
      end
  | _ => inl bad_parameter
  end.

Definition selects (token : option string) (stage : string) (v : version) : bool :=
  has_stage stage v
  && match token with Some t => bool_decide (version_id v = t) | None => true end.

(** Modelled from the spec: [getSecretValue(id, stage, versionId?) ->
    {payload}] of the external store; the version must hold the stage. *)
Definition get_secret_value (st : gmap string secret) (id : pyval)
    (token : option string) (stage : string) : result secret_value :=
  match id with
  | VStr arn =>
      match st !! arn with
      | Some s =>
          match filter (fun v => selects token stage v = true) (versions s) with
          | v :: _ => inr {| SecretString := Some (payload v) |}
          | [] => inl not_found
          end
      | None => inl not_found
      end
  | _ => inl bad_parameter
  end.

Definition drop_stages (labels : list string) (v : version) : version :=
  {| version_id := version_id v;
     stages := filter (fun l => l ∉ labels) (stages v);
     payload := payload v |}.

(** Modelled from the spec: [putSecretValue(id, versionId, payload,
    stages=[PENDING])] of the external store: a new version that takes the
    given labels from the versions that held them. *)
Definition put_secret_value (st : gmap string secret) (id : pyval)
    (token text : string) (labels : list string)
  : result unit * gmap string secret :=
  match id with
  | VStr arn =>
      match st !! arn with
      | Some s =>
          if bool_decide (token ∈ (version_id <$> versions s))
          then (inl already_exists, st)
          else
            let vs := (drop_stages labels <$> versions s)
                      ++ [{| version_id := token; stages := labels; payload := text |}] in
            (inr tt, <[arn := {| rotation_enabled := rotation_enabled s;
                                 versions := vs; tags := tags s |}]> st)
      | None => (inl not_found, st)
      end
  | _ => (inl bad_parameter, st)
  end.

(** The single combined move of one label, and the store's own bookkeeping
    when the label is AWSCURRENT: the displaced version becomes the only
    holder of AWSPREVIOUS. *)
Definition move_stage (stage move_to : string) (remove_from : option string)
    (v : version) : version :=
  let without := filter (fun l => l ≠ stage) (stages v) in
  {| version_id := version_id v;
     stages := if bool_decide (version_id v = move_to) then stage :: without
               else if bool_decide (Some (version_id v) = remove_from) then without
               else stages v;
     payload := payload v |}.

Definition relabel_previous (displaced : string) (v : version) : version :=
  let without := filter (fun l => l ≠ "AWSPREVIOUS") (stages v) in
  {| version_id := version_id v;
     stages := if bool_decide (version_id v = displaced) then "AWSPREVIOUS" :: without
               else without;
     payload := payload v |}.

Definition update_versions (stage move_to : string) (remove_from : option string)
    (vs : list version) : list version :=
  let moved := move_stage stage move_to remove_from <$> vs in
  match remove_from with
  | Some displaced =>
      if bool_decide (stage = "AWSCURRENT") && negb (bool_decide (displaced = move_to))
      then relabel_previous displaced <$> moved
      else moved
  | None => moved
  end.

(** Modelled from the spec: [updateVersionStage(id, stage=CURRENT,
    moveTo=versionId, removeFrom=versionId)] of the external store.
    [removeFrom] is a version identifier: a call that passes none is refused
    as a parameter error, before the store is consulted. *)
Definition update_secret_version_stage (st : gmap string secret) (id : pyval)
    (stage move_to : string) (remove_from : option string)
  : result unit * gmap string secret :=
  match remove_from, id with
  | None, _ => (inl bad_parameter, st)
  | Some displaced, VStr arn =>
      match st !! arn with
      | Some s =>
          if bool_decide (move_to ∈ (version_id <$> versions s)) then
            (inr tt, <[arn := {| rotation_enabled := rotation_enabled s;
                                 versions := update_versions stage move_to (Some displaced)
                                               (versions s);
                                 tags := tags s |}]> st)
          else (inl not_found, st)
      | None => (inl not_found, st)
      end
  | Some _, _ => (inl bad_parameter, st)
  end.

(** The store as an environment; every other call goes to [outer]. *)
Definition respond_store {E : Type} (outer : environment E) (X : Type) (c : call X)
    (w : gmap string secret * E) : result X * (gmap string secret * E) :=
  match c in call X0 return result X0 * (gmap string secret * E) with
  | DescribeSecret id => (describe_secret w.1 id, w)
  | GetSecretValue id token stage => (get_secret_value w.1 id token stage, w)
  | PutSecretValue id token text labels =>
      let '(r, st) := put_secret_value w.1 id token text labels in (r, (st, w.2))
  | UpdateSecretVersionStage id stage move_to remove_from =>
      let '(r, st) := update_secret_version_stage w.1 id stage move_to remove_from in
      (r, (st, w.2))
  | other => let '(r, e) := respond outer other w.2 in (r, (w.1, e))
  end.

Definition env {E : Type} (outer : environment E) : environment (gmap string secret * E) :=
  {| respond := respond_store outer |}.

End Store.

(** ** A concrete deployment

    The scenario of section 8: the secret [app-secret] holds the credential of
    the user [app], version [v1] is AWSCURRENT and version [v2] is AWSPENDING;
    [master-secret] holds the administrative credential. *)

Module Scenario.

Definition current_payload : gmap string pyval :=
  {[ "engine" := VStr "postgres"; "host" := VStr "appdb.abc.example.com";
     "username" := VStr "app"; "password" := VStr "old-password";
     "masterarn" := VStr "master-secret" ]}.

Definition pending_payload : gmap string pyval :=
  <["username" := VStr "app_clone"]> (<["password" := VStr "new-password"]> current_payload).

(** A pending version that names a user outside the pair. *)
Definition forged_payload : gmap string pyval :=
  <["username" := VStr "postgres"]> pending_payload.

Definition master_payload : gmap string pyval :=
  {[ "engine" := VStr "postgres"; "host" := VStr "appdb.abc.example.com";
     "username" := VStr "admin"; "password" := VStr "admin-password" ]}.

(** The master of another database. *)
Definition foreign_master_payload : gmap string pyval :=
  <["host" := VStr "primary.abc.example.com"]> master_payload.

(** A master secret managed by the control plane: credentials only. *)
Definition managed_master_payload : gmap string pyval :=
  {[ "username" := VStr "admin"; "password" := VStr "admin-password" ]}.

Definition json_table : list (string * gmap string pyval) :=
  [ ("current.json", current_payload); ("pending.json", pending_payload);
    ("forged.json", forged_payload); ("master.json", master_payload);
    ("foreign-master.json", foreign_master_payload);
    ("managed-master.json", managed_master_payload) ].

Fixpoint table_lookup {V : Type} (t : list (string * V)) (k : string) : option V :=
  match t with
  | [] => None
  | (k', v) :: rest => if bool_decide (k' = k) then Some v else table_lookup rest k
  end.

(** The library functions on the texts of the scenario. *)
Definition lib : PyLib :=
  {| json_loads := table_lookup json_table;
     json_dumps := fun d => py_str (default VNone (d !! "username")) +:+ ".json";
     int_of_str := fun s => if bool_decide (s = "5432") then Some 5432%Z else None;
     environ := ∅ |}.

Definition app_secret (pending_text : string) (enabled : option bool) : Store.secret :=
  {| Store.rotation_enabled := enabled;
     Store.versions :=
       [ {| Store.version_id := "v1"; Store.stages := ["AWSCURRENT"];
            Store.payload := "current.json" |};
         {| Store.version_id := "v2"; Store.stages := ["AWSPENDING"];
            Store.payload := pending_text |} ];
     Store.tags := None |}.

Definition master_secret (text : string) (tags : option (list tag)) : Store.secret :=
  {| Store.rotation_enabled := None;
     Store.versions :=
       [ {| Store.version_id := "m1"; Store.stages := ["AWSCURRENT"];
            Store.payload := text |} ];
     Store.tags := tags |}.

Definition store (app master : Store.secret) : gmap string Store.secret :=
  {[ "app-secret" := app; "master-secret" := master ]}.

(** The usual deployment, a forged pending version, and a master secret that
    belongs to another database. *)
Definition healthy : gmap string Store.secret :=
  store (app_secret "pending.json" (Some true)) (master_secret "master.json" None).
Definition forged : gmap string Store.secret :=
  store (app_secret "forged.json" (Some true)) (master_secret "master.json" None).
Definition foreign : gmap string Store.secret :=
  store (app_secret "pending.json" (Some true)) (master_secret "foreign-master.json" None).
(** Rotation switched off on the secret. *)
Definition disabled : gmap string Store.secret :=
  store (app_secret "pending.json" (Some false)) (master_secret "master.json" None).

Definition appdb_arn : string := "arn:aws:rds:eu-west-1:111122223333:db:appdb".

Fixpoint copies (n : nat) (c : ascii) : string :=
  match n with
  | O => EmptyString
  | S n' => String c (copies n' c)
  end.

(** A master secret managed by the control plane, linked to [appdb], without
    linkage, and with a linkage of 300 characters. *)
Definition linked : gmap string Store.secret :=
  store (app_secret "pending.json" (Some true))
        (master_secret "managed-master.json"
           (Some [ {| Key := "Team"; Value := "payments" |};
                   {| Key := "aws:rds:primaryDBInstanceArn"; Value := appdb_arn |} ])).
Definition unlinked : gmap string Store.secret :=
  store (app_secret "pending.json" (Some true))
        (master_secret "managed-master.json"
           (Some [ {| Key := "Team"; Value := "payments" |} ])).
Definition overlong : gmap string Store.secret :=
  store (app_secret "pending.json" (Some true))
        (master_secret "managed-master.json"
           (Some [ {| Key := "aws:rds:primaryDBInstanceArn"; Value := copies 300 "x" |} ])).

(** The control plane knows one instance, [appdb], which is the primary. *)
Definition appdb : db_instance :=
  {| DBInstanceIdentifier := Some "appdb"; Engine := Some "postgres";
     Endpoint := Some {| Address := Some "appdb.abc.example.com"; Port := Some 5432%Z |};
     ReadReplicaSourceDBInstanceIdentifier := None;
     DBClusterIdentifier := None |}.

Definition instance_not_found : exn := Exn ServiceError "DBInstanceNotFound" [].
Definition cluster_not_found : exn := Exn ServiceError "DBClusterNotFoundFault" [].
Definition no_store : exn := Exn ServiceError "EndpointConnectionError" [].

(** The control plane and a database that accepts every login.  The state
    is the number of connections opened so far and the parameters of the last
    statement; [quote_ident] answers with its argument and no role exists. *)
Definition respond_outside (X : Type) (c : call X) (n : nat * list pyval)
  : result X * (nat * list pyval) :=
  match c in call X0 return result X0 * (nat * list pyval) with
  | DescribeDBInstances id =>
      (if bool_decide (id = "appdb") || bool_decide (id = appdb_arn)
       then inr [appdb] else inl instance_not_found, n)
  | DescribeDBClusters id => (inl cluster_not_found, n)
  | PgConnect a => (inr n.1, (S n.1, n.2))
  | PgCursor c => (inr c, n)
  | PgExecute cur q vars => (inr tt, (n.1, vars))
  | PgFetchone cur => (inr (Some n.2), n)
  | PgFetchall cur => (inr [], n)
  | PgCursorClose cur => (inr tt, n)
  | PgCommit c => (inr tt, n)
  | PgClose c => (inr tt, n)
  | GetRandomPassword req =>
      (inr {| RandomPassword := Some "new-password" |}, n)
  | DescribeSecret _ => (inl no_store, n)
  | GetSecretValue _ _ _ => (inl no_store, n)
  | PutSecretValue _ _ _ _ => (inl no_store, n)
  | UpdateSecretVersionStage _ _ _ _ => (inl no_store, n)
  end.

Definition outside : environment (nat * list pyval) := {| respond := respond_outside |}.

Definition world : environment (gmap string Store.secret * (nat * list pyval)) :=
  Store.env outside.

(** The login with the current credential of the scenario. *)
Definition app_login : conn_args :=
  {| arg_host := VStr "appdb.abc.example.com"; arg_port := 5432%Z;
     arg_dbname := VStr "postgres"; arg_user := VStr "app";
     arg_password := VStr "old-password"; arg_sslmode := "require" |}.

(** A credential for a host that the control plane does not know. *)
Definition ghost_payload : gmap string pyval :=
  <["host" := VStr "ghost.abc.example.com"]> current_payload.

Definition start : nat * list pyval := (0%nat, []).

End Scenario.

(** ** Further notions for the statements *)

(** A word of the letters a-z. *)
Fixpoint lowercase_word (w : string) : Prop :=
  match w with
  | EmptyString => True
  | String x w' => (97 <= nat_of_ascii x <= 122)%nat /\ lowercase_word w'
  end.

(** The default database name of [get_connection]. *)
Definition dbname_of (secret_dict : gmap string pyval) : pyval :=
  match secret_dict !! "dbname" with
  | Some VNone | None => VStr "postgres"
  | Some v => v
  end.

(** The checks of [get_secret_dict] on a dictionary, as one value: the first
    required field that is missing, or the engine that is not supported. *)
Definition validated (d : gmap string pyval) : result (gmap string pyval) :=
  match list_find (fun field => d !! field = None) required_fields with
  | Some (_, field) => inl (MissingField field)
  | None =>
      match d !! "engine" with
      | Some (VStr engine) =>
          if bool_decide (engine ∈ supported_engines) then inr d else inl UnsupportedEngine
      | _ => inl UnsupportedEngine
      end
  end.

(** A cluster member as the control plane lists it. *)
Definition listed (id_writer : string * bool) : cluster_member :=
  {| member_DBInstanceIdentifier := Some id_writer.1; IsClusterWriter := Some id_writer.2 |}.

(** The arguments of a label move. *)
Definition stage_move (ev : event) : option (pyval * string * string * option string) :=
  match ev with
  | Event (UpdateSecretVersionStage id stage move_to remove_from) =>
      Some (id, stage, move_to, remove_from)
  | _ => None
  end.

(** The text of an executed statement. *)
Definition statement_of (ev : event) : option string :=
  match ev with Event (PgExecute _ query _) => Some query | _ => None end.

(** The calls that read the store or the control plane. *)
Definition is_lookup (ev : event) : bool :=
  match ev with
  | Event (DescribeSecret _) | Event (GetSecretValue _ _ _)
  | Event (DescribeDBInstances _) | Event (DescribeDBClusters _) => true
  | _ => false
  end.

(** The calls on the database driver. *)
Definition is_database (ev : event) : bool :=
  match ev with
  | Event (PgConnect _) | Event (PgCursor _) | Event (PgExecute _ _ _)
  | Event (PgFetchone _) | Event (PgFetchall _) | Event (PgCursorClose _)
  | Event (PgCommit _) | Event (PgClose _) => true
  | _ => false
  end.

(** The statements of [set_secret] that set the password of the pending
    user: [rows] is what the look-up in [pg_roles] returned. *)
Definition password_statements (cur : cursor) (pending_username current_username pw : pyval)
    (rows : list (list pyval)) : list event :=
  if bool_decide (length rows = 0%nat) then
    [ Event (PgExecute cur (("CREATE ROLE " +:+ py_str pending_username)
                            +:+ " WITH LOGIN PASSWORD %s") [pw]);
      Event (PgExecute cur ("GRANT " +:+ py_str current_username +:+ " TO "
                            +:+ py_str pending_username) []) ]
  else
    [ Event (PgExecute cur (("ALTER USER " +:+ py_str pending_username)
                            +:+ " WITH PASSWORD %s") [pw]) ].

(** The calls a rotation step may issue under each step name. *)
Definition allowed_in (step : string) (ev : event) : Prop :=
  (is_put_secret_value ev = true -> step = "createSecret") /\
  (is_update_stage ev = true -> step = "finishSecret") /\
  (is_database ev = true -> step = "setSecret" \/ step = "testSecret").

(** The request of [get_random_password] when the environment sets none of
    its variables. *)
Definition default_password_request : random_password_request :=
  {| ExcludeCharacters := default_exclude_characters;
     PasswordLength := 32;
     ExcludeNumbers := false;
     ExcludePunctuation := false;
     ExcludeUppercase := false;
     ExcludeLowercase := false;
     RequireEachIncludedType := true |}.

(** ** Further deployments

    A control plane with an Aurora cluster, a read replica and an instance
    outside any cluster; a driver that refuses every login; the library with
    other environment variables and other secret texts. *)

Module Fleet.

Definition unknown : exn := Exn ServiceError "NotFound" [].
Definition refused : exn := Exn ServiceError "OperationalError" [].

Definition orders : db_cluster :=
  {| cluster_Endpoint := Some "orders.cluster-abc.example.com";
     cluster_Port := Some 5432%Z;
     cluster_Engine := Some "aurora-postgresql";
     ReaderEndpoint := Some "orders.cluster-ro-abc.example.com";
     DBClusterMembers := Some (listed <$> [("orders-1", true); ("orders-2", false)]);
     cluster_other_keys := true |}.

Definition replica : db_instance :=
  {| DBInstanceIdentifier := Some "appdb-replica"; Engine := Some "postgres";
     Endpoint := Some {| Address := Some "appdb-replica.abc.example.com"; Port := Some 5432%Z |};
     ReadReplicaSourceDBInstanceIdentifier := Some "appdb";
     DBClusterIdentifier := None |}.

Definition lone : db_instance :=
  {| DBInstanceIdentifier := Some "lone"; Engine := Some "aurora-postgresql";
     Endpoint := Some {| Address := Some "lone.abc.example.com"; Port := Some 5432%Z |};
     ReadReplicaSourceDBInstanceIdentifier := None;
     DBClusterIdentifier := None |}.

Definition respond_control_plane (X : Type) (c : call X) (u : unit) : result X * unit :=
  match c in call X0 return result X0 * unit with
  | DescribeDBInstances id =>
      (if bool_decide (id = "appdb-replica") then inr [replica]
       else if bool_decide (id = "lone") then inr [lone]
       else inl unknown, u)
  | DescribeDBClusters id =>
      (if bool_decide (id = "orders") then inr [orders] else inl unknown, u)
  | _ => (inl unknown, u)
  end.

Definition control_plane : environment unit := {| respond := respond_control_plane |}.

(** Nothing outside the store answers: every login is refused. *)
Definition closed : environment unit :=
  {| respond := fun X _ u => (inl refused, u) |}.

Definition replica_payload : gmap string pyval :=
  <["host" := VStr "appdb-replica.abc.example.com"]> Scenario.current_payload.

Definition reader_payload : gmap string pyval :=
  <["host" := VStr "orders-2.abc.example.com"]>
    (<["engine" := VStr "aurora-postgresql"]> Scenario.current_payload).

Definition writer_endpoint_payload : gmap string pyval :=
  <["host" := VStr "orders.cluster-abc.example.com"]>
    (<["engine" := VStr "aurora-postgresql"]> Scenario.master_payload).

Definition lone_payload : gmap string pyval :=
  <["host" := VStr "lone.abc.example.com"]>
    (<["engine" := VStr "aurora-postgresql"]> Scenario.master_payload).

Definition mysql_payload : gmap string pyval :=
  <["host" := VStr "primary.abc.example.com"]>
    (<["engine" := VStr "mysql"]> Scenario.master_payload).

(** A user whose name leaves no room for the suffix. *)
Definition long_name : string := Scenario.copies 60 "u".

Definition long_payload : gmap string pyval :=
  <["username" := VStr long_name]> Scenario.current_payload.

(** A pending version for another host. *)
Definition moved_payload : gmap string pyval :=
  <["host" := VStr "otherdb.abc.example.com"]> Scenario.pending_payload.

Definition with_environ (vars : gmap string string) : PyLib :=
  {| json_loads := @json_loads Scenario.lib;
     json_dumps := @json_dumps Scenario.lib;
     int_of_str := @int_of_str Scenario.lib;
     environ := vars |}.

Definition with_table (table : list (string * gmap string pyval)) : PyLib :=
  {| json_loads := Scenario.table_lookup table;
     json_dumps := @json_dumps Scenario.lib;
     int_of_str := @int_of_str Scenario.lib;
     environ := ∅ |}.

(** The texts of the scenario read as the user with the long name and as the
    pending version for another host. *)
Definition long_lib : PyLib :=
  with_table [("current.json", long_payload); ("pending.json", moved_payload)].

Definition long_login : conn_args :=
  {| arg_host := VStr "appdb.abc.example.com"; arg_port := 5432%Z;
     arg_dbname := VStr "postgres"; arg_user := VStr long_name;
     arg_password := VStr "old-password"; arg_sslmode := "require" |}.

(** The pending version holds a text that is not JSON. *)
Definition garbled : gmap string Store.secret :=
  Scenario.store (Scenario.app_secret "garbage" (Some true))
                 (Scenario.master_secret "master.json" None).

(** A master secret that carries both linkage tags. *)
Definition cluster_arn : string := "arn:aws:rds:eu-west-1:111122223333:cluster:orders".

Definition relinked : gmap string Store.secret :=
  Scenario.store (Scenario.app_secret "pending.json" (Some true))
    (Scenario.master_secret "managed-master.json"
       (Some [ {| Key := "aws:rds:primaryDBClusterArn"; Value := cluster_arn |};
               {| Key := "aws:rds:primaryDBInstanceArn"; Value := Scenario.appdb_arn |};
               {| Key := "Team"; Value := "payments" |} ])).

Definition pending_login : conn_args :=
  {| arg_host := VStr "appdb.abc.example.com"; arg_port := 5432%Z;
     arg_dbname := VStr "postgres"; arg_user := VStr "app_clone";
     arg_password := VStr "new-password"; arg_sslmode := "require" |}.

Definition master_login : conn_args :=
  {| arg_host := VStr "appdb.abc.example.com"; arg_port := 5432%Z;
     arg_dbname := VStr "postgres"; arg_user := VStr "admin";
     arg_password := VStr "admin-password"; arg_sslmode := "require" |}.

Definition app_login_plain : conn_args :=
  {| arg_host := VStr "appdb.abc.example.com"; arg_port := 5432%Z;
     arg_dbname := VStr "postgres"; arg_user := VStr "app";
     arg_password := VStr "old-password"; arg_sslmode := "prefer" |}.

End Fleet.

(** * Properties *)

(** ** Strings and the alternate username *)

Lemma endswith_refl s : endswith s s = true.
Proof. destruct s; cbn [endswith]; case_bool_decide; done. Qed.

Lemma endswith_app m suf : endswith (m +:+ suf) suf = true.
Proof.
  induction m as [|c m IH]; simpl.
  - apply endswith_refl.
  - rewrite IH. apply orb_true_r.
Qed.

Lemma endswith_inv s suf : endswith s suf = true -> exists m, s = m +:+ suf.
Proof.
  induction s as [|c s IH]; simpl; intros Hs.
  - rewrite orb_false_r in Hs. apply bool_decide_eq_true_1 in Hs. exists EmptyString. by subst.
  - apply orb_true_iff in Hs as [Hs|Hs].
    + apply bool_decide_eq_true_1 in Hs. exists EmptyString. by subst.
    + destruct (IH Hs) as [m ->]. by exists (String c m).
Qed.

Lemma py_take_app m suf : py_take (String.length m) (m +:+ suf) = m.
Proof. induction m as [|c m IH]; simpl; [by destruct suf|]. by rewrite IH. Qed.

Lemma length_app_str a b :
  String.length (a +:+ b) = (String.length a + String.length b)%nat.
Proof. induction a as [|c a IH]; simpl; [done|]. by rewrite IH. Qed.

Lemma slice_to_neg_app m suf : slice_to_neg (m +:+ suf) (String.length suf) = m.
Proof.
  unfold slice_to_neg. rewrite length_app_str.
  replace (String.length m + String.length suf - String.length suf)%nat with (String.length m) by lia.
  apply py_take_app.
Qed.

Lemma app_assoc_str a b c : (a +:+ b) +:+ c = a +:+ (b +:+ c).
Proof.
  induction a as [|x a IH]; [done|].
  change (String x ((a +:+ b) +:+ c) = String x (a +:+ b +:+ c)). by rewrite IH.
Qed.

(** C4 (as amended): for every username [n] that does not end with the clone
    marker twice over, if both applications of [get_alt_username] succeed then
    the second one returns [n]. *)
Theorem get_alt_username_involutive (n a b : string) :
  endswith n (clone_suffix +:+ clone_suffix) = false ->
  get_alt_username n = inr a ->
  get_alt_username a = inr b ->
  b = n.
Proof.
  intros Hnn Ha Hb. unfold get_alt_username in Ha.
  destruct (endswith n clone_suffix) eqn:En.
  - apply endswith_inv in En as [m ->].
    unfold py_len in Ha. rewrite slice_to_neg_app in Ha. injection Ha as <-.
    unfold get_alt_username in Hb.
    destruct (endswith m clone_suffix) eqn:Em.
    + apply endswith_inv in Em as [m' ->].
      rewrite app_assoc_str, endswith_app in Hnn. discriminate.
    + destruct (63 <? _)%nat; congruence.
  - destruct (63 <? _)%nat; [discriminate|]. injection Ha as <-.
    unfold get_alt_username in Hb. rewrite endswith_app in Hb.
    unfold py_len in Hb. rewrite slice_to_neg_app in Hb. congruence.
Qed.

(** The pair [app], [app_clone]. *)
Lemma get_alt_username_involutive_witness :
  get_alt_username "app" = inr "app_clone" /\
  get_alt_username "app_clone" = inr "app" /\ "app" = "app".
Proof.
  split; [reflexivity|]. split; [reflexivity|].
  apply (get_alt_username_involutive "app" "app_clone" "app"); reflexivity.
Defined.

(** C4 as stated fails: on [a_clone_clone] both applications succeed and the
    second one returns [a]. *)
Lemma get_alt_username_not_involutive :
  ~ (forall n a b : string,
       get_alt_username n = inr a -> get_alt_username a = inr b -> b = n).
Proof.
  intros Hc. specialize (Hc "a_clone_clone" "a_clone" "a" eq_refl eq_refl). discriminate.
Qed.


(** ** SSL policy *)

Lemma lower_char_letter (c x : ascii) :
  lower_char c = x -> (97 <= nat_of_ascii x <= 122)%nat -> c = x \/ c = upper_letter x.
Proof.
  intros <-.
  destruct c as [[] [] [] [] [] [] [] []]; vm_compute; intros [H1 H2];
    first [by left | by right | exfalso; lia | idtac].
Qed.

Ltac letter_cases H :=
  apply lower_char_letter in H; [destruct H as [-> | ->] | vm_compute; lia].

Lemma lower_true s : lower s = "true" <-> equals_ignoring_case s "true".
Proof.
  unfold equals_ignoring_case. split.
  - intros Hl.
    destruct s as [|c1 [|c2 [|c3 [|c4 [|c5 s]]]]]; try discriminate.
    cbn [lower] in Hl. injection Hl as H1 H2 H3 H4.
    letter_cases H1; letter_cases H2; letter_cases H3; letter_cases H4;
      vm_compute; repeat first [apply list_elem_of_here | apply list_elem_of_further].
  - intros Hin. vm_compute in Hin.
    repeat (apply elem_of_cons in Hin as [-> | Hin]; [reflexivity|]).
    by apply elem_of_nil in Hin.
Qed.

Lemma lower_false s : lower s = "false" <-> equals_ignoring_case s "false".
Proof.
  unfold equals_ignoring_case. split.
  - intros Hl.
    destruct s as [|c1 [|c2 [|c3 [|c4 [|c5 [|c6 s]]]]]]; try discriminate.
    cbn [lower] in Hl. injection Hl as H1 H2 H3 H4 H5.
    letter_cases H1; letter_cases H2; letter_cases H3; letter_cases H4; letter_cases H5;
      vm_compute; repeat first [apply list_elem_of_here | apply list_elem_of_further].
  - intros Hin. vm_compute in Hin.
    repeat (apply elem_of_cons in Hin as [-> | Hin]; [reflexivity|]).
    by apply elem_of_nil in Hin.
Qed.

(** C5: the SSL policy is (true, true) without an [ssl] key, (v, false) for a
    boolean [v], (true, false) and (false, false) for a string that equals
    [true] or [false] ignoring case, and (true, true) for any other string. *)
Theorem get_ssl_config_policy (secret_dict : gmap string pyval) :
  (secret_dict !! "ssl" = None -> get_ssl_config secret_dict = (true, true)) /\
  (forall v : bool, secret_dict !! "ssl" = Some (VBool v) ->
     get_ssl_config secret_dict = (v, false)) /\
  (forall s : string, secret_dict !! "ssl" = Some (VStr s) ->
     (equals_ignoring_case s "true" -> get_ssl_config secret_dict = (true, false)) /\
     (equals_ignoring_case s "false" -> get_ssl_config secret_dict = (false, false)) /\
     (~ equals_ignoring_case s "true" -> ~ equals_ignoring_case s "false" ->
      get_ssl_config secret_dict = (true, true))).
Proof.
  unfold get_ssl_config. split; [by intros ->|]. split; [by intros v ->|].
  intros s ->. cbv zeta. split; [|split].
  - intros Ht%lower_true. by rewrite bool_decide_eq_true_2.
  - intros Hf%lower_false. rewrite Hf. reflexivity.
  - intros Ht Hf. rewrite <- lower_true in Ht. rewrite <- lower_false in Hf.
    by rewrite !bool_decide_eq_false_2.
Qed.

(** The five cases on the payloads of section 8. *)
Lemma get_ssl_config_policy_witness :
  get_ssl_config (∅ : gmap string pyval) = (true, true) /\
  get_ssl_config {["ssl" := VBool false]} = (false, false) /\
  get_ssl_config {["ssl" := VStr "TRUE"]} = (true, false) /\
  get_ssl_config {["ssl" := VStr "False"]} = (false, false) /\
  get_ssl_config {["ssl" := VStr "bogus"]} = (true, true).
Proof.
  split; [apply (get_ssl_config_policy ∅); reflexivity|].
  split; [apply (get_ssl_config_policy {["ssl" := VBool false]}); reflexivity|].
  split; [apply (get_ssl_config_policy {["ssl" := VStr "TRUE"]} ) with (s := "TRUE");
          [reflexivity | vm_compute; repeat first [apply list_elem_of_here | apply list_elem_of_further]]|].
  split; [apply (get_ssl_config_policy {["ssl" := VStr "False"]} ) with (s := "False");
          [reflexivity | vm_compute; repeat first [apply list_elem_of_here | apply list_elem_of_further]]|].
  apply (get_ssl_config_policy {["ssl" := VStr "bogus"]} ) with (s := "bogus");
    [reflexivity | | ]; intros Hin; vm_compute in Hin;
    repeat (apply elem_of_cons in Hin as [Hin | Hin]; [discriminate|]);
    by apply elem_of_nil in Hin.
Defined.

(** ** Running programs *)

Section Run.
Context {W : Type} (env : environment W).

Lemma run_bind {A B : Type} (p : prog A) (f : A -> prog B) (w : W) :
  run env (bind p f) w =
  match run env p w with
  | (inl e, w1, t1) => (inl e, w1, t1)
  | (inr a, w1, t1) =>
      let '(r, w2, t2) := run env (f a) w1 in (r, w2, t1 ++ t2)
  end.
Proof.
  revert w. induction p as [a|e|X c k IH]; intros w; cbn [bind run].
  - by destruct (run env (f a) w) as [[r w2] t2].
  - done.
  - destruct (respond env c w) as [r w1]. rewrite IH.
    destruct (run env (k r) w1) as [[[e|a] w2] t1]; [done|].
    by destruct (run env (f a) w2) as [[r2 w3] t2].
Qed.

Lemma run_try_except {A : Type} (p : prog A) (h : exn -> prog A) (w : W) :
  run env (try_except p h) w =
  match run env p w with
  | (inr a, w1, t1) => (inr a, w1, t1)
  | (inl e, w1, t1) =>
      let '(r, w2, t2) := run env (h e) w1 in (r, w2, t1 ++ t2)
  end.
Proof.
  revert w. induction p as [a|e|X c k IH]; intros w; cbn [try_except run].
  - done.
  - by destruct (run env (h e) w) as [[r w2] t2].
  - destruct (respond env c w) as [r w1]. rewrite IH.
    destruct (run env (k r) w1) as [[[e|a] w2] t1]; [|done].
    by destruct (run env (h e) w2) as [[r2 w3] t2].
Qed.

Lemma run_invoke {X : Type} (c : call X) (w : W) :
  run env (invoke c) w = ((respond env c w).1, (respond env c w).2, [Event c]).
Proof. cbn. by destruct (respond env c w) as [[e|x] w1]. Qed.

Lemma run_only {A : Type} (P : event -> Prop) (p : prog A) (w : W) :
  only P p -> Forall P (run env p w).2.
Proof.
  intros Hp. revert w. induction Hp as [a|e|X c k Hc Hk IH]; intros w; cbn [run].
  - constructor.
  - constructor.
  - destruct (respond env c w) as [r w1]. specialize (IH r w1).
    destruct (run env (k r) w1) as [[res w2] t]. by constructor.
Qed.
End Run.

Lemma only_bind {A B : Type} (P : event -> Prop) (p : prog A) (f : A -> prog B) :
  only P p -> (forall a, only P (f a)) -> only P (bind p f).
Proof. intros Hp Hf. induction Hp; cbn [bind]; [apply Hf|constructor|constructor; auto]. Qed.

Lemma only_try_except {A : Type} (P : event -> Prop) (p : prog A) (h : exn -> prog A) :
  only P p -> (forall e, only P (h e)) -> only P (try_except p h).
Proof. intros Hp Hh. induction Hp; cbn [try_except]; [constructor|apply Hh|constructor; auto]. Qed.

Lemma only_invoke {X : Type} (P : event -> Prop) (c : call X) :
  P (Event c) -> only P (invoke c).
Proof. intros Hc. constructor; [done|]. intros [e|x]; constructor. Qed.

Lemma only_lift {A : Type} (P : event -> Prop) (r : result A) : only P (lift r).
Proof. destruct r; constructor. Qed.

Lemma only_getitem (P : event -> Prop) d key : only P (getitem d key).
Proof. unfold getitem. destruct (d !! key); constructor. Qed.

Lemma only_member {A : Type} (P : event -> Prop) (field : option A) key :
  only P (member field key).
Proof. destruct field; constructor. Qed.

Ltac only_step :=
  first
    [ apply only_Ret | apply only_Raise
    | apply only_getitem | apply only_member | apply only_lift
    | apply only_invoke; reflexivity
    | apply only_bind; [|intros ?]
    | apply only_try_except; [|intros ?] ].

Ltac only_case :=
  match goal with
  | |- only _ (match ?x with _ => _ end) => destruct x eqn:?
  | |- only _ (if ?x then _ else _) => destruct x eqn:?
  | |- only _ (let '(_, _) := ?x in _) => destruct x eqn:?
  end.

Ltac only_auto := repeat first [only_step | only_case].

Section CallClasses.
Context `{PyLib}.

Lemma only_get_instance_info P id :
  P (Event (DescribeDBInstances id)) -> only P (get_instance_info_from_rds_api id).
Proof. intros HP. unfold get_instance_info_from_rds_api.
  apply only_bind; [apply only_try_except; [by apply only_invoke|intros; constructor]|].
  intros [|i l]; constructor. Qed.

Lemma only_get_cluster_info P id :
  P (Event (DescribeDBClusters id)) -> only P (get_cluster_info_from_rds_api id).
Proof. intros HP. unfold get_cluster_info_from_rds_api.
  apply only_bind; [apply only_try_except; [by apply only_invoke|intros; constructor]|].
  intros [|i l]; constructor. Qed.

Lemma only_member_ids P ms : only (A := list (string * bool)) P (member_ids ms).
Proof. induction ms as [|m ms IH]; cbn [member_ids]; only_auto. exact IH. Qed.

Lemma only_split_index P v sep i : only P (split_index v sep i).
Proof. unfold split_index. only_auto. Qed.

Lemma only_is_rds_replica_database replica_dict master_dict :
  only (fun ev => is_control_plane ev = true)
       (is_rds_replica_database replica_dict master_dict).
Proof.
  unfold is_rds_replica_database, get_cluster_info_from_master_host.
  repeat first
    [ apply only_get_instance_info; reflexivity
    | apply only_get_cluster_info; reflexivity
    | apply only_member_ids | apply only_split_index
    | only_step | only_case ].
Qed.

Lemma only_connect_and_authenticate d port dbname (use_ssl : bool) :
  only (fun ev => connect_sslmode ev = Some (if use_ssl then "require" else "prefer" : string))
       (connect_and_authenticate d port dbname use_ssl).
Proof. unfold connect_and_authenticate. only_auto. Qed.

End CallClasses.

(** ** Connection attempts *)

Section Connection.
Context `{PyLib}.
Context {W : Type} (env : environment W).

Lemma run_connect_and_authenticate d port dbname :
  (forall (use_ssl : bool) (w : W),
     run env (connect_and_authenticate d port dbname use_ssl) w = (inr None, w, [])) \/
  (forall (use_ssl : bool) (w : W), exists oc w1 a,
     run env (connect_and_authenticate d port dbname use_ssl) w
       = (inr oc, w1, [Event (PgConnect a)]) /\
     arg_sslmode a = (if use_ssl then "require" else "prefer")).
Proof.
  unfold connect_and_authenticate, getitem.
  destruct (d !! "host") as [h|]; [|by left].
  destruct (d !! "username") as [u|]; [|by left].
  destruct (d !! "password") as [p|]; [|by left].
  right. intros use_ssl w.
  cbn. destruct (respond env _ w) as [[e|c] w1] eqn:Hr; cbn.
  - by eexists None, w1, _.
  - by eexists (Some c), w1, _.
Qed.

Lemma get_connection_shape (d : gmap string pyval) (w : W) :
  let first_mode : string := if (get_ssl_config d).1 then "require" else "prefer" in
  let t := (run env (get_connection d) w).2 in
  t = [] \/ (exists a, t = [Event (PgConnect a)] /\ arg_sslmode a = first_mode)
  \/ ((get_ssl_config d).2 = true /\
      exists a b, t = [Event (PgConnect a); Event (PgConnect b)]
                  /\ arg_sslmode a = first_mode /\ arg_sslmode b = "prefer").
Proof.
  cbv zeta. unfold get_connection. rewrite run_bind.
  destruct (run env (match d !! "port" with Some v => lift (py_int v) | None => Ret 5432%Z end) w)
    as [[[e|port] w0] t0] eqn:Hport.
  { left. destruct (d !! "port") as [v|]; [|done]. cbn in Hport.
    destruct (py_int v); cbn in Hport; by simplify_eq. }
  assert (t0 = [] /\ w0 = w) as [-> ->].
  { destruct (d !! "port") as [v|]; cbn in Hport; [|by simplify_eq].
    destruct (py_int v); cbn in Hport; by simplify_eq. }
  destruct (get_ssl_config d) as [use_ssl fall_back]. cbn [fst snd].
  rewrite run_bind.
  destruct (run_connect_and_authenticate d port
    (match d !! "dbname" with Some VNone | None => VStr "postgres" | Some v => v end))
    as [Hnone|Hcall].
  - rewrite Hnone. cbn. destruct fall_back; cbn; [rewrite Hnone|]; by left.
  - destruct (Hcall use_ssl w) as (oc & w1 & a & -> & Ha).
    destruct (bool_decide (is_Some oc) || negb fall_back) eqn:Hb; cbn [run].
    + right; left. by exists a.
    + apply orb_false_iff in Hb as [Hoc Hfb]. apply negb_false_iff in Hfb. subst fall_back.
      destruct (Hcall false w1) as (oc2 & w2 & b & -> & Hb).
      right; right. split; [done|]. by exists a, b.
Qed.

(** C10: an attempt with [use_ssl] true passes sslmode [require], one with
    [use_ssl] false passes [prefer]; [get_connection] makes at most two
    attempts, the second one (the fallback) with [prefer], and none with
    [disable]. *)
Theorem connection_attempts_sslmode (d : gmap string pyval) (w : W) :
  (forall port dbname (use_ssl : bool),
     Forall (fun ev => connect_sslmode ev
                       = Some (if use_ssl then "require" else "prefer" : string))
            (run env (connect_and_authenticate d port dbname use_ssl) w).2) /\
  (let first_mode : string := if (get_ssl_config d).1 then "require" else "prefer" in
   let modes := omap connect_sslmode (run env (get_connection d) w).2 in
   length modes = length (run env (get_connection d) w).2 /\
   (modes = [] \/ modes = [first_mode]
    \/ ((get_ssl_config d).2 = true /\ modes = [first_mode; "prefer"]))) /\
  Forall (fun ev => connect_sslmode ev <> Some "disable")
         (run env (get_connection d) w).2.
Proof.
  split; [intros; apply run_only, only_connect_and_authenticate|].
  pose proof (get_connection_shape d w) as Hshape. cbv zeta in *.
  destruct Hshape as [Ht|[(a & Ht & Ha)|(Hfb & a & b & Ht & Ha & Hb)]]; rewrite Ht; cbn.
  - split; [by split; [|left]|constructor].
  - rewrite Ha. split; [split; [done|by right; left]|].
    repeat constructor. cbn. rewrite Ha. by destruct (get_ssl_config d).1.
  - rewrite Ha, Hb. split; [split; [done|by right; right]|].
    repeat constructor; cbn; rewrite ?Ha, ?Hb; [by destruct (get_ssl_config d).1|done].
Qed.
End Connection.

(** ** What the accessor and the connection strategy never do *)

Section Quiet.
Context `{PyLib}.

Ltac only_all :=
  repeat first
    [ apply only_get_instance_info; reflexivity
    | apply only_get_cluster_info; reflexivity
    | apply only_member_ids | apply only_split_index
    | only_step | only_case ].

Lemma no_statement_get_connection d :
  only (fun ev => is_db_statement ev = false) (get_connection d).
Proof. unfold get_connection, connect_and_authenticate. only_all. Qed.

Lemma no_connect_fetch_instance_arn arn :
  only (fun ev => is_db_statement ev = false /\ is_connect ev = false)
       (fetch_instance_arn_from_system_tags arn).
Proof. unfold fetch_instance_arn_from_system_tags.
  repeat first [ apply only_invoke; by split | only_step | only_case ]. Qed.

Lemma no_database_get_secret_dict arn stage token master_secret :
  only (fun ev => is_db_statement ev = false /\ is_connect ev = false)
       (get_secret_dict arn stage token master_secret).
Proof.
  unfold get_secret_dict, get_connection_params_from_rds_api,
    fetch_instance_arn_from_system_tags.
  repeat first
    [ apply only_get_instance_info; by split
    | apply only_get_cluster_info; by split
    | apply only_invoke; by split
    | only_step | only_case ].
  all: cbn [check_required required_fields];
    repeat first [ only_step | only_case ].
Qed.

End Quiet.

(** ** The master secret managed by the control plane *)

Lemma scan_tags_absent tags acc :
  Forall (fun t => is_arn_tag t = false) tags -> scan_tags tags acc = acc.
Proof.
  intros Hf. revert acc. induction Hf as [|t tags Ht _ IH]; intros acc; cbn [scan_tags]; [done|].
  by rewrite Ht.
Qed.

Lemma scan_tags_kind tags acc info :
  scan_tags tags acc = Some info ->
  acc = Some info \/
  ARN_SYSTEM_TAG info = "aws:rds:primarydbinstancearn" \/
  ARN_SYSTEM_TAG info = "aws:rds:primarydbclusterarn".
Proof.
  revert acc. induction tags as [|t tags IH]; intros acc; cbn [scan_tags]; [by left|].
  destruct (is_arn_tag t) eqn:Ht; intros Hs; apply IH in Hs; [|done].
  destruct Hs as [Hs|Hs]; [|by right]. right. injection Hs as <-. cbn.
  unfold is_arn_tag in Ht. apply orb_true_iff in Ht as [Ht|Ht];
    apply bool_decide_eq_true_1 in Ht; auto.
Qed.

Lemma supported_engine_check (engine : string) :
  existsb (fun e => py_eq (VStr engine) (VStr e)) supported_engines
  = bool_decide (engine ∈ supported_engines).
Proof.
  unfold supported_engines. cbn [existsb py_eq].
  repeat case_bool_decide; try done; exfalso.
  all: repeat match goal with
       | Hin : _ ∈ _ :: _ |- _ => apply elem_of_cons in Hin as [?|Hin]
       | Hin : _ ∈ [] |- _ => by apply elem_of_nil in Hin
       | Hn : ¬ _ ∈ _ |- _ => apply Hn; subst; by repeat constructor
       end; done.
Qed.

Lemma resolved_lookup d address port engine u p :
  d !! "username" = Some u -> d !! "password" = Some p ->
  let m := resolved d address port engine in
  m !! "host" = Some (VStr address) /\ m !! "username" = Some u /\
  m !! "password" = Some p /\ m !! "engine" = Some (VStr engine).
Proof. intros Hu Hp. unfold resolved. cbv zeta. by simplify_map_eq. Qed.

Section Accessor.
Context `{PyLib}.
Context {W : Type} (env : environment W).

(** C8: for a master secret whose payload has exactly the keys [username] and
    [password]: without linkage tag the required-field check raises
    MissingField for [host]; a linkage longer than 256 characters raises
    InvalidArn before any control-plane lookup; otherwise host, port and
    engine are those the control plane returns for the linked instance or
    cluster. *)
Theorem get_secret_dict_managed_master (arn : pyval) (stage : string)
    (token : option string) (w0 w1 w2 : W) (text : string) (d : gmap string pyval)
    (md : metadata) :
  let pre := [Event (GetSecretValue arn (truthy_token token) stage);
              Event (DescribeSecret arn)] in
  let fetch := run env (get_secret_dict arn stage token true) w0 in
  respond env (GetSecretValue arn (truthy_token token) stage) w0
    = (inr {| SecretString := Some text |}, w1) ->
  json_loads text = Some d ->
  dom d = ({["username"; "password"]} : gset string) ->
  respond env (DescribeSecret arn) w1 = (inr md, w2) ->
  (* no linkage: not fatal by itself, the required-field check fails *)
  (linkage md = None -> fetch = (inl (MissingField "host"), w2, pre)) /\
  (forall info : instance_info, linkage md = Some info ->
     (* a linkage that is too long is refused before any lookup *)
     ((MAX_RDS_DB_INSTANCE_ARN_LENGTH < py_len (ARN info))%nat ->
      fetch = (inl (InvalidArn (ARN info)), w2, pre)) /\
     (* otherwise host, port and engine come from the control plane *)
     ((py_len (ARN info) <= MAX_RDS_DB_INSTANCE_ARN_LENGTH)%nat ->
      (ARN_SYSTEM_TAG info = "aws:rds:primarydbinstancearn" \/
       ARN_SYSTEM_TAG info = "aws:rds:primarydbclusterarn") /\
      (forall (w3 : W) (inst : db_instance) (rest : list db_instance) (ep : endpoint)
              (address : string) (port : Z) (engine : string),
         ARN_SYSTEM_TAG info = "aws:rds:primarydbinstancearn" ->
         respond env (DescribeDBInstances (ARN info)) w2 = (inr (inst :: rest), w3) ->
         Endpoint inst = Some ep -> Address ep = Some address -> Port ep = Some port ->
         Engine inst = Some engine ->
         fetch = (if bool_decide (engine ∈ supported_engines)
                  then inr (resolved d address port engine) else inl UnsupportedEngine,
                  w3, pre ++ [Event (DescribeDBInstances (ARN info))])) /\
      (forall (w3 : W) (cl : db_cluster) (rest : list db_cluster)
              (address : string) (port : Z) (engine : string),
         ARN_SYSTEM_TAG info = "aws:rds:primarydbclusterarn" ->
         respond env (DescribeDBClusters (ARN info)) w2 = (inr (cl :: rest), w3) ->
         cluster_Endpoint cl = Some address -> cluster_Port cl = Some port ->
         cluster_Engine cl = Some engine ->
         fetch = (if bool_decide (engine ∈ supported_engines)
                  then inr (resolved d address port engine) else inl UnsupportedEngine,
                  w3, pre ++ [Event (DescribeDBClusters (ARN info))])))).
Proof.
  intros pre fetch Hget Hjson Hdom Hdesc.
  assert (Hu : is_Some (d !! "username")). { apply elem_of_dom. rewrite Hdom. set_solver. }
  assert (Hp : is_Some (d !! "password")). { apply elem_of_dom. rewrite Hdom. set_solver. }
  assert (Hh : d !! "host" = None). { apply not_elem_of_dom. rewrite Hdom. set_solver. }
  destruct Hu as [u Hu], Hp as [p Hp].
  assert (Hfetch : fetch =
    let '(r, w, t) :=
      run env (secret_dict <-
                 match linkage md with
                 | Some info =>
                     if (MAX_RDS_DB_INSTANCE_ARN_LENGTH <? py_len (ARN info))%nat
                     then Raise (InvalidArn (ARN info))
                     else get_connection_params_from_rds_api d info
                 | None => Ret d
                 end;;
               check_required required_fields secret_dict;;;
               engine <- getitem secret_dict "engine";;
               if existsb (fun e => py_eq engine (VStr e)) supported_engines
               then Ret secret_dict else Raise UnsupportedEngine) w2 in
    (r, w, pre ++ t)).
  { unfold fetch, get_secret_dict. cbn [invoke bind run]. rewrite Hget.
    cbn [member bind SecretString]. rewrite Hjson. cbn [bind]. rewrite Hdom.
    rewrite bool_decide_eq_true_2 by done. cbn [andb].
    unfold fetch_instance_arn_from_system_tags. cbn [invoke bind run]. rewrite Hdesc.
    cbn [bind]. unfold linkage.
    destruct (Tags md) as [tags|]; [destruct (scan_tags tags None) as [info|]|];
      [destruct (_ <? _)%nat|..]; cbn [bind];
      by destruct (run env _ w2) as [[r w] t]. }
  split; [|intros info Hlink; split; [|intros Hlen; split; [|split]]].
  - intros Hlink. rewrite Hfetch, Hlink. cbn [bind check_required required_fields].
    by rewrite Hh.
  - intros Hlen. rewrite Hfetch, Hlink.
    apply Nat.ltb_lt in Hlen. by rewrite Hlen.
  - unfold linkage in Hlink. destruct (Tags md) as [tags|]; [|done].
    by apply scan_tags_kind in Hlink as [?|?].
  - intros w3 inst rest ep address port engine Htag Hrds Hep Haddr Hport Heng.
    rewrite Hfetch, Hlink. apply Nat.leb_le in Hlen. rewrite Nat.ltb_antisym, Hlen. cbn [negb].
    unfold get_connection_params_from_rds_api. rewrite Htag.
    rewrite bool_decide_eq_true_2 by done.
    unfold get_instance_info_from_rds_api. cbn [invoke try_except bind run]. rewrite Hrds.
    cbn [try_except bind].
    repeat (progress (rewrite ?Hep, ?Haddr, ?Hport, ?Heng; cbn [member bind])).
    cbn [bind check_required required_fields]. unfold getitem.
    fold (resolved d address port engine).
    destruct (resolved_lookup d address port engine u p Hu Hp) as (-> & -> & -> & ->).
    cbn [bind]. rewrite supported_engine_check.
    by destruct (bool_decide _).
  - intros w3 cl rest address port engine Htag Hrds Haddr Hport Heng.
    rewrite Hfetch, Hlink. apply Nat.leb_le in Hlen. rewrite Nat.ltb_antisym, Hlen. cbn [negb].
    unfold get_connection_params_from_rds_api. rewrite Htag.
    rewrite bool_decide_eq_false_2 by done. rewrite bool_decide_eq_true_2 by done.
    unfold get_cluster_info_from_rds_api. cbn [invoke try_except bind run]. rewrite Hrds.
    cbn [try_except bind].
    repeat (progress (rewrite ?Haddr, ?Hport, ?Heng; cbn [member bind])).
    cbn [bind check_required required_fields]. unfold getitem.
    fold (resolved d address port engine).
    destruct (resolved_lookup d address port engine u p Hu Hp) as (-> & -> & -> & ->).
    cbn [bind]. rewrite supported_engine_check.
    by destruct (bool_decide _).
Qed.

End Accessor.

(** The master secret of the scenario without linkage, with an overlong linkage, and linked to [appdb]. *)
Lemma get_secret_dict_managed_master_witness :
  run Scenario.world (get_secret_dict (H:=Scenario.lib) (VStr "master-secret") "AWSCURRENT" None true)
      (Scenario.unlinked, Scenario.start)
  = (inl (MissingField "host"), (Scenario.unlinked, Scenario.start),
     [Event (GetSecretValue (VStr "master-secret") None "AWSCURRENT");
      Event (DescribeSecret (VStr "master-secret"))]) /\
  run Scenario.world (get_secret_dict (H:=Scenario.lib) (VStr "master-secret") "AWSCURRENT" None true)
      (Scenario.overlong, Scenario.start)
  = (inl (InvalidArn (Scenario.copies 300 "x")), (Scenario.overlong, Scenario.start),
     [Event (GetSecretValue (VStr "master-secret") None "AWSCURRENT");
      Event (DescribeSecret (VStr "master-secret"))]) /\
  run Scenario.world (get_secret_dict (H:=Scenario.lib) (VStr "master-secret") "AWSCURRENT" None true)
      (Scenario.linked, Scenario.start)
  = (inr (resolved Scenario.managed_master_payload "appdb.abc.example.com" 5432 "postgres"),
     (Scenario.linked, Scenario.start),
     [Event (GetSecretValue (VStr "master-secret") None "AWSCURRENT");
      Event (DescribeSecret (VStr "master-secret"));
      Event (DescribeDBInstances Scenario.appdb_arn)]).
Proof.
  split; [|split].
  - edestruct (get_secret_dict_managed_master (H:=Scenario.lib) Scenario.world
                 (VStr "master-secret") "AWSCURRENT" None (Scenario.unlinked, Scenario.start))
      as [Hnone _];
      [reflexivity | reflexivity | vm_compute; reflexivity | reflexivity |].
    apply Hnone. reflexivity.
  - edestruct (get_secret_dict_managed_master (H:=Scenario.lib) Scenario.world
                 (VStr "master-secret") "AWSCURRENT" None (Scenario.overlong, Scenario.start))
      as [_ Hsome];
      [reflexivity | reflexivity | vm_compute; reflexivity | reflexivity |].
    edestruct Hsome as [Hlong _]; [reflexivity|].
    apply Hlong. vm_compute. lia.
  - edestruct (get_secret_dict_managed_master (H:=Scenario.lib) Scenario.world
                 (VStr "master-secret") "AWSCURRENT" None (Scenario.linked, Scenario.start))
      as [_ Hsome];
      [reflexivity | reflexivity | vm_compute; reflexivity | reflexivity |].
    edestruct Hsome as [_ Hok]; [reflexivity|].
    assert (Hlen : (py_len Scenario.appdb_arn <= MAX_RDS_DB_INSTANCE_ARN_LENGTH)%nat)
      by (vm_compute; lia).
    destruct (Hok Hlen) as (_ & Hinst & _).
    exact (Hinst (Scenario.linked, Scenario.start) Scenario.appdb []
             {| Address := Some "appdb.abc.example.com"; Port := Some 5432%Z |}
             "appdb.abc.example.com" 5432%Z "postgres"
             eq_refl eq_refl eq_refl eq_refl eq_refl eq_refl).
Defined.

(** ** The replica check *)

Lemma split_first (s : string) (sep : ascii) : is_Some (split s sep !! 0%nat).
Proof.
  unfold split. generalize EmptyString as cur.
  induction s as [|c s IH]; intros cur; cbn [split_go]; [by eexists|].
  destruct (bool_decide (c = sep)); [by eexists|apply IH].
Qed.

Section Resolver.
Context `{PyLib}.
Context {W : Type} (env : environment W).

Lemma is_rds_replica_database_unknown_instance (replica_dict master_dict : gmap string pyval)
    (rh mh id : string) (w w1 : W) (r : result (list db_instance)) :
  replica_dict !! "host" = Some (VStr rh) ->
  master_dict !! "host" = Some (VStr mh) ->
  master_dict !! "engine" = Some (VStr "postgres") ->
  split rh "." !! 0%nat = Some id ->
  respond env (DescribeDBInstances id) w = (r, w1) ->
  r = inr [] \/ (exists e, r = inl e) ->
  exists e,
    run env (is_rds_replica_database replica_dict master_dict) w
    = (inl e, w1, [Event (DescribeDBInstances id)]).
Proof.
  intros Hrh Hmh Heng Hid Hresp Hr.
  destruct (split_first mh ".") as [mid Hmid].
  unfold is_rds_replica_database, getitem, split_index.
  rewrite Hrh. cbn [bind]. rewrite Hid. cbn [bind]. rewrite Hmh. cbn [bind].
  rewrite Hmid. cbn [bind]. rewrite Heng. cbn [bind py_eq].
  rewrite bool_decide_eq_true_2 by done.
  unfold get_instance_info_from_rds_api. cbn [invoke try_except bind run]. rewrite Hresp.
  destruct Hr as [->|[e ->]]; cbn [try_except bind run]; by eexists.
Qed.

End Resolver.

(** C3: with a candidate host unknown to the control plane,
    [is_rds_replica_database] does not answer false: the lookup error leaves
    the function as an exception. *)
Lemma is_rds_replica_database_missing_candidate :
  run Scenario.world
      (is_rds_replica_database Scenario.ghost_payload Scenario.master_payload)
      (Scenario.healthy, Scenario.start)
  = (inl (Exn PyException
            "Encountered API error while fetching connection parameters from DescribeDBInstances RDS API: %s"
            [VStr "DBInstanceNotFound"]),
     (Scenario.healthy, Scenario.start),
     [Event (DescribeDBInstances "ghost")]).
Proof. vm_compute. reflexivity. Qed.

(** ** The Set step *)

Section Steps.
Context `{PyLib}.
Context {W : Type} (env : environment W).

Lemma trace_only {A : Type} (P : event -> Prop) (p : prog A) (w w' : W) r t :
  only P p -> run env p w = (r, w', t) -> Forall P t.
Proof. intros Hp Hr. pose proof (run_only env P p w Hp) as Hf. by rewrite Hr in Hf. Qed.

(** C6: when both payloads are read, the current credential logs in and the
    current username has an alternate, a pending username other than that
    alternate, or a pending host other than the current one, makes
    [set_secret] raise StateMismatch right after that login was closed, with
    no statement sent to the database. *)
Theorem set_secret_state_mismatch (arn token : string) (w0 w1 w2 w3 w4 : W)
    (current_dict pending_dict : gmap string pyval) (t1 t2 t3 : list event) (c : conn)
    (cu pu ch ph : pyval) (alt : string) :
  run env (get_secret_dict (VStr arn) "AWSCURRENT" None false) w0 = (inr current_dict, w1, t1) ->
  run env (get_secret_dict (VStr arn) "AWSPENDING" (Some token) false) w1
    = (inr pending_dict, w2, t2) ->
  run env (get_connection current_dict) w2 = (inr (Some c), w3, t3) ->
  respond env (PgClose c) w3 = (inr tt, w4) ->
  current_dict !! "username" = Some cu ->
  get_alt_username_val cu = inr alt ->
  pending_dict !! "username" = Some pu ->
  current_dict !! "host" = Some ch ->
  pending_dict !! "host" = Some ph ->
  py_eq (VStr alt) pu = false \/ py_eq ch ph = false ->
  exists e,
    run env (set_secret arn token) w0
      = (inl e, w4, t1 ++ t2 ++ t3 ++ [Event (PgClose c)]) /\
    is_StateMismatch e = true /\
    Forall (fun ev => is_db_statement ev = false) (t1 ++ t2 ++ t3 ++ [Event (PgClose c)]).
Proof.
  intros H1 H2 H3 H4 Hcu Halt Hpu Hch Hph Hne.
  assert (Hquiet : Forall (fun ev => is_db_statement ev = false)
                     (t1 ++ t2 ++ t3 ++ [Event (PgClose c)])).
  { repeat apply Forall_app_2.
    - eapply Forall_impl; [eapply trace_only, H1; apply no_database_get_secret_dict|]. by intros ? [? ?].
    - eapply Forall_impl; [eapply trace_only, H2; apply no_database_get_secret_dict|]. by intros ? [? ?].
    - eapply trace_only, H3. apply no_statement_get_connection.
    - by repeat constructor. }
  unfold set_secret.
  rewrite run_bind, H1, run_bind, H2, run_bind, H3, run_bind, run_invoke, H4.
  cbn [fst snd]. unfold getitem. rewrite Hcu. cbn [bind]. rewrite Halt. cbn [lift bind].
  rewrite Hpu. cbn [bind].
  destruct (py_eq (VStr alt) pu) eqn:Eu; cbn [negb].
  - destruct Hne as [?|Hh]; [done|].
    rewrite Hch. cbn [bind]. rewrite Hph. cbn [bind]. rewrite Hh. cbn [negb run].
    exists (StateMismatch_host ph ch). by rewrite app_nil_r.
  - cbn [run]. exists (StateMismatch_user pu cu). by rewrite app_nil_r.
Qed.

End Steps.

(** The forged pending version of the scenario. *)
Lemma set_secret_state_mismatch_witness :
  exists e,
    run Scenario.world (set_secret (H:=Scenario.lib) "app-secret" "v2")
        (Scenario.forged, Scenario.start)
    = (inl e, (Scenario.forged, (1%nat, [])),
       [Event (GetSecretValue (VStr "app-secret") None "AWSCURRENT")]
       ++ [Event (GetSecretValue (VStr "app-secret") (Some "v2") "AWSPENDING")]
       ++ [Event (PgConnect Scenario.app_login)] ++ [Event (PgClose 0%nat)]) /\
    is_StateMismatch e = true.
Proof.
  destruct (set_secret_state_mismatch (H:=Scenario.lib) Scenario.world "app-secret" "v2"
              (Scenario.forged, Scenario.start) (Scenario.forged, Scenario.start)
              (Scenario.forged, Scenario.start) (Scenario.forged, (1%nat, []))
              (Scenario.forged, (1%nat, []))
              Scenario.current_payload Scenario.forged_payload
              [Event (GetSecretValue (VStr "app-secret") None "AWSCURRENT")]
              [Event (GetSecretValue (VStr "app-secret") (Some "v2") "AWSPENDING")]
              [Event (PgConnect Scenario.app_login)] 0%nat
              (VStr "app") (VStr "postgres")
              (VStr "appdb.abc.example.com") (VStr "appdb.abc.example.com") "app_clone")
    as (e & He & Hm & _);
    [reflexivity | reflexivity | reflexivity | reflexivity | reflexivity | reflexivity
    | reflexivity | reflexivity | reflexivity | left; reflexivity |].
  exists e. split; [exact He|exact Hm].
Defined.

(** C6 as stated fails: the pending host is not the current host, but the
    current username is 60 characters long and has no alternate, and
    [set_secret] raises UsernameTooLong before it compares the hosts. *)
Lemma set_secret_alternate_undefined :
  Fleet.long_payload !! "host" = Some (VStr "appdb.abc.example.com") /\
  Fleet.moved_payload !! "host" = Some (VStr "otherdb.abc.example.com") /\
  run Scenario.world (set_secret (H:=Fleet.long_lib) "app-secret" "v2")
      (Scenario.healthy, Scenario.start)
  = (inl UsernameTooLong, (Scenario.healthy, (1%nat, [])),
     [Event (GetSecretValue (VStr "app-secret") None "AWSCURRENT");
      Event (GetSecretValue (VStr "app-secret") (Some "v2") "AWSPENDING");
      Event (PgConnect Fleet.long_login); Event (PgClose 0%nat)]) /\
  is_StateMismatch UsernameTooLong = false.
Proof.
  split; [reflexivity|]. split; [reflexivity|]. split; [|reflexivity].
  vm_compute. reflexivity.
Qed.

Section Topology.
Context `{PyLib}.
Context {W : Type} (env : environment W).

(** C7: once the checks on the pair of payloads have passed and the master
    secret is read, [set_secret] raises TopologyMismatch, without connecting as
    master and without any statement, when the current host differs from the
    master host and [is_rds_replica_database] answers false; when the hosts
    are equal or the answer is true it goes on with the master login. *)
Theorem set_secret_topology_check (arn token : string) (w0 w1 w2 w3 w4 w5 w6 w7 : W)
    (current_dict pending_dict master_dict : gmap string pyval)
    (t1 t2 t3 t5 t7 : list event) (c1 c2 : conn)
    (cu pu ch ph master_arn mh : pyval) (alt : string) :
  let master_dict' := <["dbname" := default VNone (current_dict !! "dbname")]> master_dict in
  let pre := checked_prefix t1 t2 t3 t5 t7 c1 c2 in
  run env (get_secret_dict (VStr arn) "AWSCURRENT" None false) w0 = (inr current_dict, w1, t1) ->
  run env (get_secret_dict (VStr arn) "AWSPENDING" (Some token) false) w1
    = (inr pending_dict, w2, t2) ->
  run env (get_connection current_dict) w2 = (inr (Some c1), w3, t3) ->
  respond env (PgClose c1) w3 = (inr tt, w4) ->
  current_dict !! "username" = Some cu ->
  get_alt_username_val cu = inr alt ->
  pending_dict !! "username" = Some pu ->
  py_eq (VStr alt) pu = true ->
  current_dict !! "host" = Some ch ->
  pending_dict !! "host" = Some ph ->
  py_eq ch ph = true ->
  run env (get_connection current_dict) w4 = (inr (Some c2), w5, t5) ->
  respond env (PgClose c2) w5 = (inr tt, w6) ->
  current_dict !! "masterarn" = Some master_arn ->
  run env (get_secret_dict master_arn "AWSCURRENT" None true) w6 = (inr master_dict, w7, t7) ->
  master_dict' !! "host" = Some mh ->
  (* the hosts are identical: it proceeds *)
  (py_eq ch mh = true ->
   run env (set_secret arn token) w0 =
   let '(r, w, t) := run env (set_secret_as_master current_dict pending_dict master_dict' master_arn) w7 in
   (r, w, pre ++ t)) /\
  (forall (is_replica : bool) (w8 : W) (t8 : list event),
     py_eq ch mh = false ->
     run env (is_rds_replica_database current_dict master_dict') w7 = (inr is_replica, w8, t8) ->
     if is_replica then
       (* a validated replica: it proceeds *)
       run env (set_secret arn token) w0 =
       let '(r, w, t) := run env (set_secret_as_master current_dict pending_dict master_dict' master_arn) w8 in
       (r, w, pre ++ t8 ++ t)
     else
       (* neither: TopologyMismatch, and nothing after the topology lookup *)
       run env (set_secret arn token) w0 = (inl (TopologyMismatch ch mh), w8, pre ++ t8) /\
       is_TopologyMismatch (TopologyMismatch ch mh) = true /\
       Forall (fun ev => is_connect ev = false) (t7 ++ t8) /\
       Forall (fun ev => is_db_statement ev = false) (pre ++ t8)).
Proof.
  intros master_dict' pre H1 H2 H3 H4 Hcu Halt Hpu Hu Hch Hph Hh H5 H6 Hma H7 Hmh.
  assert (Hrun : run env (set_secret arn token) w0 =
    let '(r, w, t) :=
      run env (not_replica <-
                 (if negb (py_eq ch mh)
                  then r <- is_rds_replica_database current_dict master_dict';; Ret (negb r)
                  else Ret false);;
               if not_replica then Raise (TopologyMismatch ch mh)
               else set_secret_as_master current_dict pending_dict master_dict' master_arn) w7 in
    (r, w, pre ++ t)).
  { unfold set_secret.
    rewrite run_bind, H1, run_bind, H2, run_bind, H3, run_bind, run_invoke, H4.
    cbn [fst snd]. unfold getitem at 1 2. rewrite Hcu. cbn [bind]. rewrite Halt. cbn [lift bind].
    rewrite Hpu. cbn [bind]. rewrite Hu. cbn [negb].
    unfold getitem at 1 2. rewrite Hch. cbn [bind]. rewrite Hph. cbn [bind]. rewrite Hh. cbn [negb].
    rewrite run_bind, H5, run_bind, run_invoke, H6. cbn [fst snd].
    unfold getitem at 1. rewrite Hma. cbn [bind].
    rewrite run_bind, H7. fold master_dict'.
    unfold getitem at 1 2. rewrite Hch. cbn [bind]. rewrite Hmh. cbn [bind].
    destruct (run env _ w7) as [[r w] t].
    unfold pre, checked_prefix. by rewrite <- !app_assoc. }
  split.
  - intros Heq. rewrite Hrun, Heq. cbn [negb bind]. done.
  - intros is_replica w8 t8 Hne Hrep. rewrite Hrun, Hne. cbn [negb].
    rewrite !run_bind, Hrep. cbn [run bind].
    destruct is_replica; cbn [negb].
    + destruct (run env _ w8) as [[r w] t]. by rewrite (app_nil_r t8).
    + cbn [run]. rewrite !app_nil_r. split; [done|]. split; [done|].
      assert (Hq8 : Forall (fun ev => is_control_plane ev = true) t8).
      { eapply trace_only, Hrep. apply only_is_rds_replica_database. }
      assert (Hq7 : Forall (fun ev => is_db_statement ev = false /\ is_connect ev = false) t7).
      { eapply trace_only, H7. apply no_database_get_secret_dict. }
      split.
      * apply Forall_app_2.
        -- eapply Forall_impl; [exact Hq7|]. by intros ? [? ?].
        -- eapply Forall_impl; [exact Hq8|]. by intros [? []].
      * unfold pre, checked_prefix. repeat apply Forall_app_2.
        -- eapply Forall_impl; [eapply trace_only, H1; apply no_database_get_secret_dict|]. by intros ? [? ?].
        -- eapply Forall_impl; [eapply trace_only, H2; apply no_database_get_secret_dict|]. by intros ? [? ?].
        -- eapply trace_only, H3. apply no_statement_get_connection.
        -- by repeat constructor.
        -- eapply trace_only, H5. apply no_statement_get_connection.
        -- by repeat constructor.
        -- eapply Forall_impl; [exact Hq7|]. by intros ? [? ?].
        -- eapply Forall_impl; [exact Hq8|]. by intros [? []].
Qed.

End Topology.

(** The master secret of another database. *)
Lemma set_secret_topology_check_witness :
  run Scenario.world (set_secret (H:=Scenario.lib) "app-secret" "v2")
      (Scenario.foreign, Scenario.start)
  = (inl (TopologyMismatch (VStr "appdb.abc.example.com") (VStr "primary.abc.example.com")),
     (Scenario.foreign, (2%nat, [])),
     checked_prefix
       [Event (GetSecretValue (VStr "app-secret") None "AWSCURRENT")]
       [Event (GetSecretValue (VStr "app-secret") (Some "v2") "AWSPENDING")]
       [Event (PgConnect Scenario.app_login)] [Event (PgConnect Scenario.app_login)]
       [Event (GetSecretValue (VStr "master-secret") None "AWSCURRENT")] 0%nat 1%nat
     ++ [Event (DescribeDBInstances "appdb")]).
Proof.
  destruct (set_secret_topology_check (H:=Scenario.lib) Scenario.world "app-secret" "v2"
              (Scenario.foreign, Scenario.start) (Scenario.foreign, Scenario.start)
              (Scenario.foreign, Scenario.start) (Scenario.foreign, (1%nat, []))
              (Scenario.foreign, (1%nat, [])) (Scenario.foreign, (2%nat, []))
              (Scenario.foreign, (2%nat, [])) (Scenario.foreign, (2%nat, []))
              Scenario.current_payload Scenario.pending_payload
              Scenario.foreign_master_payload
              [Event (GetSecretValue (VStr "app-secret") None "AWSCURRENT")]
              [Event (GetSecretValue (VStr "app-secret") (Some "v2") "AWSPENDING")]
              [Event (PgConnect Scenario.app_login)] [Event (PgConnect Scenario.app_login)]
              [Event (GetSecretValue (VStr "master-secret") None "AWSCURRENT")]
              0%nat 1%nat
              (VStr "app") (VStr "app_clone")
              (VStr "appdb.abc.example.com") (VStr "appdb.abc.example.com")
              (VStr "master-secret") (VStr "primary.abc.example.com") "app_clone")
    as [_ Hcheck];
    [reflexivity | reflexivity | reflexivity | reflexivity | reflexivity | reflexivity
    | reflexivity | reflexivity | reflexivity | reflexivity | reflexivity | reflexivity
    | reflexivity | reflexivity | reflexivity | reflexivity |].
  destruct (Hcheck false (Scenario.foreign, (2%nat, []))
              [Event (DescribeDBInstances "appdb")] eq_refl eq_refl) as [Hrun _].
  exact Hrun.
Defined.

(** ** The coordinator *)

Section Coordinator.
Context `{PyLib}.
Context {W : Type} (env : environment W).

(** C2 (as amended): when rotation is not switched off and the stages of the
    requested token include AWSCURRENT, [lambda_handler] returns normally
    after the one [describe_secret] call, whatever the step. *)
Theorem lambda_handler_already_current (event : rotation_event) (w w1 : W)
    (md : metadata) (versions : list (string * list string)) (stages : list string) :
  respond env (DescribeSecret (VStr (SecretId event))) w = (inr md, w1) ->
  RotationEnabled md <> Some false ->
  VersionIdsToStages md = Some versions ->
  stages_of versions (ClientRequestToken event) = Some stages ->
  "AWSCURRENT" ∈ stages ->
  run env (lambda_handler event) w
    = (inr tt, w1, [Event (DescribeSecret (VStr (SecretId event)))]).
Proof.
  intros Hd Hen Hv Hs Hc. unfold lambda_handler. cbn [invoke bind run]. rewrite Hd.
  cbn [bind]. rewrite bool_decide_eq_false_2 by done. rewrite Hv. cbn [member bind].
  rewrite Hs. by rewrite bool_decide_eq_true_2.
Qed.
End Coordinator.

(** Version [v1] of the scenario, with a step that does not exist. *)
Lemma lambda_handler_already_current_witness :
  run Scenario.world (lambda_handler (H:=Scenario.lib)
        {| SecretId := "app-secret"; ClientRequestToken := "v1"; Step := "no such step" |})
      (Scenario.healthy, Scenario.start)
  = (inr tt, (Scenario.healthy, Scenario.start), [Event (DescribeSecret (VStr "app-secret"))]).
Proof.
  eapply (lambda_handler_already_current (H:=Scenario.lib) Scenario.world
            {| SecretId := "app-secret"; ClientRequestToken := "v1"; Step := "no such step" |});
    [vm_compute; reflexivity | vm_compute; discriminate | vm_compute; reflexivity
    | vm_compute; reflexivity | apply list_elem_of_here].
Defined.

(** C2 as stated fails: the token holds AWSCURRENT, but rotation is switched
    off and the coordinator raises. *)
Lemma lambda_handler_rotation_disabled :
  exists md w1 versions stages,
    respond Scenario.world (DescribeSecret (VStr "app-secret"))
      (Scenario.disabled, Scenario.start) = (inr md, w1) /\
    VersionIdsToStages md = Some versions /\
    stages_of versions "v1" = Some stages /\
    "AWSCURRENT" ∈ stages /\
    run Scenario.world (lambda_handler (H:=Scenario.lib)
          {| SecretId := "app-secret"; ClientRequestToken := "v1"; Step := "finishSecret" |})
        (Scenario.disabled, Scenario.start)
    = (inl (NotEligible "app-secret"), (Scenario.disabled, Scenario.start),
       [Event (DescribeSecret (VStr "app-secret"))]).
Proof.
  eexists _, _, _, _. split; [vm_compute; reflexivity|].
  split; [reflexivity|]. split; [vm_compute; reflexivity|].
  split; [apply list_elem_of_here|]. vm_compute. reflexivity.
Qed.

(** ** The store and the Finish and Create steps *)

Module StoreFacts.
Import Store.

Lemma find_current_version_holders (vs : list version) (token : string) :
  find_current_version (stage_map vs) token =
  match holders "AWSCURRENT" vs with
  | [] => Some None
  | h :: _ => if bool_decide (h = token) then None else Some (Some h)
  end.
Proof.
  unfold holders, stage_map. induction vs as [|v vs IH]; [done|].
  cbn [fmap list_fmap find_current_version]. rewrite filter_cons.
  destruct (decide ("AWSCURRENT" ∈ stages v)) as [Hc|Hc].
  - rewrite (bool_decide_eq_true_2 _ Hc).
    rewrite decide_True by (unfold has_stage; by apply bool_decide_eq_true_2). done.
  - rewrite (bool_decide_eq_false_2 _ Hc).
    rewrite decide_False by (unfold has_stage; by rewrite bool_decide_eq_false_2). exact IH.
Qed.

Lemma filter_eq_absent (x : string) (l : list string) :
  x ∉ l -> filter (fun y => y = x) l = [].
Proof.
  induction l as [|y l IH]; intros Hx; [done|]. rewrite filter_cons.
  apply not_elem_of_cons in Hx as [Hne Hx].
  rewrite decide_False by done. by apply IH.
Qed.

Lemma filter_eq_singleton (x : string) (l : list string) :
  NoDup l -> x ∈ l -> filter (fun y => y = x) l = [x].
Proof.
  induction 1 as [|y l Hy Hnd IH]; intros Hin; [by apply elem_of_nil in Hin|].
  rewrite filter_cons. destruct (decide (y = x)) as [->|Hne].
  - f_equal. by apply filter_eq_absent.
  - apply elem_of_cons in Hin as [->|Hin]; [done|]. by apply IH.
Qed.

Lemma holders_pointwise (stage target : string) (g : version -> version) (vs : list version) :
  Forall (fun v => version_id (g v) = version_id v /\
                   has_stage stage (g v) = bool_decide (version_id v = target)) vs ->
  holders stage (g <$> vs) = filter (fun y => y = target) (version_id <$> vs).
Proof.
  unfold holders. induction 1 as [|v vs [Hid Hst] _ IH]; [done|].
  cbn [fmap list_fmap]. rewrite !filter_cons, Hst.
  destruct (decide (version_id v = target)) as [Ht|Ht].
  - rewrite (bool_decide_eq_true_2 _ Ht). rewrite decide_True by done.
    cbn [fmap list_fmap]. rewrite Hid. f_equal. exact IH.
  - rewrite (bool_decide_eq_false_2 _ Ht). rewrite decide_False by done. exact IH.
Qed.

Lemma has_stage_filter_ne (stage other : string) (l : list string) :
  stage <> other ->
  bool_decide (stage ∈ filter (fun x => x ≠ other) l) = bool_decide (stage ∈ l).
Proof.
  intros Hne. apply bool_decide_ext. rewrite list_elem_of_filter. naive_solver.
Qed.

Lemma has_stage_filter_eq (stage : string) (l : list string) :
  bool_decide (stage ∈ filter (fun x => x ≠ stage) l) = false.
Proof. apply bool_decide_eq_false_2. rewrite list_elem_of_filter. naive_solver. Qed.

Lemma update_versions_current (token : string) (remove_from : option string)
    (vs : list version) :
  Forall (fun v => has_stage "AWSCURRENT" v = true ->
                   version_id v = token \/ Some (version_id v) = remove_from) vs ->
  holders "AWSCURRENT" (update_versions "AWSCURRENT" token remove_from vs)
  = filter (fun y => y = token) (version_id <$> vs).
Proof.
  intros Hvs. unfold update_versions.
  assert (Hmove : Forall (fun v =>
            version_id (move_stage "AWSCURRENT" token remove_from v) = version_id v /\
            has_stage "AWSCURRENT" (move_stage "AWSCURRENT" token remove_from v)
            = bool_decide (version_id v = token)) vs).
  { eapply Forall_impl; [exact Hvs|]. intros v Hv. split; [done|].
    unfold has_stage, move_stage in *. cbn [stages version_id].
    destruct (decide (version_id v = token)) as [Ht|Ht].
    - rewrite !(bool_decide_eq_true_2 _ Ht). apply bool_decide_eq_true_2. by left.
    - rewrite !(bool_decide_eq_false_2 _ Ht).
      destruct (decide (Some (version_id v) = remove_from)) as [Hr|Hr].
      + rewrite (bool_decide_eq_true_2 _ Hr). apply has_stage_filter_eq.
      + rewrite (bool_decide_eq_false_2 _ Hr).
        apply bool_decide_eq_false_2. intros Hin.
        destruct Hv as [?|?]; [by apply bool_decide_eq_true_2|done..]. }
  destruct remove_from as [displaced|]; [|by apply holders_pointwise].
  destruct (bool_decide _ && negb _); [|by apply holders_pointwise].
  rewrite <- list_fmap_compose. apply holders_pointwise.
  eapply Forall_impl; [exact Hmove|]. intros v [Hid Hst]. cbn. split; [done|].
  rewrite <- Hst. unfold has_stage, relabel_previous. cbn [stages].
  destruct (bool_decide (version_id _ = displaced)).
  - apply bool_decide_ext. rewrite elem_of_cons, list_elem_of_filter. naive_solver.
  - by apply has_stage_filter_ne.
Qed.

Lemma update_versions_previous (token displaced : string) (vs : list version) :
  displaced <> token ->
  holders "AWSPREVIOUS" (update_versions "AWSCURRENT" token (Some displaced) vs)
  = filter (fun y => y = displaced) (version_id <$> vs).
Proof.
  intros Hne. unfold update_versions.
  rewrite bool_decide_eq_true_2 by done. rewrite (bool_decide_eq_false_2 _ Hne). cbn [andb negb].
  rewrite <- list_fmap_compose. apply holders_pointwise.
  apply Forall_forall. intros v _. cbn. split; [done|].
  unfold has_stage, relabel_previous. cbn [stages version_id].
  destruct (decide (version_id v = displaced)) as [Hd|Hd].
  - rewrite !(bool_decide_eq_true_2 _ Hd). apply bool_decide_eq_true_2. by left.
  - rewrite !(bool_decide_eq_false_2 _ Hd). apply has_stage_filter_eq.
Qed.

Lemma holders_elem (stage h : string) (vs : list version) :
  h ∈ holders stage vs -> h ∈ (version_id <$> vs).
Proof.
  unfold holders. intros (v & -> & Hv)%list_elem_of_fmap.
  apply list_elem_of_filter in Hv as [_ Hv]. by apply list_elem_of_fmap_2.
Qed.

Lemma holders_cover (stage : string) (vs : list version) (v : version) :
  v ∈ vs -> has_stage stage v = true -> version_id v ∈ holders stage vs.
Proof.
  intros Hin Hs. unfold holders. apply list_elem_of_fmap_2. by apply list_elem_of_filter.
Qed.

End StoreFacts.

Section FinishCalls.
Context {W : Type} (env : environment W).

(** Whatever the store answers, [finish_secret] describes the secret and then
    issues at most one more call: the combined move onto the token. *)
Lemma finish_secret_calls (arn token : string) (w : W) :
  let t := (run env (finish_secret arn token) w).2 in
  t = [Event (DescribeSecret (VStr arn))] \/
  exists remove_from,
    t = [Event (DescribeSecret (VStr arn));
         Event (UpdateSecretVersionStage (VStr arn) "AWSCURRENT" token remove_from)].
Proof.
  cbv zeta. unfold finish_secret. cbn [invoke bind run].
  destruct (respond env (DescribeSecret (VStr arn)) w) as [[e|md] w1]; cbn [bind run snd];
    [by left|].
  destruct (VersionIdsToStages md) as [versions|]; cbn [member bind run snd]; [|by left].
  destruct (find_current_version versions token) as [remove_from|]; cbn [run snd]; [|by left].
  right. exists remove_from. cbn [invoke run].
  by destruct (respond env _ w1) as [[e|[]] w2].
Qed.

(** Never two label edits. *)
Lemma finish_secret_one_edit (arn token : string) (w : W) :
  (length (filter (fun ev => is_store_mutation ev = true)
                  (run env (finish_secret arn token) w).2) <= 1)%nat.
Proof.
  destruct (finish_secret_calls arn token w) as [Ht|[remove_from Ht]];
    cbv zeta in Ht; rewrite Ht; vm_compute; lia.
Qed.

End FinishCalls.

Section Finish.
Context `{PyLib}.
Context {E : Type} (outer : environment E).
Import Store StoreFacts.

(** Without a holder of AWSCURRENT the move carries no version to take the
    label from: the store refuses it and nothing changes. *)
Lemma finish_secret_without_current (st : gmap string secret) (e : E)
    (arn token : string) (s : secret) :
  st !! arn = Some s ->
  holders "AWSCURRENT" (versions s) = [] ->
  run (Store.env outer) (finish_secret arn token) (st, e)
  = (inl bad_parameter, (st, e),
     [Event (DescribeSecret (VStr arn));
      Event (UpdateSecretVersionStage (VStr arn) "AWSCURRENT" token None)]).
Proof.
  intros Hst Hnone.
  unfold finish_secret. cbn [invoke bind run respond Store.env respond_store fst snd].
  unfold describe_secret. rewrite Hst. cbn [bind member VersionIdsToStages].
  rewrite find_current_version_holders, Hnone.
  by cbn [invoke run respond Store.env respond_store fst snd update_secret_version_stage].
Qed.

(** C1: on a store that satisfies the invariant of section 3 and on which
    version [h] holds AWSCURRENT, [finish_secret] with a token that is [h]
    returns without touching the store; otherwise it issues one call, the
    combined move of AWSCURRENT onto the token and off [h], after which the
    token is the only holder of AWSCURRENT and [h] the only holder of
    AWSPREVIOUS. *)
Theorem finish_secret_single_move (st : gmap string secret) (e : E)
    (arn token h : string) (s : secret) :
  st !! arn = Some s ->
  well_formed s ->
  token ∈ (version_id <$> versions s) ->
  h ∈ holders "AWSCURRENT" (versions s) ->
  let describe := Event (DescribeSecret (VStr arn)) in
  if bool_decide (token ∈ holders "AWSCURRENT" (versions s)) then
    h = token /\
    run (Store.env outer) (finish_secret arn token) (st, e) = (inr tt, (st, e), [describe])
  else
    exists s' : secret,
      run (Store.env outer) (finish_secret arn token) (st, e)
      = (inr tt, (<[arn := s']> st, e),
         [describe; Event (UpdateSecretVersionStage (VStr arn) "AWSCURRENT" token (Some h))])
      /\ holders "AWSCURRENT" (versions s') = [token]
      /\ holders "AWSPREVIOUS" (versions s') = [h].
Proof.
  intros Hst [Hnd Huniq] Htok Hh describe.
  assert (Hrun : run (Store.env outer) (finish_secret arn token) (st, e) =
    match find_current_version (stage_map (versions s)) token with
    | None => (inr tt, (st, e), [describe])
    | Some None =>
        (inl bad_parameter, (st, e),
         [describe; Event (UpdateSecretVersionStage (VStr arn) "AWSCURRENT" token None)])
    | Some (Some displaced) =>
        (inr tt,
         (<[arn := {| rotation_enabled := rotation_enabled s;
                      versions := update_versions "AWSCURRENT" token (Some displaced)
                                    (versions s);
                      tags := tags s |}]> st, e),
         [describe;
          Event (UpdateSecretVersionStage (VStr arn) "AWSCURRENT" token (Some displaced))])
    end).
  { unfold finish_secret. cbn [invoke bind run respond Store.env respond_store fst snd].
    unfold describe_secret. rewrite Hst. cbn [bind member VersionIdsToStages].
    destruct (find_current_version _ token) as [[displaced|]|]; [| |done].
    - cbn [invoke run respond Store.env respond_store fst snd].
      unfold update_secret_version_stage. rewrite Hst.
      by rewrite bool_decide_eq_true_2.
    - by cbn [invoke run respond Store.env respond_store fst snd update_secret_version_stage]. }
  rewrite Hrun, find_current_version_holders. clear Hrun.
  unfold stage_unique in Huniq.
  destruct (holders "AWSCURRENT" (versions s)) as [|h0 [|h' l]] eqn:Hholders;
    cbn in Huniq; [by apply elem_of_nil in Hh| |lia].
  apply list_elem_of_singleton in Hh. subst h0.
  destruct (decide (h = token)) as [->|Hne].
  - rewrite bool_decide_eq_true_2 by apply list_elem_of_here.
    by rewrite bool_decide_eq_true_2.
  - rewrite (bool_decide_eq_false_2 (h = token)) by done.
    rewrite bool_decide_eq_false_2
      by (intros Hin; apply list_elem_of_singleton in Hin; congruence).
    cbn [head]. eexists. split; [reflexivity|]. cbn [versions]. split.
    + rewrite update_versions_current; [by apply filter_eq_singleton|].
      apply Forall_forall. intros v Hv Hc.
      pose proof (holders_cover "AWSCURRENT" _ v Hv Hc) as Hin. rewrite Hholders in Hin.
      apply list_elem_of_singleton in Hin. right. by rewrite Hin.
    + rewrite update_versions_previous by done. apply filter_eq_singleton; [done|].
      apply (holders_elem "AWSCURRENT"). rewrite Hholders. apply list_elem_of_here.
Qed.
End Finish.

(** Promotion of [v2] in the scenario: [v1] is displaced. *)
Lemma finish_secret_single_move_witness :
  exists s' : Store.secret,
    run Scenario.world (finish_secret "app-secret" "v2") (Scenario.healthy, Scenario.start)
    = (inr tt, (<["app-secret" := s']> Scenario.healthy, Scenario.start),
       [Event (DescribeSecret (VStr "app-secret"));
        Event (UpdateSecretVersionStage (VStr "app-secret") "AWSCURRENT" "v2" (Some "v1"))])
    /\ Store.holders "AWSCURRENT" (Store.versions s') = ["v2"]
    /\ Store.holders "AWSPREVIOUS" (Store.versions s') = ["v1"].
Proof.
  apply (finish_secret_single_move Scenario.outside Scenario.healthy Scenario.start
           "app-secret" "v2" "v1" (Scenario.app_secret "pending.json" (Some true))).
  - reflexivity.
  - split; [|vm_compute; lia].
    apply (bool_decide_eq_true_1 _). vm_compute. reflexivity.
  - cbn. apply list_elem_of_further, list_elem_of_here.
  - apply list_elem_of_here.
Defined.

Section Create.
Context `{PyLib}.
Context {E : Type} (outer : environment E).
Import Store.

Lemma get_secret_value_found (st : gmap string secret) (arn token : string)
    (s : secret) (v : version) (stage : string) :
  st !! arn = Some s -> v ∈ versions s -> version_id v = token -> stage ∈ stages v ->
  exists text,
    get_secret_value st (VStr arn) (truthy_token (Some token)) stage
    = inr {| SecretString := Some text |}.
Proof.
  intros Hst Hv Hid Hs. unfold get_secret_value. rewrite Hst.
  assert (Hsel : selects (truthy_token (Some token)) stage v = true).
  { unfold selects, has_stage. rewrite bool_decide_eq_true_2 by done. cbn [andb].
    destruct token; cbn [truthy_token]; [done|]. by apply bool_decide_eq_true_2. }
  destruct (filter _ (versions s)) as [|v' l] eqn:Hf; [|by eexists].
  assert (Hin : v ∈ filter (fun v => selects (truthy_token (Some token)) stage v = true)
                       (versions s)) by by apply list_elem_of_filter.
  rewrite Hf in Hin. by apply elem_of_nil in Hin.
Qed.

(** Reading a secret that is not a master secret asks the store for one
    value; only the store can answer that the version does not exist. *)
Lemma run_get_secret_dict_store (arn : pyval) (stage : string) (token : option string)
    (w : gmap string secret * E) :
  exists r,
    run (Store.env outer) (get_secret_dict arn stage token false) w
    = (r, w, [Event (GetSecretValue arn (truthy_token token) stage)]) /\
    forall e, r = inl e -> exn_cls e = ResourceNotFoundException ->
              get_secret_value w.1 arn (truthy_token token) stage = inl e.
Proof.
  unfold get_secret_dict. cbn [invoke bind run respond Store.env respond_store].
  destruct w as [st e0]. cbn [fst snd].
  destruct (get_secret_value st arn (truthy_token token) stage) as [e|[[text|]]];
    cbn [bind member SecretString run].
  - eexists. split; [done|]. by intros ? [= ->] _.
  - destruct (json_loads text) as [d|]; cbn [bind andb run];
      [|eexists; split; [done|]; by intros ? [= <-]].
    cbn [check_required required_fields].
    destruct (d !! "host"); cbn [bind run];
      [|eexists; split; [done|]; by intros ? [= <-]].
    destruct (d !! "username"); cbn [bind run];
      [|eexists; split; [done|]; by intros ? [= <-]].
    destruct (d !! "password"); cbn [bind run];
      [|eexists; split; [done|]; by intros ? [= <-]].
    unfold getitem.
    destruct (d !! "engine"); cbn [bind run];
      [|eexists; split; [done|]; by intros ? [= <-]].
    destruct (existsb _ _); cbn [run]; eexists; (split; [done|]); [done|by intros ? [= <-]].
  - eexists; split; [done|]; by intros ? [= <-].
Qed.

(** C9: when a version with the requested token already holds AWSPENDING,
    [create_secret] leaves the store as it is and never calls
    [put_secret_value]; a second invocation does the same, and the pending
    payload is the one that was there. *)
Theorem create_secret_idempotent (st : gmap string secret) (e : E)
    (arn token : string) (s : secret) (v : version) :
  st !! arn = Some s ->
  v ∈ versions s ->
  version_id v = token ->
  "AWSPENDING" ∈ stages v ->
  let first_run := run (Store.env outer) (create_secret arn token) (st, e) in
  let second_run := run (Store.env outer) (create_secret arn token) first_run.1.2 in
  first_run.1.2 = (st, e) /\
  second_run = first_run /\
  Forall (fun ev => is_put_secret_value ev = false) (first_run.2 ++ second_run.2) /\
  exists text,
    get_secret_value st (VStr arn) (truthy_token (Some token)) "AWSPENDING"
      = inr {| SecretString := Some text |} /\
    get_secret_value second_run.1.2.1 (VStr arn) (truthy_token (Some token)) "AWSPENDING"
      = inr {| SecretString := Some text |}.
Proof.
  intros Hst Hv Hid Hs first_run second_run.
  destruct (get_secret_value_found st arn token s v "AWSPENDING" Hst Hv Hid Hs) as [text Htext].
  assert (Hfirst : first_run.1.2 = (st, e) /\ Forall (fun ev => is_put_secret_value ev = false) first_run.2).
  { unfold first_run, create_secret. rewrite run_bind.
    destruct (run_get_secret_dict_store (VStr arn) "AWSCURRENT" None (st, e)) as (r0 & -> & _).
    destruct r0 as [e0|current_dict]; [by split; [|repeat constructor]|].
    rewrite run_try_except, run_bind.
    destruct (run_get_secret_dict_store (VStr arn) "AWSPENDING" (Some token) (st, e))
      as (r1 & -> & Hr1).
    destruct r1 as [e1|pending_dict]; [|by split; [|repeat constructor]].
    destruct (bool_decide (exn_cls e1 = ResourceNotFoundException)) eqn:Hcls.
    - apply bool_decide_eq_true_1 in Hcls. specialize (Hr1 e1 eq_refl Hcls).
      cbn [fst] in Hr1. congruence.
    - cbn [run]. by split; [|repeat constructor]. }
  destruct Hfirst as [Hw Hq].
  assert (Hsecond : second_run = first_run).
  { unfold second_run. by rewrite Hw. }
  split; [done|]. split; [done|]. split.
  - rewrite Hsecond. by apply Forall_app_2.
  - exists text. split; [done|]. rewrite Hsecond, Hw. done.
Qed.

End Create.

(** A retry of Create in the scenario, where [v2] is already pending. *)
Lemma create_secret_idempotent_witness :
  let first_run :=
    run Scenario.world (create_secret (H:=Scenario.lib) "app-secret" "v2")
        (Scenario.healthy, Scenario.start) in
  first_run.1.2 = (Scenario.healthy, Scenario.start) /\
  Forall (fun ev => is_put_secret_value ev = false) first_run.2.
Proof.
  destruct (create_secret_idempotent (H:=Scenario.lib) Scenario.outside Scenario.healthy
              Scenario.start "app-secret" "v2"
              (Scenario.app_secret "pending.json" (Some true))
              {| Store.version_id := "v2"; Store.stages := ["AWSPENDING"];
                 Store.payload := "pending.json" |})
    as (Hw & _ & Hq & _).
  - reflexivity.
  - cbn. apply list_elem_of_further, list_elem_of_here.
  - reflexivity.
  - cbn. apply list_elem_of_here.
  - split; [exact Hw|]. apply Forall_app in Hq as [Hq _]. exact Hq.
Defined.

(** * Further properties of the handler *)

(** ** More on the alternate username *)

Lemma endswith_length s suf : endswith s suf = true -> (String.length suf <= String.length s)%nat.
Proof.
  intros [m ->]%endswith_inv. rewrite length_app_str. lia.
Qed.

Lemma app_length_ne (a suf : string) : (0 < String.length suf)%nat -> a <> a +:+ suf.
Proof.
  intros Hlen Heq. apply (f_equal String.length) in Heq.
  rewrite length_app_str in Heq. lia.
Qed.

(** X1: [get_alt_username] fails only with UsernameTooLong, and only for a
    name without the suffix that is longer than 57 characters; otherwise the
    result differs from the argument: the name without its suffix [_clone], or
    the name with the suffix appended and at most 63 characters long. *)
Theorem get_alt_username_outcome (n : string) :
  match get_alt_username n with
  | inl e =>
      e = UsernameTooLong /\ endswith n clone_suffix = false /\ (57 < py_len n)%nat
  | inr a =>
      a <> n /\
      if endswith n clone_suffix then n = a +:+ clone_suffix
      else a = n +:+ clone_suffix /\ (py_len a <= 63)%nat
  end.
Proof.
  unfold get_alt_username.
  destruct (endswith n clone_suffix) eqn:En.
  - apply endswith_inv in En as [m ->]. unfold py_len. rewrite slice_to_neg_app.
    split; [|done]. by apply app_length_ne; cbn; lia.
  - destruct (63 <? py_len (n +:+ clone_suffix))%nat eqn:Hl.
    + apply Nat.ltb_lt in Hl. unfold py_len in *. rewrite length_app_str in Hl. cbn in Hl.
      split; [done|]. split; [done|lia].
    + apply Nat.ltb_ge in Hl. split; [|by split].
      intros Heq. symmetry in Heq. revert Heq. apply app_length_ne. cbn; lia.
Qed.

(** ** More on the SSL policy *)

(** X2: [get_ssl_config] never asks for a fall-back after a first attempt
    without SSL, and an [ssl] value that is neither a boolean nor a string
    (a number, null) gives the default: SSL first, with fall-back. *)
Theorem get_ssl_config_never_plain_with_fallback (secret_dict : gmap string pyval) :
  (get_ssl_config secret_dict).1 || negb (get_ssl_config secret_dict).2 = true /\
  match secret_dict !! "ssl" with
  | Some (VInt _) | Some VNone => get_ssl_config secret_dict = (true, true)
  | _ => True
  end.
Proof.
  unfold get_ssl_config.
  destruct (secret_dict !! "ssl") as [[|b|z|s]|]; cbn; try done.
  - by destruct b.
  - repeat case_bool_decide; done.
Qed.

Lemma lower_char_of_letter (x : ascii) :
  (97 <= nat_of_ascii x <= 122)%nat ->
  lower_char x = x /\ lower_char (upper_letter x) = x.
Proof.
  destruct x as [[] [] [] [] [] [] [] []]; vm_compute; intros [H1 H2];
    first [by split | exfalso; lia].
Qed.

Lemma lower_case_variants (w : string) :
  lowercase_word w -> forall s, lower s = w <-> equals_ignoring_case s w.
Proof.
  unfold equals_ignoring_case.
  induction w as [|x w IH]; intros Hw s.
  - cbn. rewrite list_elem_of_singleton. destruct s; cbn [lower]. all: split; intros Hs; first [done | discriminate].
  - destruct Hw as [Hx Hw]. cbn [case_variants]. rewrite elem_of_app, !list_elem_of_fmap.
    destruct (lower_char_of_letter x Hx) as [Hl Hu]. split.
    + destruct s as [|c s]; [done|]. cbn [lower]. intros [= Hc Hs].
      apply IH in Hs; [|done].
      destruct (lower_char_letter c x Hc Hx) as [->| ->]; [left|right]; by eexists.
    + intros [(s' & -> & Hs)|(s' & -> & Hs)]; cbn [lower];
        apply IH in Hs; try done; by rewrite Hs, ?Hl, ?Hu.
Qed.

(** ** Boolean environment variables *)

Section Flags.
Context `{PyLib}.

(** X3: [get_environment_bool] returns the default when the variable is not
    set; when it is set, the result is true exactly for the value [1] and for
    [true], [y] and [yes] in any capitalisation, whatever the default. *)
Theorem get_environment_bool_spellings (variable_name : string) (default_value : bool) :
  match environ !! variable_name with
  | None => get_environment_bool variable_name default_value = default_value
  | Some v =>
      get_environment_bool variable_name default_value = true <->
      equals_ignoring_case v "true" \/ v = "1" \/
      equals_ignoring_case v "y" \/ equals_ignoring_case v "yes"
  end.
Proof.
  unfold get_environment_bool. destruct (environ !! variable_name) as [v|];
    [|by destruct default_value].
  cbn [default]. rewrite bool_decide_eq_true.
  rewrite <- !lower_case_variants by (vm_compute; lia).
  rewrite !elem_of_cons, elem_of_nil.
  assert (lower v = "1" <-> v = "1") as ->.
  { split; [|by intros ->].
    destruct v as [|c [|c' v]]; try done. cbn [lower]. intros [= Hc].
    destruct c as [[] [] [] [] [] [] [] []]; vm_compute in Hc; try discriminate; done. }
  tauto.
Qed.
End Flags.

(** ** The connection attempts in full *)

Section Attempts.
Context `{PyLib}.
Context {W : Type} (env : environment W).

Lemma run_connect_attempt (d : gmap string pyval) (port : Z) (dbname : pyval)
    (use_ssl : bool) (w : W) (host user password : pyval) :
  d !! "host" = Some host ->
  d !! "username" = Some user ->
  d !! "password" = Some password ->
  let args := {| arg_host := host; arg_port := port; arg_dbname := dbname;
                 arg_user := user; arg_password := password;
                 arg_sslmode := if use_ssl then "require" else "prefer" |} in
  run env (connect_and_authenticate d port dbname use_ssl) w
  = (match (respond env (PgConnect args) w).1 with
     | inr c => inr (Some c)
     | inl _ => inr None
     end,
     (respond env (PgConnect args) w).2, [Event (PgConnect args)]).
Proof.
  intros Hh Hu Hp. cbv zeta. unfold connect_and_authenticate, getitem.
  rewrite Hh, Hu, Hp. cbn. by destruct (respond env _ w) as [[e|c] w1].
Qed.

(** X4: [connect_and_authenticate] never raises: with [host], [username] and
    [password] present it makes one connection attempt with these values and
    returns the connection, or [None] when the driver raises; when one of the
    keys is missing it returns [None] without any attempt. *)
Theorem connect_and_authenticate_never_raises (d : gmap string pyval) (port : Z)
    (dbname : pyval) (use_ssl : bool) (w : W) :
  let attempt := run env (connect_and_authenticate d port dbname use_ssl) w in
  match d !! "host", d !! "username", d !! "password" with
  | Some host, Some user, Some password =>
      let args := {| arg_host := host; arg_port := port; arg_dbname := dbname;
                     arg_user := user; arg_password := password;
                     arg_sslmode := if use_ssl then "require" else "prefer" |} in
      attempt = (match (respond env (PgConnect args) w).1 with
                 | inr c => inr (Some c)
                 | inl _ => inr None
                 end,
                 (respond env (PgConnect args) w).2, [Event (PgConnect args)])
  | _, _, _ => attempt = (inr None, w, [])
  end.
Proof.
  cbv zeta. unfold connect_and_authenticate, getitem.
  destruct (d !! "host") as [h|]; [|done].
  destruct (d !! "username") as [u|]; [|done].
  destruct (d !! "password") as [p|]; [|done].
  cbn. by destruct (respond env _ w) as [[e|c] w1].
Qed.

(** X5: for a secret with [host], [username] and [password] and a usable
    port, [get_connection] first connects with the mode of the SSL policy; it
    connects a second time, with mode [prefer] and otherwise the same
    arguments, exactly when the first attempt failed and the policy allows
    the fall-back; the database name defaults to [postgres]. *)
Theorem get_connection_attempts (d : gmap string pyval) (w : W)
    (host user password : pyval) (port : Z) :
  d !! "host" = Some host ->
  d !! "username" = Some user ->
  d !! "password" = Some password ->
  match d !! "port" with Some v => py_int v = inr port | None => port = 5432%Z end ->
  let args (use_ssl : bool) :=
    {| arg_host := host; arg_port := port; arg_dbname := dbname_of d;
       arg_user := user; arg_password := password;
       arg_sslmode := if use_ssl then "require" else "prefer" |} in
  let first := Event (PgConnect (args (get_ssl_config d).1)) in
  let second := Event (PgConnect (args false)) in
  run env (get_connection d) w =
  match respond env (PgConnect (args (get_ssl_config d).1)) w with
  | (inr c, w1) => (inr (Some c), w1, [first])
  | (inl _, w1) =>
      if (get_ssl_config d).2 then
        match respond env (PgConnect (args false)) w1 with
        | (inr c, w2) => (inr (Some c), w2, [first; second])
        | (inl _, w2) => (inr None, w2, [first; second])
        end
      else (inr None, w1, [first])
  end.
Proof.
  intros Hh Hu Hp Hport args first second.
  unfold get_connection. rewrite run_bind.
  assert (run env (match d !! "port" with Some v => lift (py_int v) | None => Ret 5432%Z end) w
          = (inr port, w, [])) as ->.
  { destruct (d !! "port") as [v|]; [by rewrite Hport|by subst]. }
  fold (dbname_of d).
  destruct (get_ssl_config d) as [use_ssl fall_back]. cbn [fst snd] in *.
  rewrite run_bind.
  rewrite (run_connect_attempt d port (dbname_of d) use_ssl w host user password Hh Hu Hp).
  fold (args use_ssl). subst first second.
  destruct (respond env (PgConnect (args use_ssl)) w) as [[e|c] w1]; cbn [fst snd app].
  - rewrite bool_decide_eq_false_2 by (by intros [? ?]). cbn [orb].
    destruct fall_back; cbn [negb run]; [|done].
    rewrite (run_connect_attempt d port (dbname_of d) false w1 host user password Hh Hu Hp).
    fold (args false).
    by destruct (respond env (PgConnect (args false)) w1) as [[e2|c2] w2].
  - rewrite bool_decide_eq_true_2 by (by eexists). done.
Qed.

(** X6: a [port] that [int] does not accept makes [get_connection] raise the
    error of [int] before any connection attempt. *)
Theorem get_connection_bad_port (d : gmap string pyval) (w : W) (v : pyval) (e : exn) :
  d !! "port" = Some v ->
  py_int v = inl e ->
  run env (get_connection d) w = (inl e, w, []).
Proof.
  intros Hv He. unfold get_connection. rewrite run_bind, Hv, He. done.
Qed.

End Attempts.

Lemma get_connection_attempts_witness :
  run Scenario.world (get_connection (H:=Scenario.lib) Scenario.current_payload)
      (Scenario.healthy, Scenario.start)
  = (inr (Some 0%nat), (Scenario.healthy, (1%nat, [])), [Event (PgConnect Scenario.app_login)]).
Proof.
  exact (get_connection_attempts (H:=Scenario.lib) Scenario.world Scenario.current_payload
           (Scenario.healthy, Scenario.start)
           (VStr "appdb.abc.example.com") (VStr "app") (VStr "old-password") 5432%Z
           eq_refl eq_refl eq_refl eq_refl).
Defined.

Lemma get_connection_bad_port_witness :
  run Scenario.world
      (get_connection (H:=Scenario.lib) (<["port" := VStr "http"]> Scenario.current_payload))
      (Scenario.healthy, Scenario.start)
  = (inl (Exn ValueError "invalid literal for int() with base 10: %s" [VStr "http"]),
     (Scenario.healthy, Scenario.start), []).
Proof.
  exact (get_connection_bad_port (H:=Scenario.lib) Scenario.world
           (<["port" := VStr "http"]> Scenario.current_payload)
           (Scenario.healthy, Scenario.start) (VStr "http") _ eq_refl eq_refl).
Defined.

(** ** The checks of the accessor *)

Section Validation.
Context `{PyLib}.
Context {W : Type} (env : environment W).

Lemma run_bind_inr {A B : Type} (p : prog A) (f : A -> prog B) (w w' : W)
    (b : B) (t : list event) :
  run env (bind p f) w = (inr b, w', t) ->
  exists a w1 t1 t2,
    run env p w = (inr a, w1, t1) /\ run env (f a) w1 = (inr b, w', t2) /\ t = t1 ++ t2.
Proof.
  rewrite run_bind. destruct (run env p w) as [[[e|a] w1] t1]; [done|].
  destruct (run env (f a) w1) as [[r w2] t2] eqn:Hf. intros [= -> -> <-].
  by exists a, w1, t1, t2.
Qed.

(** The tail of [get_secret_dict] issues no call. *)
Lemma run_validation (d : gmap string pyval) (w : W) :
  run env (check_required required_fields d;;;
           engine <- getitem d "engine";;
           if existsb (fun e => py_eq engine (VStr e)) supported_engines
           then Ret d else Raise UnsupportedEngine) w
  = (validated d, w, []).
Proof.
  unfold validated, required_fields. cbn [check_required list_find].
  unfold getitem.
  destruct (d !! "host") eqn:Hh; cbn [bind run];
    [rewrite decide_False by done|by rewrite decide_True].
  cbn [fmap option_fmap option_map list_find].
  destruct (d !! "username") eqn:Hu; cbn [bind run];
    [rewrite decide_False by done|by rewrite decide_True].
  cbn [fmap option_fmap option_map list_find].
  destruct (d !! "password") eqn:Hp; cbn [bind run];
    [rewrite decide_False by done|by rewrite decide_True].
  cbn [fmap option_fmap option_map list_find].
  destruct (d !! "engine") as [engine|] eqn:He; cbn [bind run];
    [rewrite decide_False by done|by rewrite decide_True].
  cbn [fmap option_fmap option_map list_find].
  destruct engine as [|b|z|s]; cbn; try done.
  rewrite <- (supported_engine_check s). cbn.
  by destruct (_ || _).
Qed.

Lemma validated_fields (d d' : gmap string pyval) :
  validated d = inr d' ->
  d' = d /\
  is_Some (d !! "host") /\ is_Some (d !! "username") /\ is_Some (d !! "password") /\
  exists engine, d !! "engine" = Some (VStr engine) /\ engine ∈ supported_engines.
Proof.
  unfold validated. destruct (list_find _ _) as [[i f]|] eqn:Hf; [done|].
  apply list_find_None in Hf. unfold required_fields in Hf.
  rewrite !Forall_cons in Hf. destruct Hf as (Hh & Hu & Hp & He & _).
  destruct (d !! "engine") as [[| | |engine]|] eqn:Heng; try done.
  case_bool_decide; [|done]. intros [= <-].
  split; [done|]. repeat split; try (by apply not_eq_None_Some).
  by exists engine.
Qed.

(** X7: a dictionary returned by [get_secret_dict] has the keys [host],
    [username] and [password], and its [engine] is one of the two supported
    engine names. *)
Theorem get_secret_dict_postcondition (arn : pyval) (stage : string) (token : option string)
    (master_secret : bool) (w w' : W) (d : gmap string pyval) (t : list event) :
  run env (get_secret_dict arn stage token master_secret) w = (inr d, w', t) ->
  is_Some (d !! "host") /\ is_Some (d !! "username") /\ is_Some (d !! "password") /\
  exists engine, d !! "engine" = Some (VStr engine) /\ engine ∈ supported_engines.
Proof.
  unfold get_secret_dict. intros Hrun.
  apply run_bind_inr in Hrun as (sv & w1 & t1 & t1' & _ & Hrun & _).
  apply run_bind_inr in Hrun as (text & w2 & t2 & t2' & _ & Hrun & _).
  apply run_bind_inr in Hrun as (d0 & w3 & t3 & t3' & _ & Hrun & _).
  apply run_bind_inr in Hrun as (d1 & w4 & t4 & t4' & _ & Hrun & _).
  rewrite run_validation in Hrun. injection Hrun as Hv _ _.
  by apply validated_fields in Hv as [-> ?].
Qed.

(** X8: for a secret that is not a master secret, [get_secret_dict] makes
    exactly one call, the read of the requested version.  It raises the error
    of the store, or KeyError without [SecretString]; for a text that is a
    JSON object, the result is the outcome of the checks on the parsed
    dictionary: the first required field that is missing, then the engine. *)
Theorem get_secret_dict_validation (arn : pyval) (stage : string) (token : option string)
    (w : W) :
  let read := GetSecretValue arn (truthy_token token) stage in
  let answer := respond env read w in
  match answer.1 with
  | inl e =>
      run env (get_secret_dict arn stage token false) w = (inl e, answer.2, [Event read])
  | inr {| SecretString := None |} =>
      run env (get_secret_dict arn stage token false) w
      = (inl (Exn KeyError "SecretString" []), answer.2, [Event read])
  | inr {| SecretString := Some text |} =>
      forall d : gmap string pyval,
        json_loads text = Some d ->
        run env (get_secret_dict arn stage token false) w
        = (validated d, answer.2, [Event read])
  end.
Proof.
  cbv zeta. unfold get_secret_dict. rewrite run_bind, run_invoke.
  destruct (respond env _ w) as [r w1]. cbn [fst snd].
  destruct r as [e|[[text|]]]; [done| |done].
  intros d Hd. cbn [member SecretString bind]. rewrite Hd.
  cbn [bind andb]. rewrite run_validation. done.
Qed.

(** X9: a master secret whose keys are not exactly [username] and [password]
    is treated like any other secret: no tag is read and no control-plane
    lookup is made. *)
Theorem get_secret_dict_master_with_connection_info (arn : pyval) (stage : string)
    (token : option string) (w w1 : W) (text : string) (d : gmap string pyval) :
  respond env (GetSecretValue arn (truthy_token token) stage) w
    = (inr {| SecretString := Some text |}, w1) ->
  json_loads text = Some d ->
  dom d <> ({["username"; "password"]} : gset string) ->
  run env (get_secret_dict arn stage token true) w
  = (validated d, w1, [Event (GetSecretValue arn (truthy_token token) stage)]).
Proof.
  intros Hr Hj Hdom. unfold get_secret_dict. rewrite run_bind, run_invoke, Hr. cbn [fst snd].
  cbn [member SecretString bind]. rewrite Hj. cbn [bind andb].
  rewrite bool_decide_eq_false_2 by done. cbn [bind]. rewrite run_validation. done.
Qed.

End Validation.

Lemma scan_tags_last (before after : list tag) (t : tag) (acc : option instance_info) :
  is_arn_tag t = true ->
  Forall (fun t' => is_arn_tag t' = false) after ->
  scan_tags (before ++ t :: after) acc
  = Some {| ARN_SYSTEM_TAG := lower (Key t); ARN := Value t |}.
Proof.
  intros Ht Hafter. revert acc.
  induction before as [|b before IH]; intros acc; cbn [app scan_tags].
  - rewrite Ht. by apply scan_tags_absent.
  - destruct (is_arn_tag b); apply IH.
Qed.

(** ** The linkage tags *)

Section Linkage.
Context `{PyLib}.
Context {W : Type} (env : environment W).

(** X10: of several linkage tags on a secret the last one in the tag list is
    the one [fetch_instance_arn_from_system_tags] returns, with its key in
    lower case; its value is refused with InvalidArn when longer than 256
    characters. *)
Theorem fetch_instance_arn_last_tag_wins (arn : pyval) (w w1 : W) (md : metadata)
    (before after : list tag) (t : tag) :
  respond env (DescribeSecret arn) w = (inr md, w1) ->
  Tags md = Some (before ++ t :: after) ->
  is_arn_tag t = true ->
  Forall (fun t' => is_arn_tag t' = false) after ->
  run env (fetch_instance_arn_from_system_tags arn) w =
  (if (MAX_RDS_DB_INSTANCE_ARN_LENGTH <? py_len (Value t))%nat
   then inl (InvalidArn (Value t))
   else inr (Some {| ARN_SYSTEM_TAG := lower (Key t); ARN := Value t |}),
   w1, [Event (DescribeSecret arn)]).
Proof.
  intros Hd Htags Ht Hafter. unfold fetch_instance_arn_from_system_tags.
  rewrite run_bind, run_invoke, Hd. cbn [fst snd]. rewrite Htags.
  rewrite (scan_tags_last before after t None Ht Hafter). cbn [ARN].
  by destruct (_ <? _)%nat.
Qed.

(** X11: whatever [get_connection_params_from_rds_api] returns agrees with the
    master dictionary on every key other than [host], [port] and [engine];
    it is the master dictionary itself, or these three keys hold a string, an
    integer and a string. *)
Theorem get_connection_params_keeps_credentials (master_dict d' : gmap string pyval)
    (info : instance_info) (w w' : W) (t : list event) :
  run env (get_connection_params_from_rds_api master_dict info) w = (inr d', w', t) ->
  (forall key : string,
     key ∉ ["host"; "port"; "engine"] -> d' !! key = master_dict !! key) /\
  (d' = master_dict \/
   exists (address : string) (port : Z) (engine : string),
     d' !! "host" = Some (VStr address) /\ d' !! "port" = Some (VInt port) /\
     d' !! "engine" = Some (VStr engine)).
Proof.
  unfold get_connection_params_from_rds_api.
  assert (Hres : forall address port engine,
    (forall key : string, key ∉ ["host"; "port"; "engine"] ->
       resolved master_dict address port engine !! key = master_dict !! key) /\
    (resolved master_dict address port engine = master_dict \/
     exists (a : string) (p : Z) (e : string),
       resolved master_dict address port engine !! "host" = Some (VStr a) /\
       resolved master_dict address port engine !! "port" = Some (VInt p) /\
       resolved master_dict address port engine !! "engine" = Some (VStr e))).
  { intros address port engine. unfold resolved. split.
    - intros key Hk. rewrite !not_elem_of_cons in Hk. destruct Hk as (? & ? & ? & _).
      by rewrite !lookup_insert_ne.
    - right. exists address, port, engine. by simplify_map_eq. }
  repeat case_bool_decide.
  - intros Hrun.
    apply run_bind_inr in Hrun as (inst & w1 & t1 & t1' & _ & Hrun & _).
    apply run_bind_inr in Hrun as (ep & w2 & t2 & t2' & _ & Hrun & _).
    apply run_bind_inr in Hrun as (address & w3 & t3 & t3' & _ & Hrun & _).
    apply run_bind_inr in Hrun as (ep' & w4 & t4 & t4' & _ & Hrun & _).
    apply run_bind_inr in Hrun as (port & w5 & t5 & t5' & _ & Hrun & _).
    apply run_bind_inr in Hrun as (engine & w6 & t6 & t6' & _ & Hrun & _).
    cbn in Hrun. injection Hrun as <- _ _. apply Hres.
  - intros Hrun.
    apply run_bind_inr in Hrun as (cl & w1 & t1 & t1' & _ & Hrun & _).
    apply run_bind_inr in Hrun as (address & w3 & t3 & t3' & _ & Hrun & _).
    apply run_bind_inr in Hrun as (port & w5 & t5 & t5' & _ & Hrun & _).
    apply run_bind_inr in Hrun as (engine & w6 & t6 & t6' & _ & Hrun & _).
    cbn in Hrun. injection Hrun as <- _ _. apply Hres.
  - cbn. intros [= <- _ _]. split; [done|by left].
Qed.

End Linkage.

(** ** The answers of the replica check *)

Section Replicas.
Context `{PyLib}.
Context {W : Type} (env : environment W).

Lemma member_ids_listed (ids : list (string * bool)) :
  member_ids (listed <$> ids) = Ret ids.
Proof.
  induction ids as [|[id wr] ids IH]; [done|].
  cbn [fmap list_fmap member_ids listed member bind fst snd member_DBInstanceIdentifier IsClusterWriter].
  change (list_fmap _ _ listed ids) with (listed <$> ids). by rewrite IH.
Qed.

Lemma reader_instance_listed (replica_instance_id : string) (ids : list (string * bool)) :
  existsb (fun replica_instance : string * bool =>
             bool_decide (replica_instance_id = replica_instance.1)
             && negb replica_instance.2) ids
  = bool_decide ((replica_instance_id, false) ∈ ids).
Proof.
  induction ids as [|[id wr] ids IH]; cbn [existsb fst snd].
  - by rewrite bool_decide_eq_false_2 by apply not_elem_of_nil.
  - rewrite IH. clear IH.
    destruct (decide (replica_instance_id = id)) as [->|Hne].
    + rewrite (bool_decide_eq_true_2 (id = id)) by done. destruct wr; cbn.
      * apply bool_decide_ext. rewrite elem_of_cons. naive_solver.
      * symmetry. apply bool_decide_eq_true_2. apply list_elem_of_here.
    + rewrite (bool_decide_eq_false_2 (replica_instance_id = id)) by done. cbn.
      apply bool_decide_ext. rewrite elem_of_cons. naive_solver.
Qed.

(** X12: for a master whose engine is neither [postgres] nor
    [aurora-postgresql], [is_rds_replica_database] answers false without any
    call to the control plane. *)
Theorem is_rds_replica_database_other_engine (replica_dict master_dict : gmap string pyval)
    (rh mh : string) (engine : pyval) (w : W) :
  replica_dict !! "host" = Some (VStr rh) ->
  master_dict !! "host" = Some (VStr mh) ->
  master_dict !! "engine" = Some engine ->
  engine <> VStr "postgres" ->
  engine <> VStr "aurora-postgresql" ->
  run env (is_rds_replica_database replica_dict master_dict) w = (inr false, w, []).
Proof.
  intros Hrh Hmh Heng Hp Ha.
  destruct (split_first rh ".") as [rid Hrid]. destruct (split_first mh ".") as [mid Hmid].
  unfold is_rds_replica_database, getitem, split_index.
  rewrite Hrh. cbn [bind]. rewrite Hrid. cbn [bind]. rewrite Hmh. cbn [bind].
  rewrite Hmid. cbn [bind]. rewrite Heng. cbn [bind].
  assert (forall s, engine <> VStr s -> py_eq engine (VStr s) = false) as Hne.
  { intros s Hs. destruct engine; cbn; try done. apply bool_decide_eq_false_2. congruence. }
  by rewrite !Hne.
Qed.

(** X13: for engine [postgres], [is_rds_replica_database] looks up the
    instance named by the first label of the replica host, and answers
    whether its read-replica source is the first label of the master host. *)
Theorem is_rds_replica_database_postgres (replica_dict master_dict : gmap string pyval)
    (rh mh replica_id master_id : string) (w w1 : W)
    (inst : db_instance) (others : list db_instance) :
  replica_dict !! "host" = Some (VStr rh) ->
  master_dict !! "host" = Some (VStr mh) ->
  master_dict !! "engine" = Some (VStr "postgres") ->
  split rh "." !! 0%nat = Some replica_id ->
  split mh "." !! 0%nat = Some master_id ->
  respond env (DescribeDBInstances replica_id) w = (inr (inst :: others), w1) ->
  run env (is_rds_replica_database replica_dict master_dict) w
  = (inr (bool_decide (ReadReplicaSourceDBInstanceIdentifier inst = Some master_id)),
     w1, [Event (DescribeDBInstances replica_id)]).
Proof.
  intros Hrh Hmh Heng Hrid Hmid Hresp.
  unfold is_rds_replica_database, getitem, split_index.
  rewrite Hrh. cbn [bind]. rewrite Hrid. cbn [bind]. rewrite Hmh. cbn [bind].
  rewrite Hmid. cbn [bind]. rewrite Heng. cbn [bind py_eq].
  rewrite bool_decide_eq_true_2 by done.
  unfold get_instance_info_from_rds_api. cbn [invoke try_except bind run]. rewrite Hresp.
  cbn [try_except bind].
  destruct (instance_is_empty inst) eqn:Hempty; cbn [run].
  - destruct inst as [[?|] [?|] [?|] [?|] [?|]]; try done.
  - do 2 f_equal. f_equal. apply bool_decide_ext. split; congruence.
Qed.

(** X14: for engine [aurora-postgresql] and a master host whose second label
    contains [cluster], the cluster named by the first label is looked up,
    and the answer is true exactly when the replica host is the reader
    endpoint of the cluster or its first label names a member of the cluster
    that is not the writer. *)
Theorem is_rds_replica_database_aurora_writer_endpoint
    (replica_dict master_dict : gmap string pyval)
    (rh mh replica_id master_id label : string) (w w1 : W)
    (cl : db_cluster) (others : list db_cluster) (ids : list (string * bool)) :
  replica_dict !! "host" = Some (VStr rh) ->
  master_dict !! "host" = Some (VStr mh) ->
  master_dict !! "engine" = Some (VStr "aurora-postgresql") ->
  split rh "." !! 0%nat = Some replica_id ->
  split mh "." !! 0%nat = Some master_id ->
  split mh "." !! 1%nat = Some label ->
  contains label "cluster" = true ->
  respond env (DescribeDBClusters master_id) w = (inr (cl :: others), w1) ->
  DBClusterMembers cl = Some (listed <$> ids) ->
  run env (is_rds_replica_database replica_dict master_dict) w
  = (inr (bool_decide (rh = default EmptyString (ReaderEndpoint cl))
          || bool_decide ((replica_id, false) ∈ ids)),
     w1, [Event (DescribeDBClusters master_id)]).
Proof.
  intros Hrh Hmh Heng Hrid Hmid Hlabel Hcl Hresp Hmembers.
  unfold is_rds_replica_database, get_cluster_info_from_master_host, getitem, split_index.
  rewrite Hrh. cbn [bind]. rewrite Hrid. cbn [bind]. rewrite Hmh. cbn [bind].
  rewrite Hmid. cbn [bind]. rewrite Heng. cbn [bind py_eq].
  rewrite bool_decide_eq_false_2 by done. rewrite bool_decide_eq_true_2 by done.
  rewrite Hlabel. cbn [bind]. rewrite Hcl.
  unfold get_cluster_info_from_rds_api. cbn [invoke try_except bind run]. rewrite Hresp.
  cbn [try_except bind].
  assert (cluster_is_empty cl = false) as ->.
  { by destruct cl as [[?|] [?|] [?|] [?|] [?|] []]. }
  rewrite Hmembers. cbn [default]. unfold id. rewrite member_ids_listed. cbn [bind run reader_endpoint instance_ids py_eq].
  by rewrite reader_instance_listed.
Qed.

(** X15: for engine [aurora-postgresql] and a master host that is an instance
    endpoint, an instance that belongs to no cluster gives the answer false
    after the single instance lookup. *)
Theorem is_rds_replica_database_aurora_without_cluster
    (replica_dict master_dict : gmap string pyval)
    (rh mh replica_id master_id label : string) (w w1 : W)
    (inst : db_instance) (others : list db_instance) :
  replica_dict !! "host" = Some (VStr rh) ->
  master_dict !! "host" = Some (VStr mh) ->
  master_dict !! "engine" = Some (VStr "aurora-postgresql") ->
  split rh "." !! 0%nat = Some replica_id ->
  split mh "." !! 0%nat = Some master_id ->
  split mh "." !! 1%nat = Some label ->
  contains label "cluster" = false ->
  respond env (DescribeDBInstances master_id) w = (inr (inst :: others), w1) ->
  DBClusterIdentifier inst = None ->
  run env (is_rds_replica_database replica_dict master_dict) w
  = (inr false, w1, [Event (DescribeDBInstances master_id)]).
Proof.
  intros Hrh Hmh Heng Hrid Hmid Hlabel Hcl Hresp Hnone.
  unfold is_rds_replica_database, get_cluster_info_from_master_host, getitem, split_index.
  rewrite Hrh. cbn [bind]. rewrite Hrid. cbn [bind]. rewrite Hmh. cbn [bind].
  rewrite Hmid. cbn [bind]. rewrite Heng. cbn [bind py_eq].
  rewrite bool_decide_eq_false_2 by done. rewrite bool_decide_eq_true_2 by done.
  rewrite Hlabel. cbn [bind]. rewrite Hcl.
  unfold get_instance_info_from_rds_api. cbn [invoke try_except bind run]. rewrite Hresp.
  cbn [try_except bind]. rewrite Hnone.
  by destruct (instance_is_empty inst).
Qed.

End Replicas.

Lemma only_impl {A : Type} (P Q : event -> Prop) (p : prog A) :
  (forall ev, P ev -> Q ev) -> only P p -> only Q p.
Proof. intros HPQ Hp. induction Hp; constructor; auto. Qed.

Lemma only_try_finally {A : Type} (P : event -> Prop) (p : prog A) (fin : prog unit) :
  only P p -> only P fin -> only P (try_finally p fin).
Proof.
  intros Hp Hfin. induction Hp; cbn [try_finally].
  - apply only_bind; [done|]. intros; constructor.
  - apply only_bind; [done|]. intros; constructor.
  - constructor; auto.
Qed.

(** ** Clean-up blocks *)

Section Finally.
Context {W : Type} (env : environment W).

Lemma run_try_finally {A : Type} (p : prog A) (fin : prog unit) (w : W) :
  run env (try_finally p fin) w =
  let '(r, w1, t1) := run env p w in
  let '(rf, w2, t2) := run env fin w1 in
  (match rf with inl e => inl e | inr _ => r end, w2, t1 ++ t2).
Proof.
  revert w. induction p as [a|e|X c k IH]; intros w; cbn [try_finally run].
  - rewrite run_bind. by destruct (run env fin w) as [[[ef|[]] w2] t2]; cbn; rewrite ?app_nil_r.
  - rewrite run_bind. by destruct (run env fin w) as [[[ef|[]] w2] t2]; cbn; rewrite ?app_nil_r.
  - destruct (respond env c w) as [r w1]. rewrite IH.
    destruct (run env (k r) w1) as [[res w2] t1].
    by destruct (run env fin w2) as [[rf w3] t2].
Qed.

End Finally.

(** ** The test step *)

Section TestStep.
Context `{PyLib}.
Context {W : Type} (env : environment W).

Lemma only_get_secret_dict (arn : pyval) (stage : string) (token : option string)
    (master_secret : bool) :
  only (fun ev => is_lookup ev = true) (get_secret_dict arn stage token master_secret).
Proof.
  unfold get_secret_dict, get_connection_params_from_rds_api,
    fetch_instance_arn_from_system_tags.
  repeat first
    [ apply only_get_instance_info; reflexivity
    | apply only_get_cluster_info; reflexivity
    | only_step | only_case ].
  all: cbn [check_required required_fields];
    repeat first [ only_step | only_case ].
Qed.

Lemma only_get_connection (d : gmap string pyval) :
  only (fun ev => is_connect ev = true) (get_connection d).
Proof. unfold get_connection, connect_and_authenticate. only_auto. Qed.

(** X16: every call of [get_secret_dict] is a read: of the secret, of its
    metadata, or of the control plane. *)
Theorem get_secret_dict_read_only (arn : pyval) (stage : string) (token : option string)
    (master_secret : bool) (w : W) :
  Forall (fun ev => is_lookup ev = true)
         (run env (get_secret_dict arn stage token master_secret) w).2.
Proof. apply run_only, only_get_secret_dict. Qed.

Ltac statements :=
  repeat (apply Forall_cons_2; [first [by left | by right]|]); apply Forall_nil_2.

Lemma run_test_statement (c : conn) (w2 : W) :
  exists r w3 body,
    run env (try_finally
               (cur <- invoke (PgCursor c);;
                try_finally
                  (invoke (PgExecute cur "SELECT NOW()" []);;; invoke (PgCommit c))
                  (invoke (PgCursorClose cur)))
               (invoke (PgClose c))) w2
    = (r, w3, body ++ [Event (PgClose c)]) /\
    Forall (fun ev => statement_of ev = None \/ statement_of ev = Some "SELECT NOW()") body /\
    (r = inr tt ->
     exists cur, body = [Event (PgCursor c); Event (PgExecute cur "SELECT NOW()" []);
                         Event (PgCommit c); Event (PgCursorClose cur)]).
Proof.
  cbn [invoke bind run try_finally].
  destruct (respond env (PgCursor c) w2) as [[e|cur] w3]; cbn [run try_finally bind invoke].
  { destruct (respond env (PgClose c) w3) as [[e'|[]] w4]; cbn [run try_finally bind invoke];
      (eexists _, _, [Event (PgCursor c)]; split; [done|split; [statements|done]]). }
  destruct (respond env (PgExecute cur "SELECT NOW()" []) w3) as [[e|[]] w4];
    cbn [run try_finally bind invoke].
  { destruct (respond env (PgCursorClose cur) w4) as [[e'|[]] w5]; cbn [run try_finally bind invoke];
    destruct (respond env (PgClose c) w5) as [[e''|[]] w6]; cbn [run try_finally bind invoke];
      (eexists _, _, [_; _; _]; split; [done|split; [statements|done]]). }
  destruct (respond env (PgCommit c) w4) as [[e|[]] w5]; cbn [run try_finally bind invoke];
  destruct (respond env (PgCursorClose cur) w5) as [[e'|[]] w6]; cbn [run try_finally bind invoke];
  destruct (respond env (PgClose c) w6) as [[e''|[]] w7]; cbn [run try_finally bind invoke];
    (eexists _, _, [_; _; _; _]; split; [done|split; [statements|]]);
    try done.
  intros _. by exists cur.
Qed.

(** X17: [test_secret] raises CredentialNotUsable when no login with the
    pending credential succeeds, and executes nothing; after a login the last
    call is always the close of that connection, the only statement executed
    is [SELECT NOW()], and a normal return means cursor, statement, commit
    and close of the cursor, in this order. *)
Theorem test_secret_outcome (arn token : string) (w0 w1 w2 : W) (t1 t2 : list event)
    (pending_dict : gmap string pyval) (c : option conn) :
  run env (get_secret_dict (VStr arn) "AWSPENDING" (Some token) false) w0
    = (inr pending_dict, w1, t1) ->
  run env (get_connection pending_dict) w1 = (inr c, w2, t2) ->
  match c with
  | None => run env (test_secret arn token) w0 = (inl (CredentialNotUsable arn), w2, t1 ++ t2)
  | Some c =>
      exists r w3 body,
        run env (test_secret arn token) w0 = (r, w3, t1 ++ t2 ++ body ++ [Event (PgClose c)]) /\
        Forall (fun ev => statement_of ev = None \/ statement_of ev = Some "SELECT NOW()") body /\
        (r = inr tt ->
         exists cur, body = [Event (PgCursor c); Event (PgExecute cur "SELECT NOW()" []);
                             Event (PgCommit c); Event (PgCursorClose cur)])
  end.
Proof.
  intros Hdict Hconn. unfold test_secret.
  rewrite run_bind, Hdict, run_bind, Hconn.
  destruct c as [c|]; [|cbn [run]; by rewrite app_nil_r].
  destruct (run_test_statement c w2) as (r & w3 & body & -> & Hbody & Hok).
  by exists r, w3, body.
Qed.

End TestStep.

(** ** The password change as master *)

Section MasterStep.
Context `{PyLib}.
Context {W : Type} (env : environment W).

Ltac crank :=
  unfold getitem;
  repeat (cbn [run try_finally bind invoke first_column];
          match goal with
          | u : unit |- _ => destruct u
          | |- context [respond env ?c ?w] => destruct (respond env c w) as [[?|?] ?] eqn:?
          | |- context [match ?d !! ?k with Some _ => _ | None => _ end] =>
              destruct (d !! k) eqn:?
          | |- context [first_column ?row] => is_var row; destruct row as [[|? ?]|]
          | |- context [bool_decide (length ?rows = 0%nat)] =>
              is_var rows; destruct rows as [|? ?];
              [ rewrite (bool_decide_eq_true_2 (length (@nil (list pyval)) = 0%nat)) by done
              | rewrite bool_decide_eq_false_2 by done ]
          end);
  cbn [run try_finally bind invoke first_column].

Lemma run_password_change (current_dict pending_dict : gmap string pyval) (c : conn) (w1 : W) :
  exists r w' body,
    run env
      (try_finally
        (cur <- invoke (PgCursor c);;
         try_finally
           (pu <- getitem pending_dict "username";;
            invoke (PgExecute cur "SELECT quote_ident(%s)" [pu]);;;
            row <- invoke (PgFetchone cur);;
            pending_username <- first_column row;;
            cu <- getitem current_dict "username";;
            invoke (PgExecute cur "SELECT quote_ident(%s)" [cu]);;;
            row <- invoke (PgFetchone cur);;
            current_username <- first_column row;;
            pu <- getitem pending_dict "username";;
            invoke (PgExecute cur "SELECT 1 FROM pg_roles where rolname = %s" [pu]);;;
            rows <- invoke (PgFetchall cur);;
            (if bool_decide (length rows = 0%nat) then
               let create_role := "CREATE ROLE " +:+ py_str pending_username in
               pw <- getitem pending_dict "password";;
               invoke (PgExecute cur (create_role +:+ " WITH LOGIN PASSWORD %s") [pw]);;;
               invoke (PgExecute cur
                 ("GRANT " +:+ py_str current_username +:+ " TO " +:+ py_str pending_username) [])
             else
               let alter_role := "ALTER USER " +:+ py_str pending_username in
               pw <- getitem pending_dict "password";;
               invoke (PgExecute cur (alter_role +:+ " WITH PASSWORD %s") [pw]));;;
            invoke (PgCommit c))
           (invoke (PgCursorClose cur)))
        (invoke (PgClose c))) w1
    = (r, w', body ++ [Event (PgClose c)]) /\
    (r = inr tt ->
     exists (cur : cursor) (pu cu pw pending_username current_username : pyval)
            (rest1 rest2 : list pyval) (rows : list (list pyval))
            (w2 w3 w4 w5 w6 w7 w8 : W),
       pending_dict !! "username" = Some pu /\
       current_dict !! "username" = Some cu /\
       pending_dict !! "password" = Some pw /\
       respond env (PgCursor c) w1 = (inr cur, w2) /\
       respond env (PgExecute cur "SELECT quote_ident(%s)" [pu]) w2 = (inr tt, w3) /\
       respond env (PgFetchone cur) w3 = (inr (Some (pending_username :: rest1)), w4) /\
       respond env (PgExecute cur "SELECT quote_ident(%s)" [cu]) w4 = (inr tt, w5) /\
       respond env (PgFetchone cur) w5 = (inr (Some (current_username :: rest2)), w6) /\
       respond env (PgExecute cur "SELECT 1 FROM pg_roles where rolname = %s" [pu]) w6
         = (inr tt, w7) /\
       respond env (PgFetchall cur) w7 = (inr rows, w8) /\
       body = [ Event (PgCursor c);
                Event (PgExecute cur "SELECT quote_ident(%s)" [pu]);
                Event (PgFetchone cur);
                Event (PgExecute cur "SELECT quote_ident(%s)" [cu]);
                Event (PgFetchone cur);
                Event (PgExecute cur "SELECT 1 FROM pg_roles where rolname = %s" [pu]);
                Event (PgFetchall cur) ]
              ++ password_statements cur pending_username current_username pw rows
              ++ [ Event (PgCommit c); Event (PgCursorClose cur) ]).
Proof.
  crank.
  all: match goal with
       | |- exists r w body, (?res, ?w', ?evs) = _ /\ _ =>
           exists res, w', (removelast evs); split; [reflexivity|]
       end.
  all: try (intros [=]; fail).
  all: intros _; do 16 eexists.
  all: do 10 (split; [first [eassumption | reflexivity]|]).
  all: reflexivity.
Qed.

(** X18: the last part of [set_secret]: without a login as master it raises
    MasterConnectionFailed; after a login the last call is always the close
    of that connection.  A normal return means that the database answered the
    two [quote_ident] queries with the quoted names and the look-up in
    [pg_roles] with [rows], and that then CREATE ROLE and GRANT were executed
    when [rows] was empty and ALTER USER otherwise, on the quoted names and
    with the pending password passed as parameter, followed by the commit and
    the close of the cursor. *)
Theorem set_secret_as_master_outcome
    (current_dict pending_dict master_dict : gmap string pyval) (master_arn : pyval)
    (w w1 : W) (t1 : list event) (c : option conn) :
  run env (get_connection master_dict) w = (inr c, w1, t1) ->
  match c with
  | None =>
      run env (set_secret_as_master current_dict pending_dict master_dict master_arn) w
      = (inl (MasterConnectionFailed master_arn), w1, t1)
  | Some c =>
      exists r w' body,
        run env (set_secret_as_master current_dict pending_dict master_dict master_arn) w
        = (r, w', t1 ++ body ++ [Event (PgClose c)]) /\
        (r = inr tt ->
         exists (cur : cursor) (pu cu pw pending_username current_username : pyval)
                (rest1 rest2 : list pyval) (rows : list (list pyval))
                (w2 w3 w4 w5 w6 w7 w8 : W),
           pending_dict !! "username" = Some pu /\
           current_dict !! "username" = Some cu /\
           pending_dict !! "password" = Some pw /\
           respond env (PgCursor c) w1 = (inr cur, w2) /\
           respond env (PgExecute cur "SELECT quote_ident(%s)" [pu]) w2 = (inr tt, w3) /\
           respond env (PgFetchone cur) w3 = (inr (Some (pending_username :: rest1)), w4) /\
           respond env (PgExecute cur "SELECT quote_ident(%s)" [cu]) w4 = (inr tt, w5) /\
           respond env (PgFetchone cur) w5 = (inr (Some (current_username :: rest2)), w6) /\
           respond env (PgExecute cur "SELECT 1 FROM pg_roles where rolname = %s" [pu]) w6
             = (inr tt, w7) /\
           respond env (PgFetchall cur) w7 = (inr rows, w8) /\
           body = [ Event (PgCursor c);
                    Event (PgExecute cur "SELECT quote_ident(%s)" [pu]);
                    Event (PgFetchone cur);
                    Event (PgExecute cur "SELECT quote_ident(%s)" [cu]);
                    Event (PgFetchone cur);
                    Event (PgExecute cur "SELECT 1 FROM pg_roles where rolname = %s" [pu]);
                    Event (PgFetchall cur) ]
                  ++ password_statements cur pending_username current_username pw rows
                  ++ [ Event (PgCommit c); Event (PgCursorClose cur) ])
  end.
Proof.
  intros Hconn. unfold set_secret_as_master. rewrite run_bind, Hconn.
  destruct c as [c|]; [|cbn [run]; by rewrite app_nil_r].
  cbv beta iota zeta.
  destruct (run_password_change current_dict pending_dict c w1) as (r & w' & body & Hrun & Hok).
  cbv zeta in Hrun. rewrite Hrun.
  by exists r, w', body.
Qed.

(** X19: when the login with the current credential fails, [set_secret]
    raises ConnectionFailed; up to that point no statement was executed and
    the store was not changed. *)
Theorem set_secret_current_login_required (arn token : string) (w0 w1 w2 w3 : W)
    (t1 t2 t3 : list event) (current_dict pending_dict : gmap string pyval) :
  run env (get_secret_dict (VStr arn) "AWSCURRENT" None false) w0
    = (inr current_dict, w1, t1) ->
  run env (get_secret_dict (VStr arn) "AWSPENDING" (Some token) false) w1
    = (inr pending_dict, w2, t2) ->
  run env (get_connection current_dict) w2 = (inr None, w3, t3) ->
  run env (set_secret arn token) w0 = (inl (ConnectionFailed arn), w3, t1 ++ t2 ++ t3) /\
  Forall (fun ev => is_db_statement ev = false /\ is_store_mutation ev = false)
         (t1 ++ t2 ++ t3).
Proof.
  intros Hcur Hpend Hconn. split.
  - unfold set_secret. rewrite run_bind, Hcur, run_bind, Hpend, run_bind, Hconn.
    cbn [run]. by rewrite app_nil_r.
  - pose proof (run_only env _ _ w0 (only_get_secret_dict (VStr arn) "AWSCURRENT" None false)) as H1.
    pose proof (run_only env _ _ w1
                  (only_get_secret_dict (VStr arn) "AWSPENDING" (Some token) false)) as H2.
    pose proof (run_only env _ _ w2 (only_get_connection current_dict)) as H3.
    rewrite Hcur in H1. rewrite Hpend in H2. rewrite Hconn in H3. cbn [snd] in *.
    rewrite !Forall_app. repeat split.
    + eapply Forall_impl; [exact H1|]. by intros [? []].
    + eapply Forall_impl; [exact H2|]. by intros [? []].
    + eapply Forall_impl; [exact H3|]. by intros [? []].
Qed.

End MasterStep.

(** ** Which step issues which call *)

Section Discipline.
Context `{PyLib}.

Ltac only_split :=
  repeat first
    [ apply only_invoke; by repeat split
    | only_step | only_case ].

Lemma only_get_random_password :
  only (fun ev => is_lookup ev = false /\ is_database ev = false
                  /\ is_store_mutation ev = false) get_random_password.
Proof. unfold get_random_password. only_split. Qed.

Lemma only_create_secret (arn token : string) :
  only (fun ev => is_database ev = false /\ is_update_stage ev = false)
       (create_secret arn token).
Proof.
  unfold create_secret.
  apply only_bind;
    [eapply only_impl; [|apply only_get_secret_dict]; by intros [? []]|intros current_dict].
  apply only_try_except.
  - apply only_bind; [|intros; constructor].
    eapply only_impl; [|apply only_get_secret_dict]. by intros [? []].
  - intros e. destruct (bool_decide _); [|constructor].
    apply only_bind; [apply only_getitem|intros username].
    apply only_bind; [apply only_lift|intros alt].
    apply only_bind; [|intros password; by apply only_invoke].
    eapply only_impl; [|apply only_get_random_password].
    intros ev (_ & Hdb & Hm). by apply orb_false_iff in Hm as [_ Hup].
Qed.

Lemma only_set_secret_as_master current_dict pending_dict master_dict master_arn :
  only (fun ev => is_store_mutation ev = false)
       (set_secret_as_master current_dict pending_dict master_dict master_arn).
Proof.
  unfold set_secret_as_master.
  apply only_bind;
    [eapply only_impl; [|apply only_get_connection]; by intros [? []]|intros [c|]];
    [|constructor].
  apply only_try_finally; [|by apply only_invoke].
  apply only_bind; [by apply only_invoke|intros cur].
  apply only_try_finally; [|by apply only_invoke].
  unfold first_column. only_auto.
Qed.

Lemma only_set_secret (arn token : string) :
  only (fun ev => is_store_mutation ev = false) (set_secret arn token).
Proof.
  assert (forall a s t m, only (fun ev => is_store_mutation ev = false)
                               (get_secret_dict a s t m)) as Hdict.
  { intros. eapply only_impl; [|apply only_get_secret_dict]. by intros [? []]. }
  assert (forall d, only (fun ev => is_store_mutation ev = false) (get_connection d)) as Hconn.
  { intros. eapply only_impl; [|apply only_get_connection]. by intros [? []]. }
  unfold set_secret.
  repeat first
    [ apply Hdict | apply Hconn | apply only_set_secret_as_master
    | eapply only_impl; [|apply only_is_rds_replica_database]; by intros [? []]
    | only_step | only_case ].
Qed.

Lemma only_test_secret (arn token : string) :
  only (fun ev => is_store_mutation ev = false) (test_secret arn token).
Proof.
  unfold test_secret.
  apply only_bind;
    [eapply only_impl; [|apply only_get_secret_dict]; by intros [? []]|intros pending_dict].
  apply only_bind;
    [eapply only_impl; [|apply only_get_connection]; by intros [? []]|intros [c|]];
    [|constructor].
  apply only_try_finally; [|by apply only_invoke].
  apply only_bind; [by apply only_invoke|intros cur].
  apply only_try_finally; [|by apply only_invoke].
  only_auto.
Qed.

Lemma only_finish_secret (arn token : string) :
  only (fun ev => is_database ev = false /\ is_put_secret_value ev = false)
       (finish_secret arn token).
Proof. unfold finish_secret. only_split. Qed.

Lemma only_lambda_handler (event : rotation_event) :
  only (allowed_in (Step event)) (lambda_handler event).
Proof.
  unfold lambda_handler.
  apply only_bind; [by apply only_invoke|intros md].
  destruct (bool_decide (RotationEnabled md = Some false)); [constructor|].
  apply only_bind; [apply only_member|intros versions].
  destruct (stages_of versions (ClientRequestToken event)) as [stages|]; [|constructor].
  destruct (bool_decide ("AWSCURRENT" ∈ stages)); [constructor|].
  destruct (negb _); [constructor|].
  destruct (decide (Step event = "createSecret")) as [Hs|Hs];
    [rewrite bool_decide_eq_true_2 by done|rewrite bool_decide_eq_false_2 by done].
  { eapply only_impl; [|apply only_create_secret]. intros ev [Hdb Hup].
    unfold allowed_in. rewrite Hdb, Hup. by repeat split. }
  clear Hs.
  destruct (decide (Step event = "setSecret")) as [Hs|Hs];
    [rewrite bool_decide_eq_true_2 by done|rewrite bool_decide_eq_false_2 by done].
  { eapply only_impl; [|apply only_set_secret]. intros ev Hm.
    apply orb_false_iff in Hm as [Hput Hup].
    unfold allowed_in. rewrite Hput, Hup. repeat split; try done. by left. }
  clear Hs.
  destruct (decide (Step event = "testSecret")) as [Hs|Hs];
    [rewrite bool_decide_eq_true_2 by done|rewrite bool_decide_eq_false_2 by done].
  { eapply only_impl; [|apply only_test_secret]. intros ev Hm.
    apply orb_false_iff in Hm as [Hput Hup].
    unfold allowed_in. rewrite Hput, Hup. repeat split; try done. by right. }
  clear Hs.
  destruct (decide (Step event = "finishSecret")) as [Hs|Hs];
    [rewrite bool_decide_eq_true_2 by done|rewrite bool_decide_eq_false_2 by done].
  { eapply only_impl; [|apply only_finish_secret]. intros ev [Hdb Hput].
    unfold allowed_in. rewrite Hdb, Hput. by repeat split. }
  constructor.
Qed.

Context {W : Type} (env : environment W).

(** X20: [lambda_handler] puts a secret value only in step [createSecret],
    moves a stage label only in step [finishSecret], and touches the database
    only in the steps [setSecret] and [testSecret]. *)
Theorem lambda_handler_call_discipline (event : rotation_event) (w : W) :
  Forall (fun ev =>
            (is_put_secret_value ev = true -> Step event = "createSecret") /\
            (is_update_stage ev = true -> Step event = "finishSecret") /\
            (is_database ev = true ->
             Step event = "setSecret" \/ Step event = "testSecret"))
         (run env (lambda_handler event) w).2.
Proof. apply (run_only env (allowed_in (Step event))), only_lambda_handler. Qed.

(** X21: when [lambda_handler] makes any call other than the one initial
    read of the metadata, the metadata did not have rotation switched off,
    the token was a version of the secret staged AWSPENDING and not
    AWSCURRENT, and the step was one of the four step names. *)
Theorem lambda_handler_guard (t : list event) (event : rotation_event) (w w' : W)
    (r : result unit) :
  run env (lambda_handler event) w = (r, w', t) ->
  t <> [Event (DescribeSecret (VStr (SecretId event)))] ->
  exists md versions stages,
    (respond env (DescribeSecret (VStr (SecretId event))) w).1 = inr md /\
    RotationEnabled md <> Some false /\
    VersionIdsToStages md = Some versions /\
    stages_of versions (ClientRequestToken event) = Some stages /\
    ("AWSPENDING" ∈ stages) /\ ("AWSCURRENT" ∉ stages) /\
    (Step event ∈ ["createSecret"; "setSecret"; "testSecret"; "finishSecret"]).
Proof.
  unfold lambda_handler. cbn [invoke bind run].
  destruct (respond env (DescribeSecret (VStr (SecretId event))) w) as [[e|md] w1];
    cbn [bind run fst]; [by intros [= <- <- <-] ?|].
  destruct (decide (RotationEnabled md = Some false)) as [Hen|Hen];
    [rewrite bool_decide_eq_true_2 by done; cbn [run]; by intros [= <- <- <-] ?|].
  rewrite bool_decide_eq_false_2 by done.
  destruct (VersionIdsToStages md) as [versions|] eqn:Hversions; cbn [member bind run];
    [|by intros [= <- <- <-] ?].
  destruct (stages_of versions (ClientRequestToken event)) as [stages|] eqn:Hstages;
    [|cbn [run]; by intros [= <- <- <-] ?].
  destruct (decide ("AWSCURRENT" ∈ stages)) as [Hcur|Hcur];
    [rewrite bool_decide_eq_true_2 by done; cbn [run]; by intros [= <- <- <-] ?|].
  rewrite bool_decide_eq_false_2 by done.
  destruct (decide ("AWSPENDING" ∈ stages)) as [Hpend|Hpend];
    [rewrite bool_decide_eq_true_2 by done
    |rewrite bool_decide_eq_false_2 by done; cbn [negb run]; by intros [= <- <- <-] ?].
  cbn [negb].
  intros Hrun Ht. exists md, versions, stages. repeat split; try done.
  destruct (decide (Step event = "createSecret")) as [->|?]; [set_solver|].
  destruct (decide (Step event = "setSecret")) as [->|?]; [set_solver|].
  destruct (decide (Step event = "testSecret")) as [->|?]; [set_solver|].
  destruct (decide (Step event = "finishSecret")) as [->|?]; [set_solver|].
  rewrite !bool_decide_eq_false_2 in Hrun by done. cbn [run] in Hrun.
  by injection Hrun as <- <- <-.
Qed.

End Discipline.

(** ** Password generation and the create step *)

Section Creation.
Context `{PyLib}.
Context {W : Type} (env : environment W).

(** X22: a PASSWORD_LENGTH that [int] does not accept makes
    [get_random_password] raise ValueError before the password is requested. *)
Theorem get_random_password_bad_length (s : string) (w : W) :
  environ !! "PASSWORD_LENGTH" = Some s ->
  int_of_str s = None ->
  run env get_random_password w
  = (inl (Exn ValueError "invalid literal for int() with base 10: %s" [VStr s]), w, []).
Proof.
  intros Hs Hint. unfold get_random_password. rewrite Hs. cbn [py_int lift]. by rewrite Hint.
Qed.

(** X23: when the environment sets none of its seven variables,
    [get_random_password] makes one request: 32 characters, excluding colon,
    slash, at sign, both quotes and backslash, no character class excluded,
    each included class required; it returns the password of the answer. *)
Theorem get_random_password_defaults (w : W) :
  (forall name, name ∈ ["EXCLUDE_CHARACTERS"; "PASSWORD_LENGTH"; "EXCLUDE_NUMBERS";
                        "EXCLUDE_PUNCTUATION"; "EXCLUDE_UPPERCASE"; "EXCLUDE_LOWERCASE";
                        "REQUIRE_EACH_INCLUDED_TYPE"] -> environ !! name = None) ->
  run env get_random_password w
  = match respond env (GetRandomPassword default_password_request) w with
    | (inl e, w1) => (inl e, w1, [Event (GetRandomPassword default_password_request)])
    | (inr passwd, w1) =>
        (match RandomPassword passwd with
         | Some p => inr p
         | None => inl (Exn KeyError "RandomPassword" [])
         end, w1, [Event (GetRandomPassword default_password_request)])
    end.
Proof.
  intros Hnone. unfold get_random_password, get_environment_bool.
  rewrite !Hnone by set_solver. cbn [default bind].
  change (GetRandomPassword _) with (GetRandomPassword default_password_request).
  cbn [invoke bind run].
  destruct (respond env (GetRandomPassword default_password_request) w) as [[e|passwd] w1];
    cbn [bind run]; [done|].
  by destruct (RandomPassword passwd).
Qed.

(** X24: when the read of the pending version fails with
    ResourceNotFoundException, [create_secret] puts one new version under the
    token, staged AWSPENDING: the current dictionary with the alternate
    username and the generated password. *)
Theorem create_secret_fresh_version (arn token : string) (w0 w1 w2 w3 : W)
    (t1 t2 t3 : list event) (current_dict : gmap string pyval) (e : exn)
    (username alt password : string) :
  run env (get_secret_dict (VStr arn) "AWSCURRENT" None false) w0
    = (inr current_dict, w1, t1) ->
  run env (get_secret_dict (VStr arn) "AWSPENDING" (Some token) false) w1
    = (inl e, w2, t2) ->
  exn_cls e = ResourceNotFoundException ->
  current_dict !! "username" = Some (VStr username) ->
  get_alt_username username = inr alt ->
  run env get_random_password w2 = (inr password, w3, t3) ->
  let put := PutSecretValue (VStr arn) token
               (json_dumps (<["password" := VStr password]>
                              (<["username" := VStr alt]> current_dict)))
               ["AWSPENDING"] in
  run env (create_secret arn token) w0
  = ((respond env put w3).1, (respond env put w3).2, t1 ++ t2 ++ t3 ++ [Event put]).
Proof.
  intros Hcur Hpend Hcls Huser Halt Hpw put. unfold create_secret.
  rewrite run_bind, Hcur, run_try_except, run_bind, Hpend.
  rewrite bool_decide_eq_true_2 by done.
  unfold getitem. rewrite Huser. cbn [bind get_alt_username_val]. rewrite Halt. cbn [lift bind].
  rewrite run_bind, Hpw, run_invoke. by rewrite !app_assoc.
Qed.

(** X25: an error of the read of the pending version other than
    ResourceNotFoundException leaves [create_secret] with that error; only
    reads were made. *)
Theorem create_secret_other_error (arn token : string) (w0 w1 w2 : W)
    (t1 t2 : list event) (current_dict : gmap string pyval) (e : exn) :
  run env (get_secret_dict (VStr arn) "AWSCURRENT" None false) w0
    = (inr current_dict, w1, t1) ->
  run env (get_secret_dict (VStr arn) "AWSPENDING" (Some token) false) w1
    = (inl e, w2, t2) ->
  exn_cls e <> ResourceNotFoundException ->
  run env (create_secret arn token) w0 = (inl e, w2, t1 ++ t2) /\
  Forall (fun ev => is_lookup ev = true) (t1 ++ t2).
Proof.
  intros Hcur Hpend Hcls. split.
  - unfold create_secret.
    rewrite run_bind, Hcur, run_try_except, run_bind, Hpend.
    rewrite bool_decide_eq_false_2 by done. cbn [run]. by rewrite app_nil_r.
  - pose proof (run_only env _ _ w0 (only_get_secret_dict (VStr arn) "AWSCURRENT" None false)) as H1.
    pose proof (run_only env _ _ w1
                  (only_get_secret_dict (VStr arn) "AWSPENDING" (Some token) false)) as H2.
    rewrite Hcur in H1. rewrite Hpend in H2. cbn [snd] in *.
    by rewrite Forall_app.
Qed.

(** X26: when the current username has no alternate (it is too long, or not a
    string), [create_secret] raises that error and neither generates a
    password nor puts a version. *)
Theorem create_secret_no_alternate (arn token : string) (w0 w1 w2 : W)
    (t1 t2 : list event) (current_dict : gmap string pyval) (e err : exn) (username : pyval) :
  run env (get_secret_dict (VStr arn) "AWSCURRENT" None false) w0
    = (inr current_dict, w1, t1) ->
  run env (get_secret_dict (VStr arn) "AWSPENDING" (Some token) false) w1
    = (inl e, w2, t2) ->
  exn_cls e = ResourceNotFoundException ->
  current_dict !! "username" = Some username ->
  get_alt_username_val username = inl err ->
  run env (create_secret arn token) w0 = (inl err, w2, t1 ++ t2).
Proof.
  intros Hcur Hpend Hcls Huser Halt. unfold create_secret.
  rewrite run_bind, Hcur, run_try_except, run_bind, Hpend.
  rewrite bool_decide_eq_true_2 by done.
  unfold getitem. rewrite Huser. cbn [bind]. rewrite Halt. cbn [lift bind run].
  by rewrite app_nil_r.
Qed.

End Creation.

Lemma find_current_version_other (versions : list (string * list string))
    (token version : string) :
  find_current_version versions token = Some (Some version) ->
  version <> token /\ exists stages, (version, stages) ∈ versions /\ "AWSCURRENT" ∈ stages.
Proof.
  induction versions as [|[v stages] rest IH]; cbn [find_current_version]; [done|].
  case_bool_decide as Hcur.
  - case_bool_decide as Htok; [done|]. intros [= <-]. split; [done|].
    exists stages. split; [apply list_elem_of_here|done].
  - intros Hrest. destruct (IH Hrest) as (Hne & stages' & Hin & Hc).
    split; [done|]. exists stages'. split; [by apply list_elem_of_further|done].
Qed.

(** ** The label move of the finish step *)

Section FinishMove.
Context {W : Type} (env : environment W).

(** X27: every label move of [finish_secret] is on the given secret, moves
    AWSCURRENT to the token, and never names the token as the version to
    remove the label from. *)
Theorem finish_secret_move_target (arn token : string) (w : W) :
  Forall (fun ev => forall id stage move_to remove_from,
            stage_move ev = Some (id, stage, move_to, remove_from) ->
            id = VStr arn /\ stage = "AWSCURRENT" /\ move_to = token /\
            remove_from <> Some token)
         (run env (finish_secret arn token) w).2.
Proof.
  apply run_only. unfold finish_secret.
  apply only_bind; [by apply only_invoke|intros md].
  apply only_bind; [apply only_member|intros versions].
  destruct (find_current_version versions token) as [current_version|] eqn:Hfind;
    [|constructor].
  apply only_invoke. intros id stage move_to remove_from [= <- <- <- <-].
  repeat split. intros ->.
  by destruct (find_current_version_other versions token token Hfind).
Qed.

End FinishMove.

(** ** The deployments at work *)

Lemma get_secret_dict_postcondition_witness :
  is_Some (Scenario.current_payload !! "host") /\
  is_Some (Scenario.current_payload !! "username") /\
  is_Some (Scenario.current_payload !! "password") /\
  exists engine, Scenario.current_payload !! "engine" = Some (VStr engine) /\
                 engine ∈ supported_engines.
Proof.
  exact (get_secret_dict_postcondition (H:=Scenario.lib) Scenario.world
           (VStr "app-secret") "AWSCURRENT" None false
           (Scenario.healthy, Scenario.start) (Scenario.healthy, Scenario.start)
           Scenario.current_payload
           [Event (GetSecretValue (VStr "app-secret") None "AWSCURRENT")] eq_refl).
Defined.

Lemma get_secret_dict_validation_witness :
  run Scenario.world
      (get_secret_dict (H:=Scenario.lib) (VStr "master-secret") "AWSCURRENT" None false)
      (Scenario.linked, Scenario.start)
  = (inl (MissingField "host"), (Scenario.linked, Scenario.start),
     [Event (GetSecretValue (VStr "master-secret") None "AWSCURRENT")]).
Proof.
  exact (get_secret_dict_validation (H:=Scenario.lib) Scenario.world
           (VStr "master-secret") "AWSCURRENT" None (Scenario.linked, Scenario.start)
           Scenario.managed_master_payload eq_refl).
Defined.

Lemma get_secret_dict_master_with_connection_info_witness :
  run Scenario.world
      (get_secret_dict (H:=Scenario.lib) (VStr "master-secret") "AWSCURRENT" None true)
      (Scenario.healthy, Scenario.start)
  = (inr Scenario.master_payload, (Scenario.healthy, Scenario.start),
     [Event (GetSecretValue (VStr "master-secret") None "AWSCURRENT")]).
Proof.
  exact (get_secret_dict_master_with_connection_info (H:=Scenario.lib) Scenario.world
           (VStr "master-secret") "AWSCURRENT" None
           (Scenario.healthy, Scenario.start) (Scenario.healthy, Scenario.start)
           "master.json" Scenario.master_payload eq_refl eq_refl
           ltac:(vm_compute; discriminate)).
Defined.

Lemma fetch_instance_arn_last_tag_wins_witness :
  run Scenario.world
      (fetch_instance_arn_from_system_tags (VStr "master-secret"))
      (Fleet.relinked, Scenario.start)
  = (inr (Some {| ARN_SYSTEM_TAG := "aws:rds:primarydbinstancearn";
                  ARN := Scenario.appdb_arn |}),
     (Fleet.relinked, Scenario.start), [Event (DescribeSecret (VStr "master-secret"))]).
Proof.
  exact (fetch_instance_arn_last_tag_wins Scenario.world (VStr "master-secret")
           (Fleet.relinked, Scenario.start) (Fleet.relinked, Scenario.start)
           {| RotationEnabled := None;
              VersionIdsToStages := Some [("m1", ["AWSCURRENT"])];
              Tags := Some ([ {| Key := "aws:rds:primaryDBClusterArn";
                                 Value := Fleet.cluster_arn |} ]
                            ++ {| Key := "aws:rds:primaryDBInstanceArn";
                                  Value := Scenario.appdb_arn |}
                            :: [ {| Key := "Team"; Value := "payments" |} ]) |}
           [ {| Key := "aws:rds:primaryDBClusterArn"; Value := Fleet.cluster_arn |} ]
           [ {| Key := "Team"; Value := "payments" |} ]
           {| Key := "aws:rds:primaryDBInstanceArn"; Value := Scenario.appdb_arn |}
           eq_refl eq_refl eq_refl
           ltac:(repeat constructor)).
Defined.

Lemma get_connection_params_keeps_credentials_witness :
  (forall key : string,
     key ∉ ["host"; "port"; "engine"] ->
     resolved Scenario.managed_master_payload "appdb.abc.example.com" 5432 "postgres" !! key
     = Scenario.managed_master_payload !! key) /\
  (resolved Scenario.managed_master_payload "appdb.abc.example.com" 5432 "postgres"
   = Scenario.managed_master_payload \/
   exists (address : string) (port : Z) (engine : string),
     resolved Scenario.managed_master_payload "appdb.abc.example.com" 5432 "postgres" !! "host"
       = Some (VStr address) /\
     resolved Scenario.managed_master_payload "appdb.abc.example.com" 5432 "postgres" !! "port"
       = Some (VInt port) /\
     resolved Scenario.managed_master_payload "appdb.abc.example.com" 5432 "postgres" !! "engine"
       = Some (VStr engine)).
Proof.
  exact (get_connection_params_keeps_credentials Scenario.outside
           Scenario.managed_master_payload
           (resolved Scenario.managed_master_payload "appdb.abc.example.com" 5432 "postgres")
           {| ARN_SYSTEM_TAG := "aws:rds:primarydbinstancearn"; ARN := Scenario.appdb_arn |}
           Scenario.start Scenario.start
           [Event (DescribeDBInstances Scenario.appdb_arn)] eq_refl).
Defined.

Lemma is_rds_replica_database_other_engine_witness :
  run Fleet.closed
      (is_rds_replica_database Scenario.current_payload Fleet.mysql_payload) tt
  = (inr false, tt, []).
Proof.
  exact (is_rds_replica_database_other_engine Fleet.closed
           Scenario.current_payload Fleet.mysql_payload
           "appdb.abc.example.com" "primary.abc.example.com" (VStr "mysql") tt
           eq_refl eq_refl eq_refl ltac:(discriminate) ltac:(discriminate)).
Defined.

Lemma is_rds_replica_database_postgres_witness :
  run Fleet.control_plane
      (is_rds_replica_database Fleet.replica_payload Scenario.master_payload) tt
  = (inr true, tt, [Event (DescribeDBInstances "appdb-replica")]).
Proof.
  exact (is_rds_replica_database_postgres Fleet.control_plane
           Fleet.replica_payload Scenario.master_payload
           "appdb-replica.abc.example.com" "appdb.abc.example.com" "appdb-replica" "appdb"
           tt tt Fleet.replica [] eq_refl eq_refl eq_refl eq_refl eq_refl eq_refl).
Defined.

Lemma is_rds_replica_database_aurora_writer_endpoint_witness :
  run Fleet.control_plane
      (is_rds_replica_database Fleet.reader_payload
         Fleet.writer_endpoint_payload) tt
  = (inr true, tt, [Event (DescribeDBClusters "orders")]).
Proof.
  exact (is_rds_replica_database_aurora_writer_endpoint Fleet.control_plane
           Fleet.reader_payload Fleet.writer_endpoint_payload
           "orders-2.abc.example.com" "orders.cluster-abc.example.com"
           "orders-2" "orders" "cluster-abc" tt tt Fleet.orders []
           [("orders-1", true); ("orders-2", false)]
           eq_refl eq_refl eq_refl eq_refl eq_refl eq_refl eq_refl eq_refl eq_refl).
Defined.

Lemma is_rds_replica_database_aurora_without_cluster_witness :
  run Fleet.control_plane
      (is_rds_replica_database Fleet.reader_payload Fleet.lone_payload) tt
  = (inr false, tt, [Event (DescribeDBInstances "lone")]).
Proof.
  exact (is_rds_replica_database_aurora_without_cluster Fleet.control_plane
           Fleet.reader_payload Fleet.lone_payload
           "orders-2.abc.example.com" "lone.abc.example.com"
           "orders-2" "lone" "abc" tt tt Fleet.lone []
           eq_refl eq_refl eq_refl eq_refl eq_refl eq_refl eq_refl eq_refl eq_refl).
Defined.

Lemma test_secret_outcome_witness :
  exists r w3 body,
    run Scenario.world (test_secret (H:=Scenario.lib) "app-secret" "v2")
        (Scenario.healthy, Scenario.start)
    = (r, w3,
       [Event (GetSecretValue (VStr "app-secret") (Some "v2") "AWSPENDING")]
       ++ [Event (PgConnect Fleet.pending_login)] ++ body ++ [Event (PgClose 0%nat)]) /\
    Forall (fun ev => statement_of ev = None \/ statement_of ev = Some "SELECT NOW()") body /\
    (r = inr tt ->
     exists cur, body = [Event (PgCursor 0%nat); Event (PgExecute cur "SELECT NOW()" []);
                         Event (PgCommit 0%nat); Event (PgCursorClose cur)]).
Proof.
  exact (test_secret_outcome (H:=Scenario.lib) Scenario.world "app-secret" "v2"
           (Scenario.healthy, Scenario.start) (Scenario.healthy, Scenario.start)
           (Scenario.healthy, (1%nat, []))
           [Event (GetSecretValue (VStr "app-secret") (Some "v2") "AWSPENDING")]
           [Event (PgConnect Fleet.pending_login)]
           Scenario.pending_payload (Some 0%nat) eq_refl eq_refl).
Defined.

Lemma set_secret_as_master_outcome_witness :
  exists r w' body,
    run Scenario.outside
        (set_secret_as_master (H:=Scenario.lib) Scenario.current_payload
           Scenario.pending_payload Scenario.master_payload (VStr "master-secret"))
        Scenario.start
    = (r, w', [Event (PgConnect Fleet.master_login)] ++ body ++ [Event (PgClose 0%nat)]) /\
    (r = inr tt ->
     exists (cur : cursor) (pu cu pw pending_username current_username : pyval)
            (rest1 rest2 : list pyval) (rows : list (list pyval))
            (w2 w3 w4 w5 w6 w7 w8 : nat * list pyval),
       Scenario.pending_payload !! "username" = Some pu /\
       Scenario.current_payload !! "username" = Some cu /\
       Scenario.pending_payload !! "password" = Some pw /\
       respond Scenario.outside (PgCursor 0%nat) (1%nat, []) = (inr cur, w2) /\
       respond Scenario.outside (PgExecute cur "SELECT quote_ident(%s)" [pu]) w2 = (inr tt, w3) /\
       respond Scenario.outside (PgFetchone cur) w3 = (inr (Some (pending_username :: rest1)), w4) /\
       respond Scenario.outside (PgExecute cur "SELECT quote_ident(%s)" [cu]) w4 = (inr tt, w5) /\
       respond Scenario.outside (PgFetchone cur) w5 = (inr (Some (current_username :: rest2)), w6) /\
       respond Scenario.outside (PgExecute cur "SELECT 1 FROM pg_roles where rolname = %s" [pu]) w6
         = (inr tt, w7) /\
       respond Scenario.outside (PgFetchall cur) w7 = (inr rows, w8) /\
       body = [ Event (PgCursor 0%nat);
                Event (PgExecute cur "SELECT quote_ident(%s)" [pu]);
                Event (PgFetchone cur);
                Event (PgExecute cur "SELECT quote_ident(%s)" [cu]);
                Event (PgFetchone cur);
                Event (PgExecute cur "SELECT 1 FROM pg_roles where rolname = %s" [pu]);
                Event (PgFetchall cur) ]
              ++ password_statements cur pending_username current_username pw rows
              ++ [ Event (PgCommit 0%nat); Event (PgCursorClose cur) ]).
Proof.
  exact (set_secret_as_master_outcome (H:=Scenario.lib) Scenario.outside
           Scenario.current_payload Scenario.pending_payload Scenario.master_payload
           (VStr "master-secret") Scenario.start (1%nat, [])
           [Event (PgConnect Fleet.master_login)] (Some 0%nat) eq_refl).
Defined.

Lemma set_secret_current_login_required_witness :
  run (Store.env Fleet.closed) (set_secret (H:=Scenario.lib) "app-secret" "v2")
      (Scenario.healthy, tt)
  = (inl (ConnectionFailed "app-secret"), (Scenario.healthy, tt),
     [Event (GetSecretValue (VStr "app-secret") None "AWSCURRENT")]
     ++ [Event (GetSecretValue (VStr "app-secret") (Some "v2") "AWSPENDING")]
     ++ [Event (PgConnect Scenario.app_login); Event (PgConnect Fleet.app_login_plain)]) /\
  Forall (fun ev => is_db_statement ev = false /\ is_store_mutation ev = false)
         ([Event (GetSecretValue (VStr "app-secret") None "AWSCURRENT")]
          ++ [Event (GetSecretValue (VStr "app-secret") (Some "v2") "AWSPENDING")]
          ++ [Event (PgConnect Scenario.app_login); Event (PgConnect Fleet.app_login_plain)]).
Proof.
  exact (set_secret_current_login_required (H:=Scenario.lib) (Store.env Fleet.closed)
           "app-secret" "v2"
           (Scenario.healthy, tt) (Scenario.healthy, tt) (Scenario.healthy, tt)
           (Scenario.healthy, tt)
           [Event (GetSecretValue (VStr "app-secret") None "AWSCURRENT")]
           [Event (GetSecretValue (VStr "app-secret") (Some "v2") "AWSPENDING")]
           [Event (PgConnect Scenario.app_login); Event (PgConnect Fleet.app_login_plain)]
           Scenario.current_payload Scenario.pending_payload eq_refl eq_refl eq_refl).
Defined.

Lemma lambda_handler_guard_witness :
  exists md versions stages,
    (respond Scenario.world (DescribeSecret (VStr "app-secret"))
       (Scenario.healthy, Scenario.start)).1 = inr md /\
    RotationEnabled md <> Some false /\
    VersionIdsToStages md = Some versions /\
    stages_of versions "v2" = Some stages /\
    ("AWSPENDING" ∈ stages) /\ ("AWSCURRENT" ∉ stages) /\
    ("testSecret" ∈ ["createSecret"; "setSecret"; "testSecret"; "finishSecret"]).
Proof.
  exact (lambda_handler_guard (H:=Scenario.lib) Scenario.world
           [Event (DescribeSecret (VStr "app-secret"));
            Event (GetSecretValue (VStr "app-secret") (Some "v2") "AWSPENDING");
            Event (PgConnect Fleet.pending_login);
            Event (PgCursor 0%nat); Event (PgExecute 0%nat "SELECT NOW()" []);
            Event (PgCommit 0%nat); Event (PgCursorClose 0%nat); Event (PgClose 0%nat)]
           {| SecretId := "app-secret"; ClientRequestToken := "v2"; Step := "testSecret" |}
           (Scenario.healthy, Scenario.start) (Scenario.healthy, (1%nat, []))
           (inr tt) eq_refl ltac:(discriminate)).
Defined.

Lemma get_random_password_bad_length_witness :
  run Fleet.closed
      (get_random_password (H:=Fleet.with_environ {["PASSWORD_LENGTH" := "long"]})) tt
  = (inl (Exn ValueError "invalid literal for int() with base 10: %s" [VStr "long"]), tt, []).
Proof.
  exact (get_random_password_bad_length (H:=Fleet.with_environ {["PASSWORD_LENGTH" := "long"]})
           Fleet.closed "long" tt eq_refl eq_refl).
Defined.

Lemma get_random_password_defaults_witness :
  run Scenario.outside (get_random_password (H:=Scenario.lib)) Scenario.start
  = (inr "new-password", Scenario.start, [Event (GetRandomPassword default_password_request)]).
Proof.
  exact (get_random_password_defaults (H:=Scenario.lib) Scenario.outside Scenario.start
           (fun name _ => lookup_empty name)).
Defined.

Lemma create_secret_fresh_version_witness :
  let put := PutSecretValue (VStr "app-secret") "v3"
               (@json_dumps Scenario.lib
                  (<["password" := VStr "new-password"]>
                     (<["username" := VStr "app_clone"]> Scenario.current_payload)))
               ["AWSPENDING"] in
  run Scenario.world (create_secret (H:=Scenario.lib) "app-secret" "v3")
      (Scenario.healthy, Scenario.start)
  = ((respond Scenario.world put (Scenario.healthy, Scenario.start)).1,
     (respond Scenario.world put (Scenario.healthy, Scenario.start)).2,
     [Event (GetSecretValue (VStr "app-secret") None "AWSCURRENT")]
     ++ [Event (GetSecretValue (VStr "app-secret") (Some "v3") "AWSPENDING")]
     ++ [Event (GetRandomPassword default_password_request)] ++ [Event put]).
Proof.
  exact (create_secret_fresh_version (H:=Scenario.lib) Scenario.world "app-secret" "v3"
           (Scenario.healthy, Scenario.start) (Scenario.healthy, Scenario.start)
           (Scenario.healthy, Scenario.start) (Scenario.healthy, Scenario.start)
           [Event (GetSecretValue (VStr "app-secret") None "AWSCURRENT")]
           [Event (GetSecretValue (VStr "app-secret") (Some "v3") "AWSPENDING")]
           [Event (GetRandomPassword default_password_request)]
           Scenario.current_payload Store.not_found "app" "app_clone" "new-password"
           eq_refl eq_refl eq_refl eq_refl eq_refl eq_refl).
Defined.

Lemma create_secret_other_error_witness :
  run Scenario.world (create_secret (H:=Scenario.lib) "app-secret" "v2")
      (Fleet.garbled, Scenario.start)
  = (inl MalformedSecret, (Fleet.garbled, Scenario.start),
     [Event (GetSecretValue (VStr "app-secret") None "AWSCURRENT")]
     ++ [Event (GetSecretValue (VStr "app-secret") (Some "v2") "AWSPENDING")]) /\
  Forall (fun ev => is_lookup ev = true)
         ([Event (GetSecretValue (VStr "app-secret") None "AWSCURRENT")]
          ++ [Event (GetSecretValue (VStr "app-secret") (Some "v2") "AWSPENDING")]).
Proof.
  exact (create_secret_other_error (H:=Scenario.lib) Scenario.world "app-secret" "v2"
           (Fleet.garbled, Scenario.start) (Fleet.garbled, Scenario.start)
           (Fleet.garbled, Scenario.start)
           [Event (GetSecretValue (VStr "app-secret") None "AWSCURRENT")]
           [Event (GetSecretValue (VStr "app-secret") (Some "v2") "AWSPENDING")]
           Scenario.current_payload MalformedSecret eq_refl eq_refl ltac:(discriminate)).
Defined.

Lemma create_secret_no_alternate_witness :
  run Scenario.world
      (create_secret (H:=Fleet.with_table [("current.json", Fleet.long_payload)])
         "app-secret" "v3")
      (Scenario.healthy, Scenario.start)
  = (inl UsernameTooLong, (Scenario.healthy, Scenario.start),
     [Event (GetSecretValue (VStr "app-secret") None "AWSCURRENT")]
     ++ [Event (GetSecretValue (VStr "app-secret") (Some "v3") "AWSPENDING")]).
Proof.
  exact (create_secret_no_alternate (H:=Fleet.with_table [("current.json", Fleet.long_payload)])
           Scenario.world "app-secret" "v3"
           (Scenario.healthy, Scenario.start) (Scenario.healthy, Scenario.start)
           (Scenario.healthy, Scenario.start)
           [Event (GetSecretValue (VStr "app-secret") None "AWSCURRENT")]
           [Event (GetSecretValue (VStr "app-secret") (Some "v3") "AWSPENDING")]
           Fleet.long_payload Store.not_found UsernameTooLong (VStr Fleet.long_name)
           eq_refl eq_refl eq_refl eq_refl eq_refl).
Defined.
